(** * make-pdf.js: a .webslider archive rendered to a PDF

    A shallow embedding of [make-pdf.js] and the properties of its
    pipeline: argument check, archive staging, manifest resolution, slide
    enumeration, URL probing against the local file server, the capture
    loop, PDF composition and the cleanup on each way out.

    The program is sequential; every [await] is a call into a collaborator
    (file system, tar, Bun's server, puppeteer, pdf-lib).  The embedding
    keeps the control flow of the script and takes the collaborators'
    answers from a [World]: one run of the script is a function of the
    world it runs in, and produces an exit code and the list of the calls
    and console lines it made, in order. *)

From Stdlib Require Import ZArith QArith Qreduction Qabs Bool List String Ascii.
From Stdlib Require Import Lia Sorting.Sorted Sorting.Permutation.
From Stdlib Require Import DecimalString DecimalNat.
From Stdlib Require Qcanon.
Import ListNotations.

Set Warnings "-register-all".
Set Implicit Arguments.
Unset Strict Implicit.

Open Scope string_scope.
Close Scope list_scope.
Open Scope list_scope.
Open Scope Z_scope.

(* ================================================================== *)
(** ** JavaScript numbers

    A JS Number is an IEEE 754 binary64 value.  Finite non-zero values are
    kept as the rational they denote, in lowest terms; the two zeros, the
    two infinities and NaN are separate.  Every arithmetic result goes
    through [round64], round-to-nearest with ties to even, 53 bits of
    precision, exponents from -1074 (subnormals) to 971. *)

Module Float64.

Inductive number : Type :=
| NaN
| Infinity (neg : bool)
| Zero (neg : bool)
| Fin (q : Q).

(** [ilog2 n d] is the floor of the binary logarithm of [n/d]. *)
Definition ilog2 (n d : positive) : Z :=
  let k := Z.log2 (Zpos n) - Z.log2 (Zpos d) in
  if (if 0 <=? k then Zpos d * 2 ^ k <=? Zpos n
      else Zpos d <=? Zpos n * 2 ^ (- k))
  then k else k - 1.

(** [n/d] divided by [2^e], as a fraction of integers. *)
Definition scaled (n d : positive) (e : Z) : Z * Z :=
  if 0 <=? e then (Zpos n, Zpos d * 2 ^ e) else (Zpos n * 2 ^ (- e), Zpos d).

(** The integer nearest to [N/D], the even one when two are as near. *)
Definition half_even (N D : Z) : Z :=
  let m := N / D in
  let r := N mod D in
  if (D <? 2 * r) || ((D =? 2 * r) && Z.odd m) then m + 1 else m.

(** [m * 2^e] in lowest terms. *)
Definition dyadic (m e : Z) : Q :=
  if 0 <=? e then inject_Z (m * 2 ^ e) else Qred (m # Z.to_pos (2 ^ (- e))).

Definition round_pos (neg : bool) (n d : positive) : number :=
  let e := Z.max (ilog2 n d - 52) (-1074) in
  let '(N, D) := scaled n d e in
  let m := half_even N D in
  if m =? 0 then Zero neg
  else if (971 <? e) || ((e =? 971) && (m =? 2 ^ 53)) then Infinity neg
  else Fin (dyadic (if neg then - m else m) e).

Definition round64 (q : Q) : number :=
  match Qnum q with
  | Z0 => Zero false
  | Zpos n => round_pos false n (Qden q)
  | Zneg n => round_pos true n (Qden q)
  end.

Definition of_Z (z : Z) : number := round64 (inject_Z z).

Definition is_neg (x : number) : bool :=
  match x with
  | NaN => false
  | Infinity s | Zero s => s
  | Fin q => Qnum q <? 0
  end.

(** [x * y] *)
Definition fmul (x y : number) : number :=
  match x, y with
  | NaN, _ | _, NaN => NaN
  | Infinity _, Zero _ | Zero _, Infinity _ => NaN
  | Infinity s, _ | _, Infinity s => Infinity (xorb (is_neg x) (is_neg y))
  | Zero _, _ | _, Zero _ => Zero (xorb (is_neg x) (is_neg y))
  | Fin a, Fin b => round64 (a * b)
  end.

(** [x / y] *)
Definition fdiv (x y : number) : number :=
  match x, y with
  | NaN, _ | _, NaN => NaN
  | Infinity _, Infinity _ | Zero _, Zero _ => NaN
  | Infinity _, _ | _, Zero _ => Infinity (xorb (is_neg x) (is_neg y))
  | Zero _, _ | _, Infinity _ => Zero (xorb (is_neg x) (is_neg y))
  | Fin a, Fin b => round64 (a / b)
  end.

(** [x - y] *)
Definition fsub (x y : number) : number :=
  match x, y with
  | NaN, _ | _, NaN => NaN
  | Infinity s, Infinity s' => if Bool.eqb s s' then NaN else Infinity s
  | Infinity s, _ => Infinity s
  | _, Infinity s => Infinity (negb s)
  | Zero s, Zero s' => Zero (s && negb s')
  | Zero _, Fin b => Fin (Qred (- b))
  | Fin a, Zero _ => Fin (Qred a)
  | Fin a, Fin b => if Qeq_bool a b then Zero false else round64 (a - b)
  end.

(** [x > 0] *)
Definition gt0 (x : number) : bool :=
  match x with
  | Infinity false => true
  | Fin q => 0 <? Qnum q
  | _ => false
  end.

(** [x <= y] *)
Definition fle (x y : number) : bool :=
  match x, y with
  | NaN, _ | _, NaN => false
  | Infinity true, _ | _, Infinity false => true
  | Infinity false, _ | _, Infinity true => false
  | Zero _, Zero _ => true
  | Zero _, Fin b => 0 <? Qnum b
  | Fin a, Zero _ => Qnum a <? 0
  | Fin a, Fin b => Qle_bool a b
  end.

End Float64.
Export Float64.

(* ================================================================== *)
(** ** JavaScript values, as [JSON.parse] returns them *)

Inductive value : Type :=
| VUndefined
| VNull
| VBool (b : bool)
| VNum (n : number)
| VStr (s : string)
| VArr (items : list value)
| VObj (props : list (string * value)).

(** ToBoolean, the test behind [if] and [&&]. *)
Definition truthy (v : value) : bool :=
  match v with
  | VUndefined | VNull => false
  | VBool b => b
  | VNum NaN | VNum (Zero _) => false
  | VNum _ => true
  | VStr s => negb (s =? "")%string
  | VArr _ | VObj _ => true
  end.

Fixpoint assoc {A : Type} (k : string) (l : list (string * A)) : option A :=
  match l with
  | [] => None
  | (k', a) :: rest => if (k' =? k)%string then Some a else assoc k rest
  end.

(** [v?.k] for the keys the script reads ([slideSize], [width], [height]):
    an own property of an object, and undefined on anything else (no
    prototype of a parsed value carries one of these names). *)
Definition opt_get (v : value) (k : string) : value :=
  match v with
  | VObj props => match assoc k props with Some x => x | None => VUndefined end
  | _ => VUndefined
  end.

(** [a && b] *)
Definition js_and (a b : value) : value := if truthy a then b else a.

(* ================================================================== *)
(** ** Strings *)

Definition is_digit (c : ascii) : bool :=
  let n := N_of_ascii c in ((48 <=? n) && (n <=? 57))%N.

Fixpoint all_digits (s : string) : bool :=
  match s with
  | EmptyString => true
  | String c rest => is_digit c && all_digits rest
  end.

(** [/^\d+$/.test(n)] *)
Definition test_digits (n : string) : bool :=
  negb (n =? "")%string && all_digits n.

Fixpoint decimal_value_from (acc : Z) (s : string) : Z :=
  match s with
  | EmptyString => acc
  | String c rest =>
      decimal_value_from (10 * acc + (Z.of_N (N_of_ascii c) - 48)) rest
  end.

(** The mathematical value of a decimal numeral. *)
Definition decimal_value (s : string) : Z := decimal_value_from 0 s.

(** [Number(s)] on the names that passed [test_digits]: the double nearest
    to the numeral's value.  No other string reaches the conversion; on
    those the definition answers NaN and stands for nothing. *)
Definition Number (s : string) : number :=
  if test_digits s then of_Z (decimal_value s) else NaN.

(** [String(i)] for a loop index. *)
Definition String_of_nat (i : nat) : string :=
  NilEmpty.string_of_uint (Nat.to_uint i).

Fixpoint repeat_string (n : nat) (pad : string) : string :=
  match n with
  | O => ""
  | S k => (pad ++ repeat_string k pad)%string
  end.

(** [s.padStart(len, "0")] *)
Definition padStart0 (len : nat) (s : string) : string :=
  (repeat_string (len - String.length s) "0" ++ s)%string.

(* ================================================================== *)
(** ** [Array.prototype.sort]

    The sort is stable (ECMAScript 2019 on); for a comparator that is a
    total preorder every stable sort returns the same array, which the
    insertion below computes.  [after x y] says that the comparison puts
    [x] strictly after [y]. *)

Section Sort.
Variable A : Type.
Variable after : A -> A -> bool.

Fixpoint insert (x : A) (l : list A) : list A :=
  match l with
  | [] => [x]
  | y :: rest => if after x y then y :: insert x rest else x :: l
  end.

Fixpoint Array_sort (l : list A) : list A :=
  match l with
  | [] => []
  | x :: rest => insert x (Array_sort rest)
  end.

End Sort.

(** [(a, b) => Number(a) - Number(b)]: a positive result sorts [a] after
    [b]; NaN counts as zero. *)
Definition numeric_compare (a b : string) : number :=
  fsub (Number a) (Number b).

Definition sort_numeric : list string -> list string :=
  Array_sort (fun a b => gt0 (numeric_compare a b)).

(** [.sort()] with no comparator: by code units. *)
Definition sort_default : list string -> list string :=
  Array_sort (fun a b => String.ltb b a).

(* ================================================================== *)
(** ** The staged tree

    What [tarExtract] leaves under [tmp/project].  Entries are kept in the
    order [readdir] lists them.  A path inside the tree is the list of its
    segments below the staged directory. *)

Inductive node : Type :=
| File (content : string)
| Dir (entries : list (string * node)).

Fixpoint lookup (n : node) (p : list string) : option node :=
  match p with
  | [] => Some n
  | seg :: rest =>
      match n with
      | Dir entries =>
          match assoc seg entries with
          | Some child => lookup child rest
          | None => None
          end
      | File _ => None
      end
  end.

(** [fs.existsSync(p)] *)
Definition existsSync (root : node) (p : list string) : bool :=
  match lookup root p with Some _ => true | None => false end.

Definition node_isDirectory (n : node) : bool :=
  match n with Dir _ => true | File _ => false end.

(** [fs.statSync(p).isDirectory()] on a path that exists. *)
Definition isDirectory (root : node) (p : list string) : bool :=
  match lookup root p with Some n => node_isDirectory n | None => false end.

(** An entry of [readdir(dir, { withFileTypes: true })]. *)
Record Dirent : Type := { dirent_name : string; dirent_isDirectory : bool }.

Definition dirents (entries : list (string * node)) : list Dirent :=
  map (fun e => {| dirent_name := fst e;
                   dirent_isDirectory := node_isDirectory (snd e) |}) entries.

(* ================================================================== *)
(** ** The PDF being built *)

(** An element of [images]. *)
Record Image : Type :=
  { img_path : string; img_width : value; img_height : value }.

(** [pdfPage.drawImage(embedded, { x, y, width, height })]; [draw_jpg] is
    the file whose bytes were embedded. *)
Record Drawn : Type :=
  { draw_jpg : string;
    draw_x : number; draw_y : number;
    draw_width : number; draw_height : number }.

(** [pdfDoc.addPage([w, h])] and what was drawn on it. *)
Record Page : Type :=
  { page_width : number; page_height : number; page_drawn : list Drawn }.

(* ================================================================== *)
(** ** Calls into the collaborators, and the trace of a run *)

Inductive Call : Type :=
| fsp_stat (p : string)
| fsp_mkdtemp
| mkdirp (p : string)
| tarExtract (file dest : string)
| fsp_readFile_staged (p : list string)
| fsp_readdir_staged (p : list string)
| Bun_serve
| srv_stop
| puppeteer_launch (executablePath : string)
| browser_newPage
| page_setViewport (w h : value)
| page_goto (url : string) (timeout : Z)
| sleep (ms : number)
| page_screenshot (p : string) (quality : number) (w h : value)
| PDFDocument_create
| fsp_readFile (p : string)
| pdfDoc_embedJpg (p : string)
| pdfDoc_addPage (w h : number)
| pdfPage_drawImage (d : Drawn)
| pdfDoc_save
| fsp_writeFile (p : string) (doc : list Page)
| browser_close
| fsp_rm (p : string).

Inductive Stream : Type := Log | Warn | Error.

Inductive Message : Type :=
| MUsage
| MPlatform
| MArchiveNotFound (p : string)
| MExtracting (dest : string)
| MExtractFailed
| MSizeFromManifest (w h : value)
| MDefaultSize (w h : value)
| MNoNumericFolders
| MNoSlidesFound
| MNoSlidesInArchive
| MFoundSlides (n : nat)
| MServing (port : string)
| MNoChrome
| MUsingBrowser (p : string)
| MSkippingSlide (s : string)
| MRenderingSlide (i total : nat) (s : string)
| MNoSlidesRendered
| MComposing
| MPdfWritten (p : string) (pages : nat)
| MCleanupFailed (p : string)
| MDone
| MRenderError
| MFatal.

Inductive Event : Type :=
| Called (c : Call) (ok : bool)
| Fetched (p : string) (status : option Z)
| Console (s : Stream) (m : Message).

Inductive Platform : Type := win32 | darwin | linux | other_platform.

(** What a run is given.  [throws t c] says whether call [c], made when
    [t] events have happened, rejects. *)
Record World : Type :=
  { argv0 : string;
    argv1 : string;
    args : list string;
    platform : Platform;
    env : string -> option string;
    homedir : string;
    path_resolve : string -> string;
    path_join : list string -> string;
    path_dirname : string -> string;
    parseInt : string -> number;
    ToNumber_object : value -> number;
    JSON_parse : string -> option value;
    on_disk : string -> bool;
    tmp : string;
    staged : node;
    boundPort : string;
    request_path : string -> option (list string);
    fetch_fails : string -> bool;
    sends_directory : bool;
    throws : nat -> Call -> bool }.

(** How a piece of the script ends: with a value, with an exception on its
    way to the nearest [catch], or with [process.exit].  What is thrown is
    an [Error]: a handler that reads [err.message] does not fail on it. *)
Inductive outcome (A : Type) : Type :=
| Ret (a : A)
| Thrown
| Exited (code : Z).
Arguments Thrown {A}.
Arguments Exited {A} code.

(** A computation is run when [t] events have happened and answers with
    its outcome and the events it added. *)
Definition M (A : Type) : Type := nat -> outcome A * list Event.

Definition ret {A : Type} (a : A) : M A := fun _ => (Ret a, []).

Definition bind {A B : Type} (m : M A) (f : A -> M B) : M B :=
  fun t =>
    match m t with
    | (Ret a, es) => let (o, es') := f a (t + List.length es)%nat in (o, es ++ es')
    | (Thrown, es) => (Thrown, es)
    | (Exited code, es) => (Exited code, es)
    end.

Notation "x <- c1 ;; c2" := (bind c1 (fun x => c2))
  (at level 61, c1 at next level, right associativity).
Notation "c1 ;; c2" := (bind c1 (fun _ => c2))
  (at level 61, right associativity).

(** [try { m } catch { h }] *)
Definition try_catch {A : Type} (m : M A) (h : M A) : M A :=
  fun t =>
    match m t with
    | (Thrown, es) => let (o, es') := h (t + List.length es)%nat in (o, es ++ es')
    | r => r
    end.

Definition throw {A : Type} : M A := fun _ => (Thrown, []).

(** [process.exit(code)] *)
Definition exit {A : Type} (code : Z) : M A := fun _ => (Exited code, []).

Definition console (s : Stream) (m : Message) : M unit :=
  fun _ => (Ret tt, [Console s m]).

(** [await c] *)
Definition call (w : World) (c : Call) : M unit :=
  fun t =>
    if throws w t c then (Thrown, [Called c false])
    else (Ret tt, [Called c true]).

(** [await fsp.readFile(p, "utf8")] inside the staged tree. *)
Definition readFile_staged (w : World) (p : list string) : M string :=
  fun t =>
    match lookup (staged w) p with
    | Some (File content) =>
        if throws w t (fsp_readFile_staged p)
        then (Thrown, [Called (fsp_readFile_staged p) false])
        else (Ret content, [Called (fsp_readFile_staged p) true])
    | _ => (Thrown, [Called (fsp_readFile_staged p) false])
    end.

(** [await fsp.readdir(p, { withFileTypes: true })] inside the staged tree. *)
Definition readdir_staged (w : World) (p : list string) : M (list Dirent) :=
  fun t =>
    match lookup (staged w) p with
    | Some (Dir entries) =>
        if throws w t (fsp_readdir_staged p)
        then (Thrown, [Called (fsp_readdir_staged p) false])
        else (Ret (dirents entries), [Called (fsp_readdir_staged p) true])
    | _ => (Thrown, [Called (fsp_readdir_staged p) false])
    end.

(* ================================================================== *)
(** ** The script *)

Definition process_argv (w : World) : list string :=
  argv0 w :: argv1 w :: args w.

Definition usageExit {A : Type} : M A :=
  console Error MUsage ;; exit 2.

Definition archivePath (w : World) : string :=
  path_resolve w (nth 2 (process_argv w) "").

Definition outPdfPath (w : World) : string :=
  path_resolve w (nth 3 (process_argv w) "").

(** [process.env.K || fallback] *)
Definition env_or (w : World) (k fallback : string) : string :=
  match env w k with
  | Some v => if (v =? "")%string then fallback else v
  | None => fallback
  end.

Definition SLIDE_WAIT_MS (w : World) : number :=
  parseInt w (env_or w "SLIDE_WAIT_MS" "250").

Definition JPEG_QUALITY (w : World) : number :=
  parseInt w (env_or w "JPEG_QUALITY" "90").

Definition chrome_candidates (w : World) : list string :=
  (match env w "CHROME_PATH" with
   | Some p => if (p =? "")%string then [] else [p]
   | None => []
   end) ++
  match platform w with
  | win32 =>
      let programFiles := env_or w "PROGRAMFILES" "C:\Program Files" in
      let programFilesX86 :=
        env_or w "PROGRAMFILES(X86)" "C:\Program Files (x86)" in
      let localAppData :=
        env_or w "LOCALAPPDATA" (path_join w [homedir w; "AppData"; "Local"]) in
      [ path_join w [programFiles; "Google"; "Chrome"; "Application"; "chrome.exe"];
        path_join w [programFilesX86; "Google"; "Chrome"; "Application"; "chrome.exe"];
        path_join w [localAppData; "Google"; "Chrome"; "Application"; "chrome.exe"];
        path_join w [localAppData; "Google"; "Chrome SxS"; "Application"; "chrome.exe"];
        path_join w [programFiles; "Chromium"; "Application"; "chrome.exe"];
        path_join w [programFilesX86; "Chromium"; "Application"; "chrome.exe"];
        path_join w [localAppData; "Chromium"; "Application"; "chrome.exe"];
        path_join w [programFiles; "Microsoft"; "Edge"; "Application"; "msedge.exe"];
        path_join w [programFilesX86; "Microsoft"; "Edge"; "Application"; "msedge.exe"];
        path_join w [programFiles; "BraveSoftware"; "Brave-Browser"; "Application"; "brave.exe"];
        path_join w [programFilesX86; "BraveSoftware"; "Brave-Browser"; "Application"; "brave.exe"];
        path_join w [localAppData; "BraveSoftware"; "Brave-Browser"; "Application"; "brave.exe"] ]
  | darwin =>
      let home := homedir w in
      [ "/Applications/Google Chrome.app/Contents/MacOS/Google Chrome";
        path_join w [home; "Applications"; "Google Chrome.app"; "Contents"; "MacOS"; "Google Chrome"];
        "/Applications/Google Chrome Canary.app/Contents/MacOS/Google Chrome Canary";
        path_join w [home; "Applications"; "Google Chrome Canary.app"; "Contents"; "MacOS"; "Google Chrome Canary"];
        "/Applications/Chromium.app/Contents/MacOS/Chromium";
        path_join w [home; "Applications"; "Chromium.app"; "Contents"; "MacOS"; "Chromium"];
        "/Applications/Brave Browser.app/Contents/MacOS/Brave Browser";
        path_join w [home; "Applications"; "Brave Browser.app"; "Contents"; "MacOS"; "Brave Browser"];
        "/Applications/Microsoft Edge.app/Contents/MacOS/Microsoft Edge";
        "/opt/homebrew/bin/chromium";
        "/usr/local/bin/chromium" ]
  | _ =>
      [ "/usr/bin/google-chrome";
        "/usr/bin/google-chrome-stable";
        "/usr/bin/chromium";
        "/usr/bin/chromium-browser";
        "/opt/google/chrome/chrome";
        "/opt/google/chrome/google-chrome";
        "/snap/bin/chromium";
        "/snap/bin/google-chrome";
        "/var/lib/flatpak/exports/bin/com.google.Chrome";
        "/var/lib/flatpak/exports/bin/org.chromium.Chromium";
        "/usr/bin/brave-browser";
        "/usr/bin/brave";
        "/opt/brave.com/brave/brave-browser" ]
  end.

Definition findSystemChrome (w : World) : option string :=
  find (on_disk w) (chrome_candidates w).

Definition extractTar (w : World) (archive dest : string) : M unit :=
  call w (tarExtract archive dest).

Definition readManifestIfExists (w : World) : M value :=
  try_catch
    (raw <- readFile_staged w ["manifest.json"] ;;
     match JSON_parse w raw with
     | Some v => ret v
     | None => throw
     end)
    (ret VNull).

(** The chain [filter isDirectory / map name / filter digits / sort] of
    [listNumericSlideFolders]. *)
Definition numeric_folders (entries : list Dirent) : list string :=
  sort_numeric
    (filter test_digits
       (map dirent_name (filter dirent_isDirectory entries))).

Definition listNumericSlideFolders (w : World) : M (list string) :=
  try_catch
    (entries <- readdir_staged w ["slides"] ;;
     ret (numeric_folders entries))
    (ret []).

(** ToNumber, the conversion behind [px * 72]. *)
Definition ToNumber (w : World) (v : value) : number :=
  match v with
  | VUndefined => NaN
  | VNull => Zero false
  | VBool true => of_Z 1
  | VBool false => Zero false
  | VNum n => n
  | _ => ToNumber_object w v
  end.

Definition pxToPdfPoints (w : World) (px : value) (dpi : number) : number :=
  fdiv (fmul (ToNumber w px) (of_Z 72)) dpi.

(** What the [fetch(req)] handler of [createServer] returns. *)
Inductive Response : Type :=
| NotFound
| SendFile (fsPath : list string).

(** The [fetch(req)] handler of [createServer], for the path
    [path.join(extracted, decodeURIComponent(url.pathname))] given by its
    segments below [extracted].  The Content-Type header of the response
    is [content_type], further down. *)
Definition createServer_fetch (extracted : node) (fsPath : list string)
  : Response :=
  let fsPath :=
    if existsSync extracted fsPath && isDirectory extracted fsPath then
      let indexPath := fsPath ++ ["index.html"] in
      if existsSync extracted indexPath then indexPath else fsPath
    else fsPath in
  if negb (existsSync extracted fsPath) then NotFound else SendFile fsPath.

(** The status the client sees.  [new Response("Not Found", { status: 404 })]
    is a 404; [new Response(file.stream(), { status: 200, headers })] is a
    200 when Bun sends the file.  When [fsPath] is a directory there is no file to
    send: the world says whether Bun lets the 200 through or answers 500. *)
Definition response_status (w : World) (r : Response) : Z :=
  match r with
  | NotFound => 404
  | SendFile fsPath =>
      if isDirectory (staged w) fsPath
      then (if sends_directory w then 200 else 500)
      else 200
  end.

(** [await fetch(`http://${host}:${boundPort}${p}`)]: [None] when the
    request rejects, else the status.  [request_path w p] is the path the
    handler derives from the request the URL makes; when it derives none
    the handler has thrown and Bun answers 500. *)
Definition fetch_status (w : World) (p : string) : option Z :=
  if fetch_fails w p then None
  else Some (match request_path w p with
             | Some fsPath =>
                 response_status w (createServer_fetch (staged w) fsPath)
             | None => 500
             end).

Definition fetch (w : World) (p : string) : M Z :=
  fun _ =>
    match fetch_status w p with
    | Some status => (Ret status, [Fetched p (Some status)])
    | None => (Thrown, [Fetched p None])
    end.

Definition host : string := "127.0.0.1".

Definition url_of (w : World) (p : string) : string :=
  ("http://" ++ host ++ ":" ++ boundPort w ++ p)%string.

Definition tryPaths (s : string) : list string :=
  [ ("/slides/" ++ s ++ "/index.html")%string;
    ("/slides/" ++ s)%string;
    ("/" ++ s ++ "/index.html")%string;
    ("/" ++ s)%string;
    ("/slides/" ++ s ++ ".html")%string ].

(** The inner [for (const p of tryPaths)] loop. *)
Fixpoint probe (w : World) (paths : list string) : M (option string) :=
  match paths with
  | [] => ret None
  | p :: rest =>
      found <- try_catch (r <- fetch w p ;; ret (r =? 200)) (ret false) ;;
      if found then ret (Some p) else probe w rest
  end.

Definition slide_file (i : nat) : string :=
  ("slide-" ++ padStart0 4 (String_of_nat i) ++ ".jpg")%string.

(** The [for (let i = 0; i < slideDirs.length; i++)] loop, from index [i]
    on; [total] is [slideDirs.length]. *)
Fixpoint render_slides (w : World) (slideWidth slideHeight : value)
    (total i : nat) (slideDirs : list string) (images : list Image)
  : M (list Image) :=
  match slideDirs with
  | [] => ret images
  | s :: rest =>
      urlPath <- probe w (tryPaths s) ;;
      match urlPath with
      | None =>
          console Warn (MSkippingSlide s) ;;
          render_slides w slideWidth slideHeight total (S i) rest images
      | Some urlPath =>
          let url := url_of w urlPath in
          console Log (MRenderingSlide (i + 1) total s) ;;
          call w (page_goto url 30000) ;;
          call w (sleep (SLIDE_WAIT_MS w)) ;;
          let imgPath := path_join w [tmp w; slide_file i] in
          call w (page_screenshot imgPath (JPEG_QUALITY w)
                    slideWidth slideHeight) ;;
          render_slides w slideWidth slideHeight total (S i) rest
            (images ++ [{| img_path := imgPath;
                           img_width := slideWidth;
                           img_height := slideHeight |}])
      end
  end.

(** The [for (const img of images)] loop; [pages] is the document so far. *)
Fixpoint compose (w : World) (images : list Image) (pages : list Page)
  : M (list Page) :=
  match images with
  | [] => ret pages
  | img :: rest =>
      call w (fsp_readFile (img_path img)) ;;
      call w (pdfDoc_embedJpg (img_path img)) ;;
      let widthPts := pxToPdfPoints w (img_width img) (of_Z 96) in
      let heightPts := pxToPdfPoints w (img_height img) (of_Z 96) in
      call w (pdfDoc_addPage widthPts heightPts) ;;
      let d := {| draw_jpg := img_path img;
                  draw_x := of_Z 0; draw_y := of_Z 0;
                  draw_width := widthPts; draw_height := heightPts |} in
      call w (pdfPage_drawImage d) ;;
      compose w rest
        (pages ++ [{| page_width := widthPts; page_height := heightPts;
                      page_drawn := [d] |}])
  end.

(** Step 3 of [main]: the canvas size. *)
Definition slideSize (manifest : value) : value * value :=
  let width := opt_get (opt_get manifest "slideSize") "width" in
  let height := opt_get (opt_get manifest "slideSize") "height" in
  if truthy (js_and width height) then (width, height)
  else (VNum (of_Z 1280), VNum (of_Z 720)).

(** The fallback scan of step 4. *)
Definition fallback_folders (w : World) (entries : list Dirent) : list string :=
  sort_default
    (filter (fun n => existsSync (staged w) ["slides"; n; "index.html"])
       (map dirent_name (filter dirent_isDirectory entries))).

(** Step 4 of [main]: the slide folders, in page order. *)
Definition findSlides (w : World) : M (list string) :=
  slideDirs <- listNumericSlideFolders w ;;
  slideDirs <-
    (if (List.length slideDirs =? 0)%nat then
       console Warn MNoNumericFolders ;;
       try_catch
         (entries <- readdir_staged w ["slides"] ;;
          ret (fallback_folders w entries))
         (console Error MNoSlidesFound ;; exit 1)
     else ret slideDirs) ;;
  if (List.length slideDirs =? 0)%nat then
    console Error MNoSlidesInArchive ;; exit 1
  else ret slideDirs.

(** The body of the [try] block of [main]: capture, compose, write, clean
    up. *)
Definition render (w : World) (slideWidth slideHeight : value)
    (slideDirs : list string) : M unit :=
  call w browser_newPage ;;
  call w (page_setViewport slideWidth slideHeight) ;;
  images <- render_slides w slideWidth slideHeight
              (List.length slideDirs) 0 slideDirs [] ;;
  if (List.length images =? 0)%nat then
    console Error MNoSlidesRendered ;;
    call w browser_close ;;
    call w srv_stop ;;
    exit 1
  else
    console Log MComposing ;;
    call w PDFDocument_create ;;
    pages <- compose w images [] ;;
    let outDir := path_dirname w (outPdfPath w) in
    (if negb (outDir =? "")%string && negb (outDir =? ".")%string
     then call w (mkdirp outDir) else ret tt) ;;
    call w pdfDoc_save ;;
    call w (fsp_writeFile (outPdfPath w) pages) ;;
    console Log (MPdfWritten (outPdfPath w) (List.length images)) ;;
    call w browser_close ;;
    call w srv_stop ;;
    try_catch (call w (fsp_rm (tmp w))) (console Warn (MCleanupFailed (tmp w))) ;;
    console Log MDone.

(** The [catch (err)] block of [main]. *)
Definition render_failed (w : World) : M unit :=
  console Error MRenderError ;;
  try_catch (call w browser_close ;; call w srv_stop) (ret tt) ;;
  exit 1.

(** Steps 1 to 6 of [main], up to the launch of the browser: the canvas
    size and the slide folders the [try] block works on. *)
Definition main_setup (w : World) : M (value * value * list string) :=
  console Log MPlatform ;;
  try_catch (call w (fsp_stat (archivePath w)))
    (console Error (MArchiveNotFound (archivePath w)) ;; exit 1) ;;
  call w fsp_mkdtemp ;;
  let extracted := path_join w [tmp w; "project"] in
  call w (mkdirp extracted) ;;
  console Log (MExtracting extracted) ;;
  try_catch (extractTar w (archivePath w) extracted)
    (console Error MExtractFailed ;; exit 1) ;;
  manifest <- readManifestIfExists w ;;
  let (slideWidth, slideHeight) := slideSize manifest in
  console Log
    (if truthy (js_and (opt_get (opt_get manifest "slideSize") "width")
                  (opt_get (opt_get manifest "slideSize") "height"))
     then MSizeFromManifest slideWidth slideHeight
     else MDefaultSize slideWidth slideHeight) ;;
  slideDirs <- findSlides w ;;
  console Log (MFoundSlides (List.length slideDirs)) ;;
  call w Bun_serve ;;
  console Log (MServing (boundPort w)) ;;
  match findSystemChrome w with
  | None =>
      console Error MNoChrome ;;
      call w srv_stop ;;
      exit 1
  | Some chromePath =>
      console Log (MUsingBrowser chromePath) ;;
      call w (puppeteer_launch chromePath) ;;
      ret (slideWidth, slideHeight, slideDirs)
  end.

Definition main (w : World) : M unit :=
  setup <- main_setup w ;;
  let '(slideWidth, slideHeight, slideDirs) := setup in
  try_catch (render w slideWidth slideHeight slideDirs) (render_failed w).

(** The module: the argument check, then [main().catch(...)]. *)
Definition program (w : World) : M unit :=
  if (List.length (process_argv w) <? 4)%nat then usageExit
  else try_catch (main w) (console Error MFatal ;; exit 1).

(** A request made the handler of the server fail: it was answered 500. *)
Definition handler_failed (es : list Event) : bool :=
  existsb (fun e => match e with
                    | Fetched _ (Some status) => status =? 500
                    | _ => false
                    end) es.

(** A run: the exit code of the process and what it did.  The script sets
    no exit code at its end.  The process then leaves with code 0, unless
    a request made the handler of the server fail: [Bun.serve] is given no
    [error] handler, Bun reports the error as one nobody handled, and the
    process leaves with code 1.  An exception nobody caught makes it
    leave with code 1 as well. *)
Definition run (w : World) : Z * list Event :=
  match program w 0%nat with
  | (Ret _, es) => (if handler_failed es then 1 else 0, es)
  | (Thrown, es) => (1, es)
  | (Exited code, es) => (code, es)
  end.

(* ================================================================== *)
(** ** Worlds to run the script in *)

(** The segments of a request path that the URL parser and
    [decodeURIComponent] leave as it is - no [%], no backslash, no [.] or
    [..] segment, nothing to escape: cut at the first [?] or [#] (a URL's
    path ends there), split at [/].  The sample runs below request such
    paths only. *)
Fixpoint path_segments (cur : string) (s : string) : list string :=
  match s with
  | EmptyString => if (cur =? "")%string then [] else [cur]
  | String c rest =>
      if (Ascii.eqb c "?" || Ascii.eqb c "#")%char
      then (if (cur =? "")%string then [] else [cur])
      else if Ascii.eqb c "/"
           then (if (cur =? "")%string then [] else [cur]) ++ path_segments "" rest
           else path_segments (cur ++ String c "")%string rest
  end.

Definition plain_request_path (p : string) : option (list string) :=
  Some (path_segments "" p).

(** No call ever rejects. *)
Definition calm : nat -> Call -> bool := fun _ _ => false.

(** A Linux machine with Chromium installed, serving [tree], started with
    the arguments [positional]; [failing] says which calls reject.  The
    machine is described as far as the sample runs ask: request paths are
    plain, no file holds JSON ([wide_world] has its own [JSON.parse]),
    and the only values converted to numbers besides numbers are strings
    of digits. *)
Definition linux_world (tree : node) (positional : list string)
    (failing : nat -> Call -> bool) : World :=
  {| argv0 := "bun";
     argv1 := "/app/make-pdf.js";
     args := positional;
     platform := linux;
     env := fun _ => None;
     homedir := "/home/user";
     path_resolve := fun p => p;
     path_join := String.concat "/";
     path_dirname := fun _ => "/out";
     parseInt := fun s => if (s =? "250")%string then of_Z 250 else of_Z 90;
     ToNumber_object := fun v => match v with VStr s => Number s | _ => NaN end;
     JSON_parse := fun _ => None;
     on_disk := fun p => (p =? "/usr/bin/chromium")%string;
     tmp := "/tmp/webslider-abc";
     staged := tree;
     boundPort := "40000";
     request_path := plain_request_path;
     fetch_fails := fun _ => false;
     sends_directory := false;
     throws := failing |}.

Definition slide : node := Dir [("index.html", File "<html></html>")].

(** Three numeric folders, listed out of order. *)
Definition deck_10_9_2 : node :=
  Dir [("slides", Dir [("10", slide); ("9", slide); ("2", slide)])].

(* ================================================================== *)
(** ** Reading a run

    Pure views of what the loops do, and observations on a trace. *)

(** The test of the probing loop on one candidate: the request went
    through and [r.status === 200]. *)
Definition answers_200 (w : World) (p : string) : bool :=
  match fetch_status w p with
  | Some status => status =? 200
  | None => false
  end.

(** [urlPath] after the probing loop. *)
Definition resolve (w : World) (s : string) : option string :=
  find (answers_200 w) (tryPaths s).

(** The candidates the probing loop requests: up to the first that answers
    200, all of them when none does. *)
Fixpoint probed (w : World) (paths : list string) : list string :=
  match paths with
  | [] => []
  | p :: rest => p :: (if answers_200 w p then [] else probed w rest)
  end.

Definition fetches (w : World) (paths : list string) : list Event :=
  map (fun p => Fetched p (fetch_status w p)) (probed w paths).

(** The 2xx class of HTTP status codes. *)
Definition http_success (status : Z) : bool :=
  (200 <=? status) && (status <? 300).

Definition answers_success (w : World) (p : string) : bool :=
  match fetch_status w p with
  | Some status => http_success status
  | None => false
  end.

Definition imgPath (w : World) (i : nat) : string :=
  path_join w [tmp w; slide_file i].

(** A slide whose URL resolved: the folder, its index in [slideDirs], the
    path that answered. *)
Record Capture : Type :=
  { cap_slide : string; cap_index : nat; cap_urlPath : string }.

Fixpoint captures (w : World) (i : nat) (slideDirs : list string)
  : list Capture :=
  match slideDirs with
  | [] => []
  | s :: rest =>
      match resolve w s with
      | Some p =>
          {| cap_slide := s; cap_index := i; cap_urlPath := p |}
          :: captures w (S i) rest
      | None => captures w (S i) rest
      end
  end.

Definition image_of (w : World) (slideWidth slideHeight : value)
    (c : Capture) : Image :=
  {| img_path := imgPath w (cap_index c);
     img_width := slideWidth;
     img_height := slideHeight |}.

Definition screenshot_of (w : World) (slideWidth slideHeight : value)
    (c : Capture) : Call :=
  page_screenshot (imgPath w (cap_index c))
    (JPEG_QUALITY w) slideWidth slideHeight.

(** What the capture loop adds to the trace when nothing rejects. *)
Fixpoint render_trace (w : World) (slideWidth slideHeight : value)
    (total i : nat) (slideDirs : list string) : list Event :=
  match slideDirs with
  | [] => []
  | s :: rest =>
      fetches w (tryPaths s) ++
      match resolve w s with
      | None => [Console Warn (MSkippingSlide s)]
      | Some p =>
          [ Console Log (MRenderingSlide (i + 1) total s);
            Called (page_goto (url_of w p) 30000) true;
            Called (sleep (SLIDE_WAIT_MS w)) true;
            Called (screenshot_of w slideWidth slideHeight
                      {| cap_slide := s; cap_index := i; cap_urlPath := p |})
              true ]
      end ++
      render_trace w slideWidth slideHeight total (S i) rest
  end.

(** The page the composer adds for an image. *)
Definition page_of (w : World) (img : Image) : Page :=
  let widthPts := pxToPdfPoints w (img_width img) (of_Z 96) in
  let heightPts := pxToPdfPoints w (img_height img) (of_Z 96) in
  {| page_width := widthPts;
     page_height := heightPts;
     page_drawn := [{| draw_jpg := img_path img;
                       draw_x := of_Z 0; draw_y := of_Z 0;
                       draw_width := widthPts;
                       draw_height := heightPts |}] |}.

(** Events of the capture loop. *)
Definition render_event (e : Event) : bool :=
  match e with
  | Fetched _ _ => true
  | Console Warn (MSkippingSlide _) => true
  | Console Log (MRenderingSlide _ _ _) => true
  | Called (page_goto _ timeout) _ => timeout =? 30000
  | Called (sleep _) _ => true
  | Called (page_screenshot _ _ _ _) _ => true
  | _ => false
  end.

(** Events of the composing loop. *)
Definition compose_event (e : Event) : bool :=
  match e with
  | Called (fsp_readFile _) _ => true
  | Called (pdfDoc_embedJpg _) _ => true
  | Called (pdfDoc_addPage _ _) _ => true
  | Called (pdfPage_drawImage _) _ => true
  | _ => false
  end.

(** Every call in the trace went through. *)
Definition all_ok (es : list Event) : bool :=
  forallb (fun e => match e with Called _ ok => ok | _ => true end) es.

Definition is_write (e : Event) : bool :=
  match e with Called (fsp_writeFile _ _) _ => true | _ => false end.

(** The run wrote, or started to write, a file with [fsp.writeFile]. *)
Definition writes_output (es : list Event) : bool := existsb is_write es.

(** The document of the last [fsp.writeFile] that went through. *)
Fixpoint output (es : list Event) : option (list Page) :=
  match es with
  | [] => None
  | e :: rest =>
      match output rest with
      | Some doc => Some doc
      | None =>
          match e with
          | Called (fsp_writeFile _ doc) true => Some doc
          | _ => None
          end
      end
  end.

(** The fatal pipeline errors that stop a run before anything is
    composed: archive missing, extraction failure, no slides found (the
    listing failed, or it was empty), no browser found, zero slides
    rendered. *)
Definition fatal_kind (m : Message) : bool :=
  match m with
  | MArchiveNotFound _ | MExtractFailed | MNoSlidesFound | MNoSlidesInArchive
  | MNoChrome | MNoSlidesRendered => true
  | _ => false
  end.

(** [console.error] printed a message of the kind [k]. *)
Definition reports (k : Message -> bool) (es : list Event) : bool :=
  existsb (fun e => match e with Console Error m => k m | _ => false end) es.

Definition is_cleanup (e : Event) : bool :=
  match e with
  | Called browser_close _ | Called srv_stop _ | Called (fsp_rm _) _ => true
  | _ => false
  end.

(** The shutdown and removal calls of a run, in order. *)
Definition cleanup (es : list Event) : list Event := filter is_cleanup es.

Definition launched (es : list Event) : bool :=
  existsb (fun e => match e with
                    | Called (puppeteer_launch _) true => true
                    | _ => false
                    end) es.

Definition logs_done (es : list Event) : bool :=
  existsb (fun e => match e with Console Log MDone => true | _ => false end) es.

(** The calls of the capture loop. *)
Definition render_call (c : Call) : bool :=
  match c with
  | page_goto _ timeout => timeout =? 30000
  | sleep _ | page_screenshot _ _ _ _ => true
  | _ => false
  end.

(** The value [readManifestIfExists] returns when called at time [t]. *)
Definition manifest_at (w : World) (t : nat) : value :=
  match lookup (staged w) ["manifest.json"] with
  | Some (File raw) =>
      if throws w t (fsp_readFile_staged ["manifest.json"]) then VNull
      else match JSON_parse w raw with Some v => v | None => VNull end
  | _ => VNull
  end.

(** The entries of the slides directory, when it is one. *)
Definition listing (w : World) : option (list Dirent) :=
  match lookup (staged w) ["slides"] with
  | Some (Dir entries) => Some (dirents entries)
  | _ => None
  end.

(* ================================================================== *)
(** ** The ways through the script

    Each way out of [main_setup], of the [try] block and of the whole
    script, with the trace it leaves. *)

Definition readdir_slides (ok : bool) : Event :=
  Called (fsp_readdir_staged ["slides"]) ok.

(** Step 4 returning: the folders found and the trace of the search. *)
Inductive Found (w : World) : list string -> list Event -> Prop :=
| found_numeric l :
    listing w = Some l -> numeric_folders l <> [] ->
    Found w (numeric_folders l) [readdir_slides true]
| found_fallback l b :
    listing w = Some l -> fallback_folders w l <> [] ->
    (b = true -> numeric_folders l = []) ->
    Found w (fallback_folders w l)
      [readdir_slides b; Console Warn MNoNumericFolders; readdir_slides true].

Definition extracted_path (w : World) : string := path_join w [tmp w; "project"].

(** Steps 1 and 2 done. *)
Definition staged_trace (w : World) : list Event :=
  [ Console Log MPlatform;
    Called (fsp_stat (archivePath w)) true;
    Called fsp_mkdtemp true;
    Called (mkdirp (extracted_path w)) true;
    Console Log (MExtracting (extracted_path w));
    Called (tarExtract (archivePath w) (extracted_path w)) true ].

Definition size_message (manifest : value) : Message :=
  if truthy (js_and (opt_get (opt_get manifest "slideSize") "width")
               (opt_get (opt_get manifest "slideSize") "height"))
  then MSizeFromManifest (fst (slideSize manifest)) (snd (slideSize manifest))
  else MDefaultSize (fst (slideSize manifest)) (snd (slideSize manifest)).

(** Steps 1 to 3 done, the manifest read at time [tm]. *)
Definition sized_trace (w : World) (tm : nat) (ok : bool) : list Event :=
  staged_trace w ++
  [ Called (fsp_readFile_staged ["manifest.json"]) ok;
    Console Log (size_message (manifest_at w tm)) ].

(** Steps 1 to 5 done. *)
Definition served_trace (w : World) (tm : nat) (ok : bool)
    (slideDirs : list string) (search : list Event) : list Event :=
  sized_trace w tm ok ++ search ++
  [ Console Log (MFoundSlides (List.length slideDirs));
    Called Bun_serve true;
    Console Log (MServing (boundPort w)) ].

Inductive SetupPath (w : World)
  : outcome (value * value * list string) -> list Event -> Prop :=
| setup_archive_missing :
    SetupPath w (Exited 1)
      [ Console Log MPlatform;
        Called (fsp_stat (archivePath w)) false;
        Console Error (MArchiveNotFound (archivePath w)) ]
| setup_mkdtemp_fails :
    SetupPath w Thrown
      [ Console Log MPlatform;
        Called (fsp_stat (archivePath w)) true;
        Called fsp_mkdtemp false ]
| setup_mkdirp_fails :
    SetupPath w Thrown
      [ Console Log MPlatform;
        Called (fsp_stat (archivePath w)) true;
        Called fsp_mkdtemp true;
        Called (mkdirp (extracted_path w)) false ]
| setup_extraction_fails :
    SetupPath w (Exited 1)
      [ Console Log MPlatform;
        Called (fsp_stat (archivePath w)) true;
        Called fsp_mkdtemp true;
        Called (mkdirp (extracted_path w)) true;
        Console Log (MExtracting (extracted_path w));
        Called (tarExtract (archivePath w) (extracted_path w)) false;
        Console Error MExtractFailed ]
| setup_listing_fails tm ok b :
    SetupPath w (Exited 1)
      (sized_trace w tm ok ++
       [ readdir_slides b; Console Warn MNoNumericFolders;
         readdir_slides false; Console Error MNoSlidesFound ])
| setup_no_slides tm ok b l :
    listing w = Some l -> fallback_folders w l = [] ->
    (b = true -> numeric_folders l = []) ->
    SetupPath w (Exited 1)
      (sized_trace w tm ok ++
       [ readdir_slides b; Console Warn MNoNumericFolders;
         readdir_slides true; Console Error MNoSlidesInArchive ])
| setup_serve_fails tm ok slideDirs search :
    Found w slideDirs search ->
    SetupPath w Thrown
      (sized_trace w tm ok ++ search ++
       [ Console Log (MFoundSlides (List.length slideDirs));
         Called Bun_serve false ])
| setup_no_browser tm ok slideDirs search (stopped : bool) :
    Found w slideDirs search ->
    findSystemChrome w = None ->
    SetupPath w (if stopped then Exited 1 else Thrown)
      (served_trace w tm ok slideDirs search ++
       [ Console Error MNoChrome; Called srv_stop stopped ])
| setup_launch_fails tm ok slideDirs search chromePath :
    Found w slideDirs search ->
    findSystemChrome w = Some chromePath ->
    SetupPath w Thrown
      (served_trace w tm ok slideDirs search ++
       [ Console Log (MUsingBrowser chromePath);
         Called (puppeteer_launch chromePath) false ])
| setup_ready tm ok slideDirs search chromePath :
    Found w slideDirs search ->
    findSystemChrome w = Some chromePath ->
    SetupPath w
      (Ret (fst (slideSize (manifest_at w tm)),
            snd (slideSize (manifest_at w tm)), slideDirs))
      (served_trace w tm ok slideDirs search ++
       [ Console Log (MUsingBrowser chromePath);
         Called (puppeteer_launch chromePath) true ]).

(** [await browser.close(); await srv.stop();] and whether both went
    through. *)
Inductive Shutdown : bool -> list Event -> Prop :=
| shutdown_done :
    Shutdown true [Called browser_close true; Called srv_stop true]
| shutdown_close_fails :
    Shutdown false [Called browser_close false]
| shutdown_stop_fails :
    Shutdown false [Called browser_close true; Called srv_stop false].

Section TryBlock.
Variable w : World.
Variables slideWidth slideHeight : value.
Variable slideDirs : list string.

(** [images] after the capture loop. *)
Definition images_of : list Image :=
  map (image_of w slideWidth slideHeight) (captures w 0 slideDirs).

(** The document [pdfDoc] holds after the composing loop. *)
Definition document : list Page := map (page_of w) images_of.

Definition compose_trace (images : list Image) : list Event :=
  flat_map
    (fun img =>
       [ Called (fsp_readFile (img_path img)) true;
         Called (pdfDoc_embedJpg (img_path img)) true;
         Called (pdfDoc_addPage (page_width (page_of w img))
                   (page_height (page_of w img))) true;
         Called (pdfPage_drawImage
                   {| draw_jpg := img_path img;
                      draw_x := of_Z 0; draw_y := of_Z 0;
                      draw_width := page_width (page_of w img);
                      draw_height := page_height (page_of w img) |}) true ])
    images.

(** The page is open and every slide is captured or skipped. *)
Definition captured_trace : list Event :=
  [ Called browser_newPage true;
    Called (page_setViewport slideWidth slideHeight) true ] ++
  render_trace w slideWidth slideHeight (List.length slideDirs) 0 slideDirs.

(** ... and the document is composed. *)
Definition composed_trace : list Event :=
  captured_trace ++
  [ Console Log MComposing; Called PDFDocument_create true ] ++
  compose_trace images_of.

Definition outDir : string := path_dirname w (outPdfPath w).

Definition makes_outDir : bool :=
  negb (outDir =? "")%string && negb (outDir =? ".")%string.

Definition outDir_trace : list Event :=
  if makes_outDir then [Called (mkdirp outDir) true] else [].

(** ... and the PDF is written. *)
Definition written_trace : list Event :=
  composed_trace ++ outDir_trace ++
  [ Called pdfDoc_save true;
    Called (fsp_writeFile (outPdfPath w) document) true;
    Console Log (MPdfWritten (outPdfPath w) (List.length images_of)) ].

Definition removal_trace (removed : bool) : list Event :=
  Called (fsp_rm (tmp w)) removed ::
  (if removed then [] else [Console Warn (MCleanupFailed (tmp w))]).

Inductive RenderPath : outcome unit -> list Event -> Prop :=
| render_newPage_fails :
    RenderPath Thrown [Called browser_newPage false]
| render_setViewport_fails :
    RenderPath Thrown
      [ Called browser_newPage true;
        Called (page_setViewport slideWidth slideHeight) false ]
| render_capture_fails pre c :
    render_call c = true ->
    forallb render_event pre = true -> all_ok pre = true ->
    RenderPath Thrown
      ([ Called browser_newPage true;
         Called (page_setViewport slideWidth slideHeight) true ] ++
       pre ++ [Called c false])
| render_none_rendered (stopped : bool) shutdown :
    images_of = [] ->
    Shutdown stopped shutdown ->
    RenderPath (if stopped then Exited 1 else Thrown)
      (captured_trace ++ Console Error MNoSlidesRendered :: shutdown)
| render_create_fails :
    images_of <> [] ->
    RenderPath Thrown
      (captured_trace ++
       [Console Log MComposing; Called PDFDocument_create false])
| render_compose_fails es :
    images_of <> [] ->
    forallb compose_event es = true ->
    RenderPath Thrown
      (captured_trace ++
       [Console Log MComposing; Called PDFDocument_create true] ++ es)
| render_mkdirp_fails :
    images_of <> [] ->
    makes_outDir = true ->
    RenderPath Thrown (composed_trace ++ [Called (mkdirp outDir) false])
| render_save_fails :
    images_of <> [] ->
    RenderPath Thrown
      (composed_trace ++ outDir_trace ++ [Called pdfDoc_save false])
| render_write_fails :
    images_of <> [] ->
    RenderPath Thrown
      (composed_trace ++ outDir_trace ++
       [ Called pdfDoc_save true;
         Called (fsp_writeFile (outPdfPath w) document) false ])
| render_shutdown_fails shutdown :
    images_of <> [] ->
    Shutdown false shutdown ->
    RenderPath Thrown (written_trace ++ shutdown)
| render_done removed :
    images_of <> [] ->
    RenderPath (Ret tt)
      (written_trace ++
       [Called browser_close true; Called srv_stop true] ++
       removal_trace removed ++ [Console Log MDone]).

End TryBlock.

(** The [catch] block of [main]: the error line, then the shutdown, whose
    own failure is swallowed. *)
Definition failed_trace (shutdown : list Event) : list Event :=
  Console Error MRenderError :: shutdown.

(** Every way out of the script: the exit code and the trace. *)
Inductive RunPath (w : World) : Z -> list Event -> Prop :=
| run_usage :
    (List.length (args w) < 2)%nat ->
    RunPath w 2 [Console Error MUsage]
| run_setup_exits code es :
    (2 <= List.length (args w))%nat ->
    SetupPath w (Exited code) es ->
    RunPath w code es
| run_setup_throws es :
    (2 <= List.length (args w))%nat ->
    SetupPath w Thrown es ->
    RunPath w 1 (es ++ [Console Error MFatal])
| run_render_returns slideWidth slideHeight slideDirs es es' :
    (2 <= List.length (args w))%nat ->
    SetupPath w (Ret (slideWidth, slideHeight, slideDirs)) es ->
    RenderPath w slideWidth slideHeight slideDirs (Ret tt) es' ->
    RunPath w (if handler_failed (es ++ es') then 1 else 0) (es ++ es')
| run_render_exits slideWidth slideHeight slideDirs es es' code :
    (2 <= List.length (args w))%nat ->
    SetupPath w (Ret (slideWidth, slideHeight, slideDirs)) es ->
    RenderPath w slideWidth slideHeight slideDirs (Exited code) es' ->
    RunPath w code (es ++ es')
| run_render_throws slideWidth slideHeight slideDirs es es' stopped shutdown :
    (2 <= List.length (args w))%nat ->
    SetupPath w (Ret (slideWidth, slideHeight, slideDirs)) es ->
    RenderPath w slideWidth slideHeight slideDirs Thrown es' ->
    Shutdown stopped shutdown ->
    RunPath w 1 (es ++ es' ++ failed_trace shutdown).

(** A [fsp.writeFile] that rejected. *)
Definition write_failed (es : list Event) : bool :=
  existsb (fun e => match e with
                    | Called (fsp_writeFile _ _) false => true
                    | _ => false
                    end) es.

(** A [page.goto] that rejected. *)
Definition goto_failed (es : list Event) : bool :=
  existsb (fun e => match e with
                    | Called (page_goto _ _) false => true
                    | _ => false
                    end) es.

(** The run tried to remove the working directory. *)
Definition removes_tmp (es : list Event) : bool :=
  existsb (fun e => match e with Called (fsp_rm _) _ => true | _ => false end) es.

(** A [page.goto] whose timeout is not 30 seconds. *)
Definition slow_goto (es : list Event) : bool :=
  existsb (fun e => match e with
                    | Called (page_goto _ timeout) _ => negb (timeout =? 30000)
                    | _ => false
                    end) es.

(** Listing the slides directory rejected. *)
Definition listing_failed (es : list Event) : bool :=
  existsb (fun e => match e with
                    | Called (fsp_readdir_staged _) false => true
                    | _ => false
                    end) es.

(** What a trace shows, gathered. *)
Record Seen : Type :=
  { seen_write : bool;
    seen_write_failed : bool;
    seen_fatal : bool;
    seen_done : bool;
    seen_launch : bool;
    seen_goto_failed : bool;
    seen_slow_goto : bool;
    seen_listing_failed : bool;
    seen_cleanup : list Event;
    seen_output : option (list Page) }.

Definition see (es : list Event) : Seen :=
  {| seen_write := writes_output es;
     seen_write_failed := write_failed es;
     seen_fatal := reports fatal_kind es;
     seen_done := logs_done es;
     seen_launch := launched es;
     seen_goto_failed := goto_failed es;
     seen_slow_goto := slow_goto es;
     seen_listing_failed := listing_failed es;
     seen_cleanup := cleanup es;
     seen_output := output es |}.

Definition nothing_seen : Seen :=
  {| seen_write := false; seen_write_failed := false; seen_fatal := false;
     seen_done := false; seen_launch := false; seen_goto_failed := false;
     seen_slow_goto := false; seen_listing_failed := false;
     seen_cleanup := []; seen_output := None |}.

(** What is seen on [a ++ b]. *)
Definition seen_both (a b : Seen) : Seen :=
  {| seen_write := seen_write a || seen_write b;
     seen_write_failed := seen_write_failed a || seen_write_failed b;
     seen_fatal := seen_fatal a || seen_fatal b;
     seen_done := seen_done a || seen_done b;
     seen_launch := seen_launch a || seen_launch b;
     seen_goto_failed := seen_goto_failed a || seen_goto_failed b;
     seen_slow_goto := seen_slow_goto a || seen_slow_goto b;
     seen_listing_failed := seen_listing_failed a || seen_listing_failed b;
     seen_cleanup := seen_cleanup a ++ seen_cleanup b;
     seen_output := match seen_output b with
                    | Some doc => Some doc
                    | None => seen_output a
                    end |}.
(* ================================================================== *)
(** ** Slide folders and their pages *)

(** The names [readdir] lists as directories. *)
Definition folder_names (entries : list Dirent) : list string :=
  map dirent_name (filter dirent_isDirectory entries).

(** The folders with an all-digits name. *)
Definition numeric_names (entries : list Dirent) : list string :=
  filter test_digits (folder_names entries).

(** The folders in which [index.html] exists. *)
Definition indexed_names (w : World) (entries : list Dirent) : list string :=
  filter (fun n => existsSync (staged w) ["slides"; n; "index.html"])
    (folder_names entries).

(** [slideDirs] after step 4, when both listings went through. *)
Definition enumerated (w : World) (entries : list Dirent) : list string :=
  match numeric_folders entries with
  | [] => fallback_folders w entries
  | slideDirs => slideDirs
  end.

(** The first candidate of the probing loop. *)
Definition index_page (s : string) : string :=
  ("/slides/" ++ s ++ "/index.html")%string.

(** Folder [s] holds a regular file [index.html], and the request for
    [/slides/s/index.html] reaches the handler with that file's path. *)
Definition serves_index (w : World) (s : string) : Prop :=
  (exists content,
     lookup (staged w) ["slides"; s; "index.html"] = Some (File content)) /\
  fetch_fails w (index_page s) = false /\
  request_path w (index_page s) = Some ["slides"; s; "index.html"].

(** The page composed from the screenshot of loop index [i]. *)
Definition folder_page (w : World) (slideWidth slideHeight : value) (i : nat)
  : Page :=
  page_of w {| img_path := imgPath w i;
               img_width := slideWidth; img_height := slideHeight |}.

(** The capture of the index page of folder [s] at loop index [j]: the
    navigation, the wait, the screenshot, all gone through. *)
Definition index_capture (w : World) (slideWidth slideHeight : value)
    (j : nat) (s : string) : list Event :=
  [ Called (page_goto (url_of w (index_page s)) 30000) true;
    Called (sleep (SLIDE_WAIT_MS w)) true;
    Called (page_screenshot (imgPath w j) (JPEG_QUALITY w)
              slideWidth slideHeight) true ].

(** Document [doc] has one page per folder of [order], in that order: page
    [j] is composed from the file of the screenshot that the run took
    right after it went to the index page of folder [j] and waited. *)
Definition page_per_folder (w : World) (es : list Event)
    (order : list string) (doc : list Page) : Prop :=
  List.length doc = List.length order /\
  exists slideWidth slideHeight,
    forall j s, nth_error order j = Some s ->
      nth_error doc j = Some (folder_page w slideWidth slideHeight j) /\
      exists before after,
        es = before ++ index_capture w slideWidth slideHeight j s ++ after.

(** Counts: the doubles [Number] returns on digits. *)
Definition is_count (x : number) : Prop :=
  match x with
  | Zero false | Infinity false => True
  | Fin q => Qden q = 1%positive /\ 0 < Qnum q
  | _ => False
  end.

(** Ascending by [Number], the order of the comparator
    [(a, b) => Number(a) - Number(b)]. *)
Definition by_Number (a b : string) : Prop := fle (Number a) (Number b) = true.

(** Ascending by the value of the numeral. *)
Definition by_value (a b : string) : Prop := decimal_value a <= decimal_value b.

(** Ascending by code units, the order of [.sort()]. *)
Definition lexicographic (a b : string) : Prop := String.leb a b = true.

Definition is_failed_goto (e : Event) : bool :=
  match e with Called (page_goto _ _) false => true | _ => false end.

(** The same machine started with other positional arguments. *)
Definition with_args (w : World) (positional : list string) : World :=
  {| argv0 := argv0 w; argv1 := argv1 w; args := positional;
     platform := platform w; env := env w; homedir := homedir w;
     path_resolve := path_resolve w; path_join := path_join w;
     path_dirname := path_dirname w; parseInt := parseInt w;
     ToNumber_object := ToNumber_object w; JSON_parse := JSON_parse w;
     on_disk := on_disk w; tmp := tmp w; staged := staged w;
     boundPort := boundPort w; request_path := request_path w;
     fetch_fails := fetch_fails w; sends_directory := sends_directory w;
     throws := throws w |}.

(** [typeof v === "number"] *)
Definition is_number (v : value) : bool :=
  match v with VNum _ => true | _ => false end.

(** Folder [s] of the slides directory is bare: it has no [index.html],
    nothing else in the tree lies at one of the candidate paths, the
    candidates reach the handler with their own path, and Bun does not
    send a directory. *)
Definition bare_folder (w : World) (s : string) : Prop :=
  sends_directory w = false /\
  isDirectory (staged w) ["slides"; s] = true /\
  existsSync (staged w) ["slides"; s; "index.html"] = false /\
  existsSync (staged w) [s; "index.html"] = false /\
  existsSync (staged w) [s] = false /\
  existsSync (staged w) ["slides"; (s ++ ".html")%string] = false /\
  request_path w ("/slides/" ++ s ++ "/index.html")%string
    = Some ["slides"; s; "index.html"] /\
  request_path w ("/slides/" ++ s)%string = Some ["slides"; s] /\
  request_path w ("/" ++ s ++ "/index.html")%string = Some [s; "index.html"] /\
  request_path w ("/" ++ s)%string = Some [s] /\
  request_path w ("/slides/" ++ s ++ ".html")%string
    = Some ["slides"; (s ++ ".html")%string].

(** The captures of folders that all resolve at their index page. *)
Fixpoint index_captures (i : nat) (slideDirs : list string) : list Capture :=
  match slideDirs with
  | [] => []
  | s :: rest =>
      {| cap_slide := s; cap_index := i; cap_urlPath := index_page s |}
      :: index_captures (S i) rest
  end.

(** The image is drawn on the page full-bleed: at the origin, at the
    page's width and height. *)
Definition full_bleed (pg : Page) (jpg : string) : Prop :=
  page_drawn pg =
  [{| draw_jpg := jpg; draw_x := Zero false; draw_y := Zero false;
      draw_width := page_width pg; draw_height := page_height pg |}].

(* ================================================================== *)
(** ** Sample runs *)

Definition usual_args : list string := ["/in/deck.tar"; "/out/deck.pdf"].

(** The deck of three numeric folders, nothing going wrong. *)
Definition deck_world : World := linux_world deck_10_9_2 usual_args calm.

(** Every [page.goto] rejects, as on a navigation timeout. *)
Definition goto_rejects : nat -> Call -> bool :=
  fun _ c => match c with page_goto _ _ => true | _ => false end.

Definition timeout_world : World :=
  linux_world deck_10_9_2 usual_args goto_rejects.

(** Two named folders with an index page; the name of the first has a
    [#] in it. *)
Definition deck_fragment : node :=
  Dir [("slides", Dir [("a#b", slide); ("c", slide)])].

Definition fragment_world : World := linux_world deck_fragment usual_args calm.

(** Folder 7 has no index page, but a page [7.html] lies next to it. *)
Definition deck_sibling : node :=
  Dir [("slides", Dir [("7", Dir []);
                       ("7.html", File "<html></html>");
                       ("8", slide)])].

Definition sibling_world (sends : bool) : World :=
  let w := linux_world deck_sibling usual_args calm in
  {| argv0 := argv0 w; argv1 := argv1 w; args := args w;
     platform := platform w; env := env w; homedir := homedir w;
     path_resolve := path_resolve w; path_join := path_join w;
     path_dirname := path_dirname w; parseInt := parseInt w;
     ToNumber_object := ToNumber_object w; JSON_parse := JSON_parse w;
     on_disk := on_disk w; tmp := tmp w; staged := staged w;
     boundPort := boundPort w; request_path := request_path w;
     fetch_fails := fetch_fails w; sends_directory := sends;
     throws := throws w |}.

(** Folder 7 has no index page and nothing stands in for it. *)
Definition deck_hollow : node :=
  Dir [("slides", Dir [("7", Dir []); ("8", slide)])].

Definition hollow_world : World := linux_world deck_hollow usual_args calm.

(** A manifest whose sizes are strings. *)
Definition manifest_of_strings : value :=
  VObj [("slideSize", VObj [("width", VStr "1920"); ("height", VStr "1080")])].

(** A manifest whose width is the number 0. *)
Definition manifest_of_zero : value :=
  VObj [("slideSize", VObj [("width", VNum (of_Z 0));
                            ("height", VNum (of_Z 720))])].

Definition manifest_1920_1080 : value :=
  VObj [("slideSize", VObj [("width", VNum (of_Z 1920));
                            ("height", VNum (of_Z 1080))])].

(** An archive with nothing in it. *)
Definition empty_world : World := linux_world (Dir []) usual_args calm.


Definition fragment_listing : list Dirent :=
  dirents [("a#b", slide); ("c", slide)].

Definition sibling_listing : list Dirent :=
  dirents [("7", Dir []); ("7.html", File "<html></html>"); ("8", slide)].

(** The run printed the warning that a slide is skipped. *)
Definition skips (es : list Event) : bool :=
  existsb (fun e => match e with
                    | Console Warn (MSkippingSlide _) => true
                    | _ => false
                    end) es.

(* ================================================================== *)
(** ** The Content-Type of a served file *)

(** [toLowerCase] on one code unit below 256: the letters A to Z, and the
    Latin-1 capitals U+00C0 to U+00DE but for the sign U+00D7, move up by
    32; nothing else changes. *)
Definition lower_unit (c : ascii) : ascii :=
  let n := N_of_ascii c in
  if (((65 <=? n) && (n <=? 90)) ||
      ((192 <=? n) && (n <=? 222) && negb (n =? 215)))%N
  then ascii_of_N (n + 32) else c.

(** [s.toLowerCase()] *)
Fixpoint toLowerCase (s : string) : string :=
  match s with
  | EmptyString => EmptyString
  | String c rest => String (lower_unit c) (toLowerCase rest)
  end.

(** The index of the last dot of [s]. *)
Fixpoint last_dot (s : string) : option nat :=
  match s with
  | EmptyString => None
  | String c rest =>
      match last_dot rest with
      | Some i => Some (S i)
      | None => if Ascii.eqb c "." then Some 0%nat else None
      end
  end.

(** [path.extname] on the last segment of a path: from the last dot on;
    nothing when there is no dot, when the only dot leads the name, and
    for the name [..]. *)
Definition extname (base : string) : string :=
  match last_dot base with
  | None => ""
  | Some O => ""
  | Some i =>
      if (base =? "..")%string then ""
      else substring i (String.length base - i) base
  end.

(** [s.slice(1)] *)
Definition slice_1 (s : string) : string :=
  match s with
  | EmptyString => EmptyString
  | String _ rest => rest
  end.

(** The table of the handler. *)
Definition mimeTypes : list (string * string) :=
  [
    ("html", "text/html; charset=utf-8");
    ("htm", "text/html; charset=utf-8");
    ("css", "text/css; charset=utf-8");
    ("js", "text/javascript; charset=utf-8");
    ("mjs", "text/javascript; charset=utf-8");
    ("cjs", "text/javascript; charset=utf-8");
    ("json", "application/json; charset=utf-8");
    ("map", "application/json; charset=utf-8");
    ("xml", "application/xml; charset=utf-8");
    ("txt", "text/plain; charset=utf-8");
    ("csv", "text/csv; charset=utf-8");
    ("md", "text/markdown; charset=utf-8");
    ("yaml", "application/yaml; charset=utf-8");
    ("yml", "application/yaml; charset=utf-8");
    ("toml", "application/toml; charset=utf-8");
    ("webmanifest", "application/manifest+json; charset=utf-8");
    ("png", "image/png");
    ("jpg", "image/jpeg");
    ("jpeg", "image/jpeg");
    ("gif", "image/gif");
    ("webp", "image/webp");
    ("avif", "image/avif");
    ("svg", "image/svg+xml");
    ("ico", "image/x-icon");
    ("bmp", "image/bmp");
    ("tif", "image/tiff");
    ("tiff", "image/tiff");
    ("woff", "font/woff");
    ("woff2", "font/woff2");
    ("ttf", "font/ttf");
    ("otf", "font/otf");
    ("eot", "application/vnd.ms-fontobject");
    ("mp3", "audio/mpeg");
    ("wav", "audio/wav");
    ("ogg", "audio/ogg");
    ("opus", "audio/opus");
    ("aac", "audio/aac");
    ("m4a", "audio/mp4");
    ("flac", "audio/flac");
    ("mp4", "video/mp4");
    ("webm", "video/webm");
    ("ogv", "video/ogg");
    ("mov", "video/quicktime");
    ("m4v", "video/mp4");
    ("mpeg", "video/mpeg");
    ("mpg", "video/mpeg");
    ("wasm", "application/wasm");
    ("bin", "application/octet-stream");
    ("glb", "model/gltf-binary");
    ("gltf", "model/gltf+json");
    ("obj", "text/plain; charset=utf-8");
    ("stl", "model/stl");
    ("dae", "model/vnd.collada+xml");
    ("pdf", "application/pdf");
    ("rtf", "application/rtf");
    ("zip", "application/zip");
    ("tar", "application/x-tar");
    ("gz", "application/gzip");
    ("tgz", "application/gzip");
    ("7z", "application/x-7z-compressed");
    ("rar", "application/vnd.rar") ].

(** What the handler does about the Content-Type header. *)
Inductive ContentType : Type :=
| NoContentType
| Mime (m : string)
| InheritedText (key : string).

(** [mimeTypes[ext]] and the [headers.set] under it.  A key of the table
    gives its entry.  The table is an object literal: [constructor] and
    [__proto__] are found on its prototype and are truthy, and the header
    is set to the text of what is found there; the other properties of
    the prototype have a capital in their name, which [ext], lower-cased,
    has not.  Any other key is undefined and no header is set. *)
Definition mimeTypes_get (ext : string) : ContentType :=
  match assoc ext mimeTypes with
  | Some m => Mime m
  | None =>
      if ((ext =? "constructor") || (ext =? "__proto__"))%string
      then InheritedText ext
      else NoContentType
  end.

(** The last segment of the path the handler sends; with no segment it is
    the staged directory itself, [project]. *)
Definition basename (fsPath : list string) : string := last fsPath "project".

(** [ext], and the header of the response with the file. *)
Definition content_type (fsPath : list string) : ContentType :=
  mimeTypes_get (slice_1 (toLowerCase (extname (basename fsPath)))).

(* ================================================================== *)
(** ** [toUrlPath] *)

(** [path.sep] *)
Definition path_sep (p : Platform) : ascii :=
  match p with
  | win32 => "\"%char
  | _ => "/"%char
  end.

(** [s.split(sep)] for a separator of one code unit. *)
Fixpoint split (sep : ascii) (s : string) : list string :=
  match s with
  | EmptyString => [EmptyString]
  | String c rest =>
      if Ascii.eqb c sep then EmptyString :: split sep rest
      else match split sep rest with
           | piece :: pieces => String c piece :: pieces
           | [] => [String c EmptyString]
           end
  end.

Definition toUrlPath (p : Platform) (fsPath : string) : string :=
  String.concat "/" (split (path_sep p) fsPath).

(** [s] with every [sep] turned into a slash. *)
Fixpoint slashed (sep : ascii) (s : string) : string :=
  match s with
  | EmptyString => EmptyString
  | String c rest =>
      String (if Ascii.eqb c sep then "/"%char else c) (slashed sep rest)
  end.

(* ================================================================== *)
(** ** More to read on a trace *)

(** Every [page.goto] of the trace goes, with the 30 second bound, to the
    URL of the path whose request was the last before it and answered 200;
    [last] is that path, when no navigation has used it yet. *)
Fixpoint gotos_follow_200 (w : World) (last : option string)
    (es : list Event) : bool :=
  match es with
  | [] => true
  | Fetched p status :: rest =>
      gotos_follow_200 w
        (match status with
         | Some code => if code =? 200 then Some p else None
         | None => None
         end) rest
  | Called (page_goto url timeout) _ :: rest =>
      match last with
      | Some p => (url =? url_of w p)%string && (timeout =? 30000)
      | None => false
      end && gotos_follow_200 w None rest
  | _ :: rest => gotos_follow_200 w last rest
  end.

(** Where the page stands between two events of the capture loop: nothing
    loaded for a screenshot, a navigation gone through, the wait after it
    over. *)
Inductive PageState : Type :=
| Idle
| Navigated
| Settled.

(** Every screenshot of the trace is taken after a navigation that went
    through and the wait after it, which went through, with no other call
    in between; each navigation serves one screenshot. *)
Fixpoint shots_follow_goto (st : PageState) (es : list Event) : bool :=
  match es with
  | [] => true
  | Called (page_goto _ _) ok :: rest =>
      shots_follow_goto (if ok then Navigated else Idle) rest
  | Called (sleep _) ok :: rest =>
      shots_follow_goto
        (match st with
         | Navigated => if ok then Settled else Idle
         | _ => Idle
         end) rest
  | Called (page_screenshot _ _ _ _) _ :: rest =>
      match st with
      | Settled => true
      | _ => false
      end && shots_follow_goto Idle rest
  | Called _ _ :: rest => shots_follow_goto Idle rest
  | _ :: rest => shots_follow_goto st rest
  end.

(** The screenshots taken. *)
Definition screenshots (es : list Event) : nat :=
  List.length
    (filter (fun e => match e with
                      | Called (page_screenshot _ _ _ _) true => true
                      | _ => false
                      end) es).

(** The server was started. *)
Definition serves (es : list Event) : bool :=
  existsb (fun e => match e with Called Bun_serve true => true | _ => false end) es.

(** The run tried to stop the server. *)
Definition stops_server (es : list Event) : bool :=
  existsb (fun e => match e with Called srv_stop _ => true | _ => false end) es.

(** The same machine with another environment. *)
Definition with_env (w : World) (e : string -> option string) : World :=
  {| argv0 := argv0 w; argv1 := argv1 w; args := args w;
     platform := platform w; env := e; homedir := homedir w;
     path_resolve := path_resolve w; path_join := path_join w;
     path_dirname := path_dirname w; parseInt := parseInt w;
     ToNumber_object := ToNumber_object w; JSON_parse := JSON_parse w;
     on_disk := on_disk w; tmp := tmp w; staged := staged w;
     boundPort := boundPort w; request_path := request_path w;
     fetch_fails := fetch_fails w; sends_directory := sends_directory w;
     throws := throws w |}.

(** [CHROME_PATH] names the Chromium of the machine. *)
Definition chrome_path_world : World :=
  with_env deck_world
    (fun k => if (k =? "CHROME_PATH")%string then Some "/usr/bin/chromium"
              else None).

(** A machine with no browser. *)
Definition browserless_world : World :=
  {| argv0 := "bun"; argv1 := "/app/make-pdf.js"; args := usual_args;
       platform := linux; env := fun _ => None; homedir := "/home/user";
       path_resolve := fun p => p; path_join := String.concat "/";
       path_dirname := fun _ => "/out";
       parseInt := parseInt deck_world;
       ToNumber_object := ToNumber_object deck_world;
       JSON_parse := fun _ => None;
       on_disk := fun _ => false; tmp := "/tmp/webslider-abc";
       staged := deck_10_9_2; boundPort := "40000";
       request_path := plain_request_path; fetch_fails := fun _ => false;
       sends_directory := false; throws := calm |}.

(** The removal of the working directory rejects. *)
Definition rm_rejects : nat -> Call -> bool :=
  fun _ c => match c with fsp_rm _ => true | _ => false end.

Definition sticky_world : World := linux_world deck_10_9_2 usual_args rm_rejects.

(* ================================================================== *)
(** ** Runs that write *)

(** The events that follow the write of the PDF: lines on the console,
    the shutdown of the browser and of the listener, the removal of the
    working directory. *)
Definition after_write_event (e : Event) : bool :=
  match e with
  | Console _ _ => true
  | Called browser_close _ | Called srv_stop _ | Called (fsp_rm _) _ => true
  | _ => false
  end.

(** Step 4 finds no slide folder: the slides directory cannot be listed,
    or neither strategy takes one of its entries. *)
Definition no_slide_folders (w : World) : Prop :=
  match listing w with
  | None => True
  | Some l => numeric_folders l = [] /\ fallback_folders w l = []
  end.

(** The rendered slides: the file of each screenshot that went through,
    with the width and height of its clip, in the order they were
    taken. *)
Definition shots (es : list Event) : list Image :=
  flat_map
    (fun e => match e with
              | Called (page_screenshot p _ width height) true =>
                  [{| img_path := p; img_width := width;
                      img_height := height |}]
              | _ => []
              end) es.

(** An awaited call, or a request, that rejected. *)
Definition rejected (e : Event) : bool :=
  match e with
  | Called _ ok => negb ok
  | Fetched _ None => true
  | _ => false
  end.

(** The text of a manifest that gives 1920 by 1080, and a machine on
    which an archive with this manifest and one slide is processed. *)
Definition quote_mark : string := String (ascii_of_nat 34) "".

Definition manifest_text : string :=
  ("{" ++ quote_mark ++ "slideSize" ++ quote_mark ++ ":{" ++
   quote_mark ++ "width" ++ quote_mark ++ ":1920," ++
   quote_mark ++ "height" ++ quote_mark ++ ":1080}}")%string.

Definition deck_wide : node :=
  Dir [("manifest.json", File manifest_text); ("slides", Dir [("1", slide)])].

Definition wide_world : World :=
  let w := linux_world deck_wide usual_args calm in
  {| argv0 := argv0 w; argv1 := argv1 w; args := args w;
     platform := platform w; env := env w; homedir := homedir w;
     path_resolve := path_resolve w; path_join := path_join w;
     path_dirname := path_dirname w; parseInt := parseInt w;
     ToNumber_object := ToNumber_object w;
     JSON_parse := fun raw => if (raw =? manifest_text)%string
                              then Some manifest_1920_1080 else None;
     on_disk := on_disk w; tmp := tmp w; staged := staged w;
     boundPort := boundPort w; request_path := request_path w;
     fetch_fails := fetch_fails w; sends_directory := sends_directory w;
     throws := throws w |}.

(** One numeric folder, with nothing in it. *)
Definition deck_blank : node := Dir [("slides", Dir [("7", Dir [])])].

Definition blank_world : World := linux_world deck_blank usual_args calm.

(* ================================================================== *)
(** * Properties *)

(* ================================================================== *)
(** ** Rounding *)

Lemma Qred_inject_Z z : Qred (inject_Z z) = inject_Z z.
Proof.
  apply Qcanon.Qred_identity. unfold inject_Z; cbn. apply Z.gcd_1_r.
Qed.

Lemma pow2_pos k : 0 <= k -> 0 < 2 ^ k.
Proof. intros H. apply Z.pow_pos_nonneg; lia. Qed.

Lemma ilog2_one n : ilog2 n 1 = Z.log2 (Zpos n).
Proof.
  unfold ilog2. change (Z.log2 1) with 0. rewrite Z.sub_0_r.
  pose proof (Z.log2_nonneg (Zpos n)) as Hn.
  destruct (0 <=? Z.log2 (Z.pos n)) eqn:E; [|apply Z.leb_gt in E; lia].
  pose proof (Z.log2_spec (Zpos n) ltac:(lia)) as [Hlo _].
  destruct (1 * 2 ^ Z.log2 (Z.pos n) <=? Z.pos n) eqn:E2; [reflexivity|].
  apply Z.leb_gt in E2. lia.
Qed.

Lemma ilog2_upper n d : ilog2 n d <= Z.log2 (Zpos n) - Z.log2 (Zpos d).
Proof.
  unfold ilog2.
  match goal with |- (if ?c then _ else _) <= _ => destruct c end; lia.
Qed.

(** A quotient the format holds exactly is returned as it is. *)
Lemma round_pos_exact neg n d :
  let e := Z.max (ilog2 n d - 52) (-1074) in
  e <= 0 ->
  (Zpos d | Zpos n * 2 ^ (- e)) ->
  round_pos neg n d = Fin (Qred ((if neg then Zneg n else Zpos n) # d)).
Proof.
  intros e He Hdiv. unfold round_pos. fold e.
  assert (Hp : 0 < 2 ^ (- e)) by (apply pow2_pos; lia).
  assert (Hscaled : exists N D, scaled n d e = (N, D) /\
                      N = Zpos n * 2 ^ (- e) /\ D = Zpos d).
  { unfold scaled. destruct (0 <=? e) eqn:E.
    - apply Z.leb_le in E. assert (He0 : e = 0) by lia.
      exists (Zpos n), (Zpos d * 2 ^ e). split; [reflexivity|].
      rewrite He0. cbn [Z.opp Z.pow]. lia.
    - eexists. eexists. split; [reflexivity|]. auto. }
  destruct Hscaled as (N & D & -> & HN & HD).
  destruct Hdiv as [m Hm]. rewrite <- HN in Hm.
  assert (Hmpos : 0 < m) by nia.
  assert (Hhalf : half_even N D = m).
  { unfold half_even. subst D. rewrite Hm, Z.div_mul, Z.mod_mul by lia.
    cbn [Z.mul]. destruct (Z.pos d <? 0) eqn:E1; [apply Z.ltb_lt in E1; lia|].
    destruct (Z.pos d =? 0) eqn:E2; [apply Z.eqb_eq in E2; lia|]. reflexivity. }
  rewrite Hhalf.
  destruct (m =? 0) eqn:E0; [apply Z.eqb_eq in E0; lia|].
  destruct (971 <? e) eqn:E1; [apply Z.ltb_lt in E1; lia|].
  destruct (e =? 971) eqn:E2; [apply Z.eqb_eq in E2; lia|].
  cbn [orb andb]. f_equal.
  unfold dyadic. destruct (0 <=? e) eqn:E.
  - apply Z.leb_le in E. assert (He0 : e = 0) by lia.
    rewrite <- Qred_inject_Z.
    apply Qred_complete. unfold Qeq, inject_Z; cbn [Qnum Qden].
    rewrite He0 in *. cbn [Z.opp Z.pow] in *.
    destruct neg; lia.
  - apply Qred_complete. unfold Qeq; cbn [Qnum Qden].
    rewrite Z2Pos.id by exact Hp. destruct neg; lia.
Qed.

(** An integer below [2^53] is a double. *)
Lemma of_Z_exact z : z <> 0 -> Z.abs z < 2 ^ 53 -> of_Z z = Fin (inject_Z z).
Proof.
  intros Hz Hlt. unfold of_Z, round64. cbn [inject_Z Qnum Qden].
  assert (H : forall neg n, Zpos n < 2 ^ 53 ->
              round_pos neg n 1 =
              Fin (Qred ((if neg then Zneg n else Zpos n) # 1))).
  { intros neg n Hn. apply round_pos_exact.
    - rewrite ilog2_one.
      assert (Z.log2 (Zpos n) < 53) by (apply Z.log2_lt_pow2; lia). lia.
    - exists (Zpos n * 2 ^ (- Z.max (ilog2 n 1 - 52) (-1074))). lia. }
  destruct z as [|n|n]; [congruence| |].
  - rewrite (H false) by (cbn in Hlt; lia).
    change (Z.pos n # 1) with (inject_Z (Zpos n)). rewrite Qred_inject_Z.
    reflexivity.
  - rewrite (H true) by (cbn in Hlt; lia).
    change (Z.neg n # 1) with (inject_Z (Zneg n)). rewrite Qred_inject_Z.
    reflexivity.
Qed.

(** Rounding an integer keeps its sign and never reaches zero. *)
Lemma round_pos_one neg n :
  match round_pos neg n 1 with
  | Infinity s => s = neg
  | Fin q => Qden q = 1%positive /\ (if neg then Qnum q < 0 else 0 < Qnum q)
  | _ => False
  end.
Proof.
  destruct (Z_lt_le_dec (Zpos n) (2 ^ 52)) as [Hsmall | Hbig].
  - assert (E : round_pos neg n 1 = Fin (Qred ((if neg then Zneg n else Zpos n) # 1))).
    { apply round_pos_exact.
      - rewrite ilog2_one.
        assert (Z.log2 (Zpos n) < 52) by (apply Z.log2_lt_pow2; lia). lia.
      - exists (Zpos n * 2 ^ (- Z.max (ilog2 n 1 - 52) (-1074))). lia. }
    rewrite E.
    destruct neg.
    + change (Z.neg n # 1) with (inject_Z (Zneg n)). rewrite Qred_inject_Z.
      cbn. split; [reflexivity|lia].
    + change (Z.pos n # 1) with (inject_Z (Zpos n)). rewrite Qred_inject_Z.
      cbn. split; [reflexivity|lia].
  - unfold round_pos. rewrite ilog2_one.
    assert (Hlog : 52 <= Z.log2 (Zpos n)) by (apply Z.log2_le_pow2; lia).
    rewrite Z.max_l by lia.
    set (e := Z.log2 (Z.pos n) - 52).
    assert (He : 0 <= e) by (unfold e; lia).
    unfold scaled. destruct (0 <=? e) eqn:E; [|apply Z.leb_gt in E; lia].
    assert (Hp : 0 < 2 ^ e) by (apply pow2_pos; lia).
    assert (Hm : 0 < half_even (Zpos n) (1 * 2 ^ e)).
    { unfold half_even. rewrite Z.mul_1_l.
      assert (2 ^ e <= Zpos n).
      { pose proof (Z.log2_spec (Zpos n) ltac:(lia)) as [Hlo _].
        assert (2 ^ e <= 2 ^ Z.log2 (Zpos n))
          by (apply Z.pow_le_mono_r; unfold e; lia).
        lia. }
      assert (0 < Zpos n / 2 ^ e) by (apply Z.div_str_pos; lia).
      destruct (_ || _); lia. }
    set (m := half_even (Zpos n) (1 * 2 ^ e)) in *.
    destruct (m =? 0) eqn:E0; [apply Z.eqb_eq in E0; lia|].
    destruct ((971 <? e) || (e =? 971) && (m =? 2 ^ 53)); [reflexivity|].
    unfold dyadic. rewrite E. cbn [inject_Z Qnum Qden].
    split; [reflexivity|]. destruct neg; nia.
Qed.

(** A multiple of 3 below [2^53], divided by 96, is a double. *)
Lemma round_quotient_96 neg (n : positive) :
  Zpos n < 2 ^ 53 ->
  (3 | Zpos n) ->
  round_pos neg n 96 = Fin (Qred ((if neg then Zneg n else Zpos n) # 96)).
Proof.
  intros Hn [k Hk].
  pose proof (@ilog2_upper n 96) as Hu. change (Z.log2 96) with 6 in Hu.
  assert (Hlog : Z.log2 (Zpos n) < 53) by (apply Z.log2_lt_pow2; lia).
  apply round_pos_exact.
  - lia.
  - set (e := Z.max (ilog2 n 96 - 52) (-1074)) in *.
    assert (He : e <= -5) by (unfold e; lia).
    replace (- e) with (5 + (- e - 5)) by lia.
    rewrite Z.pow_add_r by lia.
    exists (k * 2 ^ (- e - 5)).
    change (2 ^ 5) with 32. rewrite Hk. lia.
Qed.

(** [px * 72 / 96] is exact on the integers below [2^46]. *)
Lemma pxToPdfPoints_exact w (px : Z) :
  px <> 0 -> Z.abs px < 2 ^ 46 ->
  pxToPdfPoints w (VNum (of_Z px)) (of_Z 96) = Fin (Qred (px * 72 # 96)).
Proof.
  intros Hpx Hlt. unfold pxToPdfPoints, ToNumber.
  rewrite (@of_Z_exact px) by lia.
  rewrite (@of_Z_exact 72), (@of_Z_exact 96) by (cbn; lia).
  unfold fmul.
  change (inject_Z px * inject_Z 72)%Q with (inject_Z (px * 72)).
  fold (of_Z (px * 72)). rewrite (@of_Z_exact (px * 72)) by lia.
  unfold fdiv, round64.
  change (Qnum (inject_Z (px * 72) / inject_Z 96)) with (px * 72 * 1).
  change (Qden (inject_Z (px * 72) / inject_Z 96)) with 96%positive.
  rewrite Z.mul_1_r.
  destruct (px * 72) as [|n|n] eqn:E; [lia| |].
  - apply (@round_quotient_96 false n); [lia|].
    exists (px * 24). lia.
  - apply (@round_quotient_96 true n); [lia|].
    exists (- px * 24). lia.
Qed.

(* ================================================================== *)
(** ** The order of the slides *)

Section SortFacts.
Variable A : Type.
Variable after : A -> A -> bool.

Lemma insert_perm x l : Permutation (insert after x l) (x :: l).
Proof.
  induction l as [|y l IH]; cbn; [reflexivity|].
  destruct (after x y); [|reflexivity].
  rewrite IH. apply perm_swap.
Qed.

Lemma Array_sort_perm l : Permutation (Array_sort after l) l.
Proof.
  induction l as [|x l IH]; cbn; [reflexivity|].
  rewrite insert_perm, IH. reflexivity.
Qed.

Lemma Array_sort_length l : List.length (Array_sort after l) = List.length l.
Proof. apply Permutation_length, Array_sort_perm. Qed.

Lemma Array_sort_nil l : Array_sort after l = [] <-> l = [].
Proof.
  split; [|intros ->; reflexivity].
  intros E. apply length_zero_iff_nil. rewrite <- Array_sort_length, E.
  reflexivity.
Qed.

Variable P : A -> Prop.
Variable R : A -> A -> Prop.
Hypothesis after_true : forall x y, P x -> P y -> after x y = true -> R y x.
Hypothesis after_false : forall x y, P x -> P y -> after x y = false -> R x y.

Lemma insert_sorted x l :
  P x -> Forall P l -> Sorted R l -> Sorted R (insert after x l).
Proof.
  intros Hx HP HS. induction l as [|y l IH]; cbn.
  - repeat constructor.
  - inversion HP as [|? ? Hy HPl]; subst.
    inversion HS as [|? ? HSl Hhd]; subst.
    destruct (after x y) eqn:E.
    + constructor; [apply IH; assumption|].
      destruct l as [|z l]; cbn.
      * constructor. apply after_true; assumption.
      * destruct (after x z).
        -- inversion Hhd; subst. constructor. assumption.
        -- constructor. apply after_true; assumption.
    + constructor; [assumption|]. constructor. apply after_false; assumption.
Qed.

Lemma Array_sort_sorted l : Forall P l -> Sorted R (Array_sort after l).
Proof.
  induction l as [|x l IH]; intros HP; cbn; [constructor|].
  inversion HP; subst.
  apply insert_sorted; auto.
  eapply Permutation_Forall; [symmetry; apply Array_sort_perm|assumption].
Qed.

End SortFacts.

Lemma decimal_value_from_nonneg s :
  forall acc, 0 <= acc -> all_digits s = true -> 0 <= decimal_value_from acc s.
Proof.
  induction s as [|c s IH]; intros acc Hacc Hd; cbn [decimal_value_from];
    [assumption|].
  cbn [all_digits] in Hd. apply andb_prop in Hd. destruct Hd as [Hc Hs].
  apply IH; [|assumption].
  unfold is_digit in Hc. cbv zeta in Hc.
  apply andb_prop in Hc. destruct Hc as [Hlo Hhi].
  apply N.leb_le in Hlo. lia.
Qed.

Lemma Number_count s : test_digits s = true -> is_count (Number s).
Proof.
  intros H. unfold Number. rewrite H.
  unfold test_digits in H. apply andb_prop in H. destruct H as [_ Hd].
  pose proof (@decimal_value_from_nonneg s 0 ltac:(lia) Hd) as Hv.
  fold (decimal_value s) in Hv.
  unfold of_Z, round64. cbn [inject_Z Qnum Qden].
  destruct (decimal_value s) as [|n|n]; [exact I| |lia].
  pose proof (@round_pos_one false n) as Hr.
  destruct (round_pos false n 1) as [|s'|s'|q]; cbn; try contradiction.
  - subst s'. exact I.
  - exact Hr.
Qed.

(** On counts, the comparator of the numeric sort puts [x] after [y]
    exactly when [x <= y] fails. *)
Lemma gt0_fsub x y :
  is_count x -> is_count y -> gt0 (fsub x y) = negb (fle x y).
Proof.
  destruct x as [|[]|[]|[xn xd]], y as [|[]|[]|[yn yd]];
    cbn [is_count fsub fle gt0 negb Bool.eqb andb Qnum Qden];
    try contradiction; try reflexivity.
  - intros _ [-> Hy]. rewrite Qred_opp.
    change (yn # 1) with (inject_Z yn). rewrite Qred_inject_Z.
    cbn [Qopp inject_Z Qnum].
    destruct (0 <? yn) eqn:E; [|apply Z.ltb_ge in E; lia].
    destruct (0 <? - yn) eqn:E'; [apply Z.ltb_lt in E'; lia|reflexivity].
  - intros [-> Hx] _.
    change (xn # 1) with (inject_Z xn). rewrite Qred_inject_Z.
    cbn [inject_Z Qnum].
    destruct (0 <? xn) eqn:E; [|apply Z.ltb_ge in E; lia].
    destruct (xn <? 0) eqn:E'; [apply Z.ltb_lt in E'; lia|reflexivity].
  - intros [-> Hx] [-> Hy].
    unfold Qeq_bool, Qle_bool. cbn [Qnum Qden]. rewrite !Z.mul_1_r.
    destruct (Z.eqb_spec xn yn) as [->|Hne].
    + cbn [gt0 negb]. rewrite Z.leb_refl. reflexivity.
    + unfold round64. cbn [Qminus Qplus Qopp Qnum Qden].
      change (1 * 1)%positive with 1%positive.
      replace (xn * 1 + - yn * 1) with (xn - yn) by lia.
      destruct (xn - yn) as [|n|n] eqn:E; [lia| |].
      * pose proof (@round_pos_one false n) as Hr.
        destruct (round_pos false n 1) as [|s'|s'|q]; cbn [gt0];
          try contradiction.
        -- subst s'. destruct (xn <=? yn) eqn:E';
             [apply Z.leb_le in E'; lia|reflexivity].
        -- destruct Hr as [_ Hq].
           destruct (0 <? Qnum q) eqn:E1; [|apply Z.ltb_ge in E1; lia].
           destruct (xn <=? yn) eqn:E';
             [apply Z.leb_le in E'; lia|reflexivity].
      * pose proof (@round_pos_one true n) as Hr.
        destruct (round_pos true n 1) as [|s'|s'|q]; cbn [gt0];
          try contradiction.
        -- subst s'. destruct (xn <=? yn) eqn:E';
             [reflexivity|apply Z.leb_gt in E'; lia].
        -- destruct Hr as [_ Hq].
           destruct (0 <? Qnum q) eqn:E1; [apply Z.ltb_lt in E1; lia|].
           destruct (xn <=? yn) eqn:E';
             [reflexivity|apply Z.leb_gt in E'; lia].
Qed.

Lemma fle_total x y : is_count x -> is_count y -> fle x y = false -> fle y x = true.
Proof.
  destruct x as [|[]|[]|[xn xd]], y as [|[]|[]|[yn yd]];
    cbn [is_count fle Qnum Qden];
    try contradiction; try reflexivity; try discriminate.
  - intros _ [-> Hy] E. apply Z.ltb_ge in E. lia.
  - intros [-> Hx] _ _. apply Z.ltb_lt. assumption.
  - intros [-> Hx] [-> Hy]. unfold Qle_bool; cbn [Qnum Qden].
    rewrite !Z.mul_1_r. intros E. apply Z.leb_gt in E. apply Z.leb_le. lia.
Qed.

Lemma fle_trans x y z :
  fle x y = true -> fle y z = true ->
  (is_count x \/ x = NaN) -> (is_count y \/ y = NaN) -> (is_count z \/ z = NaN) ->
  fle x z = true.
Proof.
  intros Hxy Hyz [Hx | ->] [Hy | ->] [Hz | ->]; try discriminate;
    try (destruct x as [|[]|[]|?]; discriminate);
    try (destruct y as [|[]|[]|?]; discriminate).
  destruct x as [|[]|[]|[xn xd]], y as [|[]|[]|[yn yd]], z as [|[]|[]|[zn zd]];
    cbn [is_count fle Qnum Qden] in *;
    try contradiction; try reflexivity; try discriminate.
  all: repeat match goal with H : _ /\ _ |- _ => destruct H end; subst.
  all: unfold Qle_bool in *; cbn [Qnum Qden] in *; rewrite ?Z.mul_1_r in *.
  all: repeat match goal with
       | H : (_ <? _) = true |- _ => apply Z.ltb_lt in H
       | H : (_ <=? _) = true |- _ => apply Z.leb_le in H
       | |- (_ <? _) = true => apply Z.ltb_lt
       | |- (_ <=? _) = true => apply Z.leb_le
       end; lia.
Qed.

(** The numeric folders come out in ascending order of [Number]. *)
Lemma sort_numeric_sorted l :
  Forall (fun s => test_digits s = true) l -> Sorted by_Number (sort_numeric l).
Proof.
  apply Array_sort_sorted; intros x y Hx Hy; unfold numeric_compare, by_Number;
    rewrite gt0_fsub by (apply Number_count; assumption); intros E.
  - apply negb_true_iff in E. apply fle_total; auto using Number_count.
  - apply negb_false_iff in E. exact E.
Qed.

Lemma by_Number_trans : Relations_1.Transitive by_Number.
Proof.
  intros a b c Hab Hbc. unfold by_Number in *.
  assert (Hn : forall s, is_count (Number s) \/ Number s = NaN).
  { intros s. destruct (test_digits s) eqn:E.
    - left. apply Number_count, E.
    - right. unfold Number. rewrite E. reflexivity. }
  eapply fle_trans; eauto.
Qed.

(** The fallback folders come out in ascending order of code units. *)
Lemma sort_default_sorted l : Sorted lexicographic (sort_default l).
Proof.
  apply (@Array_sort_sorted string (fun a b => String.ltb b a) (fun _ => True));
    [| |apply Forall_forall; auto]; intros x y _ _;
    unfold lexicographic, String.ltb, String.leb.
  - destruct (String.compare y x); congruence.
  - rewrite (String.compare_antisym y x).
    destruct (String.compare x y); cbn; congruence.
Qed.

(* ================================================================== *)
(** ** How computations decompose *)

Lemma bind_inv A B (m : M A) (f : A -> M B) t o es :
  bind m f t = (o, es) ->
  match m t with
  | (Ret a, es1) =>
      exists es2, f a (t + List.length es1)%nat = (o, es2) /\ es = es1 ++ es2
  | (Thrown, es1) => o = Thrown /\ es = es1
  | (Exited c, es1) => o = Exited c /\ es = es1
  end.
Proof.
  unfold bind. destruct (m t) as [[a| |c] es1].
  - destruct (f a _) as [o' es']. intros [= <- <-]. eauto.
  - intros [= <- <-]. auto.
  - intros [= <- <-]. auto.
Qed.

Lemma try_catch_inv A (m h : M A) t o es :
  try_catch m h t = (o, es) ->
  match m t with
  | (Thrown, es1) =>
      exists es2, h (t + List.length es1)%nat = (o, es2) /\ es = es1 ++ es2
  | (Ret a, es1) => o = Ret a /\ es = es1
  | (Exited c, es1) => o = Exited c /\ es = es1
  end.
Proof.
  unfold try_catch. destruct (m t) as [[a| |c] es1].
  - intros [= <- <-]. auto.
  - destruct (h _) as [o' es']. intros [= <- <-]. eauto.
  - intros [= <- <-]. auto.
Qed.

Lemma bind_console_inv A s m (k : unit -> M A) t o es :
  bind (console s m) k t = (o, es) ->
  exists es', k tt (t + 1)%nat = (o, es') /\ es = Console s m :: es'.
Proof.
  unfold bind, console; simpl. destruct (k tt _) as [o' es'].
  intros [= <- <-]. eauto.
Qed.

Lemma bind_call_inv A w c (k : unit -> M A) t o es :
  bind (call w c) k t = (o, es) ->
  (throws w t c = false /\
   exists es', k tt (t + 1)%nat = (o, es') /\ es = Called c true :: es')
  \/ (throws w t c = true /\ o = Thrown /\ es = [Called c false]).
Proof.
  unfold bind, call. destruct (throws w t c); simpl.
  - intros [= <- <-]. auto.
  - destruct (k tt _) as [o' es']. intros [= <- <-]. left. eauto.
Qed.

Lemma call_inv w c t (o : outcome unit) es :
  call w c t = (o, es) ->
  (throws w t c = false /\ o = Ret tt /\ es = [Called c true])
  \/ (throws w t c = true /\ o = Thrown /\ es = [Called c false]).
Proof.
  unfold call. destruct (throws w t c); intros [= <- <-]; auto.
Qed.

(* ------------------------------------------------------------------ *)
(** *** The probing loop *)

Lemma probe_eq w paths t :
  probe w paths t = (Ret (find (answers_200 w) paths), fetches w paths).
Proof.
  revert t. induction paths as [|p rest IH]; intros t; [reflexivity|].
  unfold fetches in *. cbn [probe probed map find].
  unfold bind, try_catch, fetch, ret, answers_200. simpl.
  destruct (fetch_status w p) as [status|]; simpl.
  - destruct (status =? 200); simpl; [reflexivity|].
    rewrite IH. reflexivity.
  - rewrite IH. reflexivity.
Qed.

Lemma probe_tryPaths w s t :
  probe w (tryPaths s) t = (Ret (resolve w s), fetches w (tryPaths s)).
Proof. apply probe_eq. Qed.

(* ------------------------------------------------------------------ *)
(** *** The capture loop *)

Lemma fetches_render_event w paths : forallb render_event (fetches w paths) = true.
Proof.
  unfold fetches. induction (probed w paths); simpl; auto.
Qed.

Lemma fetches_all_ok w paths : all_ok (fetches w paths) = true.
Proof.
  unfold fetches, all_ok. induction (probed w paths); simpl; auto.
Qed.

Opaque tryPaths fetches resolve url_of.

Lemma render_trace_event w sw sh total slides i :
  forallb render_event (render_trace w sw sh total i slides) = true.
Proof.
  revert i. induction slides as [|s rest IH]; intros i; simpl; auto.
  rewrite !forallb_app, fetches_render_event, IH.
  destruct (resolve w s); reflexivity.
Qed.

Lemma render_trace_all_ok w sw sh total slides i :
  all_ok (render_trace w sw sh total i slides) = true.
Proof.
  unfold all_ok.
  revert i. induction slides as [|s rest IH]; intros i; simpl; auto.
  rewrite !forallb_app, IH. fold (all_ok (fetches w (tryPaths s))).
  rewrite fetches_all_ok.
  destruct (resolve w s); reflexivity.
Qed.

(** The capture loop never leaves the process; when it returns, it has
    captured each slide that resolved, in order, and its trace is
    [render_trace]; when it throws, the last event is the call that
    rejected. *)
Lemma render_slides_inv w sw sh total slides :
  forall i images t o es,
    render_slides w sw sh total i slides images t = (o, es) ->
    (o = Ret (images ++ map (image_of w sw sh) (captures w i slides)) /\
     es = render_trace w sw sh total i slides)
    \/ (o = Thrown /\
        exists pre c, es = pre ++ [Called c false] /\ render_call c = true /\
                      forallb render_event pre = true /\ all_ok pre = true).
Proof.
  induction slides as [|s rest IH]; intros i images t o es H.
  - simpl in H. injection H as <- <-. left. simpl. rewrite app_nil_r. auto.
  - simpl in H. apply bind_inv in H. rewrite probe_tryPaths in H.
    destruct H as (es2 & H & ->).
    simpl. destruct (resolve w s) as [p|].
    + apply bind_console_inv in H. destruct H as (es3 & H & ->).
      apply bind_call_inv in H.
      destruct H as [(_ & es4 & H & ->) | (_ & -> & ->)].
      2:{ right. split; [reflexivity|].
          exists (fetches w (tryPaths s) ++ [Console Log (MRenderingSlide (i + 1) total s)]), (page_goto (url_of w p) 30000).
          rewrite <- app_assoc. simpl. repeat split.
          - rewrite forallb_app, fetches_render_event. reflexivity.
          - unfold all_ok. rewrite forallb_app. fold (all_ok (fetches w (tryPaths s))).
            rewrite fetches_all_ok. reflexivity. }
      apply bind_call_inv in H.
      destruct H as [(_ & es5 & H & ->) | (_ & -> & ->)].
      2:{ right. split; [reflexivity|].
          exists (fetches w (tryPaths s) ++ [Console Log (MRenderingSlide (i + 1) total s); Called (page_goto (url_of w p) 30000) true]), (sleep (SLIDE_WAIT_MS w)).
          rewrite <- app_assoc. simpl. repeat split.
          - rewrite forallb_app, fetches_render_event. reflexivity.
          - unfold all_ok. rewrite forallb_app. fold (all_ok (fetches w (tryPaths s))).
            rewrite fetches_all_ok. reflexivity. }
      apply bind_call_inv in H.
      destruct H as [(_ & es6 & H & ->) | (_ & -> & ->)].
      2:{ right. split; [reflexivity|].
          exists (fetches w (tryPaths s) ++ [Console Log (MRenderingSlide (i + 1) total s); Called (page_goto (url_of w p) 30000) true; Called (sleep (SLIDE_WAIT_MS w)) true]), (page_screenshot (path_join w [tmp w; slide_file i]) (JPEG_QUALITY w) sw sh).
          rewrite <- app_assoc. simpl. repeat split.
          - rewrite forallb_app, fetches_render_event. reflexivity.
          - unfold all_ok. rewrite forallb_app. fold (all_ok (fetches w (tryPaths s))).
            rewrite fetches_all_ok. reflexivity. }
      apply IH in H. destruct H as [[-> ->] | (-> & pre & c & -> & Hc & Hev & Hok)].
      * left. split; [|reflexivity].
        rewrite <- app_assoc. reflexivity.
      * right. split; [reflexivity|].
        exists (fetches w (tryPaths s) ++ [Console Log (MRenderingSlide (i + 1) total s); Called (page_goto (url_of w p) 30000) true; Called (sleep (SLIDE_WAIT_MS w)) true; Called (page_screenshot (path_join w [tmp w; slide_file i]) (JPEG_QUALITY w) sw sh) true] ++ pre), c.
        rewrite <- !app_assoc. simpl. repeat split; auto.
        -- rewrite forallb_app, fetches_render_event. simpl. exact Hev.
        -- unfold all_ok in *. rewrite forallb_app. fold (all_ok (fetches w (tryPaths s))).
           rewrite fetches_all_ok. simpl. exact Hok.
    + apply bind_console_inv in H. destruct H as (es3 & H & ->).
      apply IH in H. destruct H as [[-> ->] | (-> & pre & c & -> & Hc & Hev & Hok)].
      * left. auto.
      * right. split; [reflexivity|].
        exists (fetches w (tryPaths s) ++ Console Warn (MSkippingSlide s) :: pre), c.
        rewrite <- !app_assoc. simpl. repeat split; auto.
        -- rewrite forallb_app, fetches_render_event. simpl. exact Hev.
        -- unfold all_ok in *. rewrite forallb_app. fold (all_ok (fetches w (tryPaths s))).
           rewrite fetches_all_ok. simpl. exact Hok.
Qed.

(* ------------------------------------------------------------------ *)
(** *** The composing loop *)

Lemma compose_trace_event w images :
  forallb compose_event (compose_trace w images) = true.
Proof. induction images; simpl; auto. Qed.

(** The composing loop never leaves the process; when it returns it has
    added one page per image, in order. *)
Lemma compose_inv w images :
  forall pages t o es,
    compose w images pages t = (o, es) ->
    (o = Ret (pages ++ map (page_of w) images) /\ es = compose_trace w images)
    \/ (o = Thrown /\ forallb compose_event es = true).
Proof.
  induction images as [|img rest IH]; intros pages t o es H.
  - simpl in H. injection H as <- <-. simpl. rewrite app_nil_r. auto.
  - simpl in H.
    apply bind_call_inv in H.
    destruct H as [(_ & es1 & H & ->) | (_ & -> & ->)]; [|simpl; auto].
    apply bind_call_inv in H.
    destruct H as [(_ & es2 & H & ->) | (_ & -> & ->)]; [|simpl; auto].
    apply bind_call_inv in H.
    destruct H as [(_ & es3 & H & ->) | (_ & -> & ->)]; [|simpl; auto].
    apply bind_call_inv in H.
    destruct H as [(_ & es4 & H & ->) | (_ & -> & ->)]; [|simpl; auto].
    apply IH in H. destruct H as [[-> ->] | [-> Hev]].
    + left. split; [|reflexivity].
      rewrite <- app_assoc. reflexivity.
    + right. split; [reflexivity|]. exact Hev.
Qed.

(* ------------------------------------------------------------------ *)
(** *** Manifest and slide enumeration *)

Lemma readManifestIfExists_eq w t :
  exists ok,
    readManifestIfExists w t =
    (Ret (manifest_at w t), [Called (fsp_readFile_staged ["manifest.json"]) ok]).
Proof.
  unfold readManifestIfExists, manifest_at, try_catch, bind, readFile_staged.
  destruct (lookup (staged w) ["manifest.json"]) as [[raw|entries]|];
    try (exists false; reflexivity).
  destruct (throws w t _); [exists false; reflexivity|].
  exists true. destruct (JSON_parse w raw); reflexivity.
Qed.

Lemma readdir_staged_inv w t o es :
  readdir_staged w ["slides"] t = (o, es) ->
  (exists l, listing w = Some l /\ o = Ret l /\
             es = [Called (fsp_readdir_staged ["slides"]) true])
  \/ (o = Thrown /\ es = [Called (fsp_readdir_staged ["slides"]) false]).
Proof.
  unfold readdir_staged, listing.
  destruct (lookup (staged w) ["slides"]) as [[raw|entries]|];
    try (intros [= <- <-]; auto).
  destruct (throws w t _); intros [= <- <-]; eauto.
Qed.

Lemma listNumericSlideFolders_inv w t o es :
  listNumericSlideFolders w t = (o, es) ->
  (exists l, listing w = Some l /\ o = Ret (numeric_folders l) /\
             es = [Called (fsp_readdir_staged ["slides"]) true])
  \/ (o = Ret [] /\ es = [Called (fsp_readdir_staged ["slides"]) false]).
Proof.
  unfold listNumericSlideFolders, try_catch, bind, readdir_staged, listing, ret.
  destruct (lookup (staged w) ["slides"]) as [[raw|entries]|];
    try (intros [= <- <-]; auto).
  destruct (throws w t _); intros [= <- <-]; eauto.
Qed.

(** How the slide enumeration ends: with the numeric folders when there
    are some, else with the fallback folders when there are some, else
    with exit code 1. *)
Lemma findSlides_inv w t o es :
  findSlides w t = (o, es) ->
  (exists slideDirs, o = Ret slideDirs /\ Found w slideDirs es)
  \/ (exists b, o = Exited 1 /\
        es = [readdir_slides b; Console Warn MNoNumericFolders;
              readdir_slides false; Console Error MNoSlidesFound])
  \/ (exists l b, listing w = Some l /\ fallback_folders w l = [] /\
        (b = true -> numeric_folders l = []) /\
        o = Exited 1 /\
        es = [readdir_slides b; Console Warn MNoNumericFolders;
              readdir_slides true; Console Error MNoSlidesInArchive]).
Proof.
  unfold findSlides. intros H. apply bind_inv in H.
  destruct (listNumericSlideFolders w t) as [o1 es1] eqn:H1.
  apply listNumericSlideFolders_inv in H1.
  assert (Hcases :
    exists b nums, o1 = Ret nums /\ es1 = [Called (fsp_readdir_staged ["slides"]) b] /\
      ((b = true /\ exists l, listing w = Some l /\ nums = numeric_folders l)
       \/ (b = false /\ nums = []))).
  { destruct H1 as [(l & Hl & -> & ->) | [-> ->]].
    - exists true, (numeric_folders l). eauto 8.
    - exists false, []. auto. }
  clear H1. destruct Hcases as (b & nums & -> & -> & Hb).
  destruct H as (es2 & H & ->).
  apply bind_inv in H.
  destruct nums as [|n nums'].
  - (* no numeric folder: the fallback scan *)
    cbn [List.length Nat.eqb] in H.
    destruct (bind (console Warn MNoNumericFolders) _ _) as [o3 es3] eqn:H3.
    apply bind_console_inv in H3. destruct H3 as (es4 & H3 & ->).
    apply try_catch_inv in H3.
    destruct (bind (readdir_staged w ["slides"]) _ _) as [o5 es5] eqn:H5.
    apply bind_inv in H5.
    destruct (readdir_staged w ["slides"] _) as [o6 es6] eqn:H6.
    apply readdir_staged_inv in H6.
    destruct H6 as [(l & Hl & -> & ->) | [-> ->]].
    + destruct H5 as (es7 & [= <- <-] & ->). destruct H3 as [-> ->].
      destruct H as (es8 & H & ->).
      destruct (fallback_folders w l) as [|f fs] eqn:Hf.
      * cbn [List.length Nat.eqb] in H.
        apply bind_console_inv in H. destruct H as (es9 & [= <- <-] & ->).
        right; right. exists l, b. repeat split; auto.
        intros ->. destruct Hb as [(_ & l' & Hl' & E) | [[=] _]].
        rewrite Hl in Hl'. injection Hl' as <-. auto.
      * cbn [List.length Nat.eqb] in H. injection H as <- <-.
        left. exists (f :: fs). split; [reflexivity|]. rewrite <- Hf.
        apply found_fallback; auto.
        -- rewrite Hf. discriminate.
        -- intros ->. destruct Hb as [(_ & l' & Hl' & E) | [[=] _]].
           rewrite Hl in Hl'. injection Hl' as <-. auto.
    + destruct H5 as [-> ->]. destruct H3 as (es7 & H3 & ->).
      apply bind_console_inv in H3. destruct H3 as (es8 & [= <- <-] & ->).
      destruct H as [-> ->].
      right; left. exists b. auto.
  - (* numeric folders *)
    cbn [List.length Nat.eqb] in H. unfold ret at 1 in H.
    destruct H as (es3 & H & ->).
    cbn [List.length Nat.eqb] in H. injection H as <- <-.
    destruct Hb as [(-> & l & Hl & E) | [_ [=]]].
    left. exists (n :: nums'). split; [reflexivity|]. rewrite E.
    apply found_numeric; auto. rewrite <- E. discriminate.
Qed.

(* ------------------------------------------------------------------ *)
(** *** Walking through the script

    [run_script H] takes [H : m t = (o, es)] and follows [m] statement by
    statement, leaving one goal for each way through it, with [o] and [es]
    spelled out. *)

Ltac tidy :=
  repeat match goal with
    | H : throws _ _ _ = _ |- _ => clear H
    | H : Ret ?a = Ret ?a |- _ => clear H
    | H : Exited ?a = Exited ?a |- _ => clear H
    | H : @Thrown _ = @Thrown _ |- _ => clear H
    | H : Ret _ = Ret _ |- _ => injection H as H; try subst
    | H : Exited _ = Exited _ |- _ => injection H as H; try subst
    | H : Ret _ = Thrown |- _ => discriminate H
    | H : Ret _ = Exited _ |- _ => discriminate H
    | H : Thrown = Ret _ |- _ => discriminate H
    | H : Thrown = Exited _ |- _ => discriminate H
    | H : Exited _ = Ret _ |- _ => discriminate H
    | H : Exited _ = Thrown |- _ => discriminate H
    end.

Ltac forget_time H :=
  lazymatch type of H with
  | _ ?t = _ =>
      tryif is_var t then idtac
      else (let t' := fresh "t" in
            set (t' := t) in H; clearbody t')
  end.

Ltac run_script H :=
  cbv beta in H; tidy; forget_time H;
  lazymatch type of H with
  | bind (console ?s ?m) ?k ?t = (?o, ?es) =>
      let es' := fresh "es" in
      apply (@bind_console_inv _ s m k t o es) in H;
      destruct H as (es' & H & ?); subst; run_script H
  | bind (call ?w ?c) ?k ?t = (?o, ?es) =>
      let es' := fresh "es" in
      let Hc := fresh "Hc" in
      apply (@bind_call_inv _ w c k t o es) in H;
      destruct H as [(Hc & es' & H & ?) | (Hc & ? & ?)]; subst;
      [run_script H | try discriminate]
  | bind (readManifestIfExists ?w) ?k ?t = (?o, ?es) =>
      let es' := fresh "es" in
      let ok := fresh "ok" in
      let Hm := fresh "Hmanifest" in
      apply bind_inv in H;
      destruct (readManifestIfExists_eq w t) as (ok & Hm);
      rewrite Hm in H; clear Hm;
      destruct H as (es' & H & ?); subst; run_script H
  | bind (findSlides ?w) ?k ?t = (?o, ?es) =>
      let o1 := fresh "o" in
      let es1 := fresh "es" in
      let es' := fresh "es" in
      let Hf := fresh "Hfind" in
      let l := fresh "l" in
      let b := fresh "b" in
      let slideDirs := fresh "slideDirs" in
      apply bind_inv in H;
      destruct (findSlides w t) as [o1 es1] eqn:Hf;
      apply findSlides_inv in Hf;
      destruct Hf as [(slideDirs & ? & Hf)
                     |[(b & ? & ?)
                     |(l & b & ? & ? & ? & ? & ?)]]; subst;
      [ destruct H as (es' & H & ?); subst; run_script H
      | destruct H as [? ?]; subst
      | destruct H as [? ?]; subst ]
  | bind (render_slides ?w ?sw ?sh ?total ?i ?slides ?images) ?k ?t = (?o, ?es) =>
      let o1 := fresh "o" in
      let es1 := fresh "es" in
      let es' := fresh "es" in
      let Hr := fresh "Hrender" in
      let pre := fresh "pre" in
      let c := fresh "c" in
      apply bind_inv in H;
      destruct (render_slides w sw sh total i slides images t) as [o1 es1] eqn:Hr;
      apply render_slides_inv in Hr;
      destruct Hr as [[? ?] | (? & pre & c & ? & ? & ? & ?)]; subst;
      [ destruct H as (es' & H & ?); subst; run_script H
      | destruct H as [? ?]; subst ]
  | bind (compose ?w ?images ?pages) ?k ?t = (?o, ?es) =>
      let o1 := fresh "o" in
      let es1 := fresh "es" in
      let es' := fresh "es" in
      let Hc := fresh "Hcompose" in
      apply bind_inv in H;
      destruct (compose w images pages t) as [o1 es1] eqn:Hc;
      apply compose_inv in Hc;
      destruct Hc as [[? ?] | [? ?]]; subst;
      [ destruct H as (es' & H & ?); subst; run_script H
      | destruct H as [? ?]; subst ]
  | bind ?m ?f ?t = (?o, ?es) =>
      let a := fresh "a" in
      let es1 := fresh "es" in
      let es2 := fresh "es" in
      let Hm := fresh "Hm" in
      let Ho := fresh "Ho" in
      let He := fresh "He" in
      apply bind_inv in H;
      destruct (m t) as [[a| |?] es1] eqn:Hm;
      [ destruct H as (es2 & H & ?); subst; run_script Hm; run_script H
      | destruct H as [Ho He]; subst; run_script Hm
      | destruct H as [Ho He]; subst; run_script Hm ]
  | try_catch ?m ?h ?t = (?o, ?es) =>
      let a := fresh "a" in
      let es1 := fresh "es" in
      let es2 := fresh "es" in
      let Hm := fresh "Hm" in
      let Ho := fresh "Ho" in
      let He := fresh "He" in
      apply try_catch_inv in H;
      destruct (m t) as [[a| |?] es1] eqn:Hm;
      [ destruct H as [Ho He];
        first [discriminate Ho | (try (injection Ho as Ho)); subst; run_script Hm]
      | destruct H as (es2 & H & ?); subst; run_script Hm; run_script H
      | destruct H as [Ho He];
        first [discriminate Ho | (try (injection Ho as Ho)); subst; run_script Hm] ]
  | console _ _ _ = _ =>
      unfold console in H; first [discriminate H | injection H as ? ?; subst]
  | call ?w ?c ?t = _ =>
      let Hc := fresh "Hc" in
      apply call_inv in H;
      destruct H as [(Hc & ? & ?) | (Hc & ? & ?)]; subst; try discriminate
  | exit _ _ = _ =>
      unfold exit in H; first [discriminate H | injection H as ? ?; subst]
  | ret _ _ = _ =>
      unfold ret in H; first [discriminate H | injection H as ? ?; subst]
  | throw _ = _ =>
      unfold throw in H; first [discriminate H | injection H as ?; subst]
  | (if ?b then _ else _) _ = _ => destruct b eqn:?; run_script H
  | (match ?x with Some _ => _ | None => _ end) _ = _ =>
      destruct x eqn:?; run_script H
  | (let (_, _) := ?x in _) _ = _ => destruct x eqn:?; run_script H
  | usageExit _ = _ => unfold usageExit in H; run_script H
  | main_setup _ _ = _ => unfold main_setup in H; run_script H
  | render _ _ _ _ _ = _ => unfold render in H; run_script H
  | render_failed _ _ = _ => unfold render_failed in H; run_script H
  | extractTar _ _ _ _ = _ => unfold extractTar in H; run_script H
  | program _ _ = _ => unfold program in H; run_script H
  | _ => idtac
  end.

(* ------------------------------------------------------------------ *)
(** *** Every run is in the catalogue *)

Lemma SetupPath_eq w o es es' : SetupPath w o es' -> es = es' -> SetupPath w o es.
Proof. intros H ->. exact H. Qed.

Lemma RenderPath_eq w sw sh slides o es es' :
  RenderPath w sw sh slides o es' -> es = es' -> RenderPath w sw sh slides o es.
Proof. intros H ->. exact H. Qed.

Ltac same_trace :=
  unfold served_trace, sized_trace, staged_trace, extracted_path,
    written_trace, composed_trace, captured_trace, removal_trace,
    outDir_trace, size_message, readdir_slides;
  repeat match goal with H : _ = true |- _ => rewrite H end;
  repeat match goal with H : _ = false |- _ => rewrite H end;
  cbn [app]; rewrite <- ?app_assoc; cbn [app]; reflexivity.

Lemma main_setup_paths w t o es :
  main_setup w t = (o, es) -> SetupPath w o es.
Proof.
  intros H. run_script H; tidy.
  all: repeat match goal with
       | H : slideSize ?m = (?a, ?b) |- _ =>
           assert (a = fst (slideSize m)) by (rewrite H; reflexivity);
           assert (b = snd (slideSize m)) by (rewrite H; reflexivity);
           clear H; subst a b
       end.
  all: first
    [ solve [eapply SetupPath_eq; [eapply setup_ready; eassumption | same_trace]]
    | solve [eapply SetupPath_eq; [eapply setup_launch_fails; eassumption | same_trace]]
    | solve [eapply SetupPath_eq;
             [eapply (@setup_no_browser w _ _ _ _ true); eassumption | same_trace]]
    | solve [eapply SetupPath_eq;
             [eapply (@setup_no_browser w _ _ _ _ false); eassumption | same_trace]]
    | solve [eapply SetupPath_eq; [eapply setup_serve_fails; eassumption | same_trace]]
    | solve [eapply SetupPath_eq; [eapply setup_no_slides; eassumption | same_trace]]
    | solve [eapply SetupPath_eq; [eapply setup_listing_fails | same_trace]]
    | solve [eapply SetupPath_eq; [eapply setup_extraction_fails | same_trace]]
    | solve [eapply SetupPath_eq; [eapply setup_mkdirp_fails | same_trace]]
    | solve [eapply SetupPath_eq; [eapply setup_mkdtemp_fails | same_trace]]
    | solve [eapply SetupPath_eq; [eapply setup_archive_missing | same_trace]]
    ].
Qed.

Lemma Shutdown_inv w t (o : outcome unit) es (k : M unit) :
  (call w browser_close ;; call w srv_stop ;; k) t = (o, es) ->
  (exists sd, Shutdown false sd /\ o = Thrown /\ es = sd)
  \/ (exists t' es', k t' = (o, es') /\
        es = [Called browser_close true; Called srv_stop true] ++ es').
Proof.
  intros H.
  apply bind_call_inv in H.
  destruct H as [(_ & es1 & H & ->) | (_ & -> & ->)].
  - apply bind_call_inv in H.
    destruct H as [(_ & es2 & H & ->) | (_ & -> & ->)].
    + right. eauto.
    + left. eexists. split; [apply shutdown_stop_fails|auto].
  - left. eexists. split; [apply shutdown_close_fails|auto].
Qed.

Lemma render_paths w sw sh slides t o es :
  render w sw sh slides t = (o, es) -> RenderPath w sw sh slides o es.
Proof.
  intros H. unfold render in H.
  apply bind_call_inv in H.
  destruct H as [(_ & es1 & H & ->) | (_ & -> & ->)];
    [|apply render_newPage_fails].
  apply bind_call_inv in H.
  destruct H as [(_ & es2 & H & ->) | (_ & -> & ->)];
    [|apply render_setViewport_fails].
  apply bind_inv in H.
  destruct (render_slides _ _ _ _ _ _ _ _) as [o1 es3] eqn:Hloop.
  apply render_slides_inv in Hloop.
  destruct Hloop as [[-> ->] | (-> & pre & c & -> & Hc & Hev & Hok)].
  2:{ destruct H as [-> ->].
      eapply RenderPath_eq; [eapply render_capture_fails; eassumption|].
      reflexivity. }
  destruct H as (es4 & H & ->). cbn [app] in H.
  fold (images_of w sw sh slides) in H.
  destruct (List.length (images_of w sw sh slides) =? 0)%nat eqn:Hz.
  - (* no slide rendered *)
    apply Nat.eqb_eq, length_zero_iff_nil in Hz. rename Hz into Himages.
    apply bind_console_inv in H. destruct H as (es5 & H & ->).
    apply Shutdown_inv in H.
    destruct H as [(sd & Hsd & -> & ->) | (t' & es' & H & ->)].
    + eapply RenderPath_eq;
        [eapply (@render_none_rendered w sw sh slides false); eassumption|].
      reflexivity.
    + unfold exit in H. injection H as <- <-.
      eapply RenderPath_eq;
        [eapply (@render_none_rendered w sw sh slides true);
         [eassumption | apply shutdown_done]|].
      reflexivity.
  - assert (Hne : images_of w sw sh slides <> []).
    { intros E. rewrite E in Hz. discriminate. }
    apply bind_console_inv in H. destruct H as (es5 & H & ->).
    apply bind_call_inv in H.
    destruct H as [(_ & es6 & H & ->) | (_ & -> & ->)].
    2:{ eapply RenderPath_eq; [eapply render_create_fails; assumption|].
        reflexivity. }
    apply bind_inv in H.
    destruct (compose _ _ _ _) as [o2 es7] eqn:Hcompose.
    apply compose_inv in Hcompose.
    destruct Hcompose as [[-> ->] | [-> Hev]].
    2:{ destruct H as [-> ->].
        eapply RenderPath_eq; [eapply render_compose_fails; eassumption|].
        reflexivity. }
    destruct H as (es8 & H & ->). cbn [app] in H.
    fold (document w sw sh slides) in H.
    apply bind_inv in H.
    fold (outDir w) in H. fold (makes_outDir w) in H.
    assert (Hmk : exists o3,
      (if makes_outDir w then call w (mkdirp (outDir w)) else ret tt)
        (t + 1 + 1 +
         List.length (render_trace w sw sh (List.length slides) 0 slides) + 1 + 1 +
         List.length (compose_trace w (images_of w sw sh slides)))%nat
      = (o3, if makes_outDir w then [Called (mkdirp (outDir w))
                                       match o3 with Ret _ => true | _ => false end]
             else []) /\
      (o3 = Ret tt \/ (o3 = Thrown /\ makes_outDir w = true))).
    { destruct (makes_outDir w).
      - unfold call. destruct (throws w _ _);
          [exists Thrown | exists (Ret tt)]; split; auto.
      - exists (Ret tt). split; [reflexivity|auto]. }
    destruct Hmk as (o3 & Hmk & Ho3). rewrite Hmk in H. clear Hmk.
    destruct Ho3 as [-> | [-> Hmk]].
    2:{ destruct H as [-> ->]. rewrite Hmk.
        eapply RenderPath_eq; [eapply render_mkdirp_fails; assumption|].
        unfold composed_trace, captured_trace.
        cbn [app]; rewrite <- ?app_assoc; cbn [app]; reflexivity. }
    destruct H as (es9 & H & ->).
    apply bind_call_inv in H.
    destruct H as [(_ & es10 & H & ->) | (_ & -> & ->)].
    2:{ eapply RenderPath_eq; [eapply render_save_fails; assumption|].
        unfold composed_trace, captured_trace, outDir_trace.
        cbn [app]; rewrite <- ?app_assoc; cbn [app]; reflexivity. }
    apply bind_call_inv in H.
    destruct H as [(_ & es11 & H & ->) | (_ & -> & ->)].
    2:{ eapply RenderPath_eq; [eapply render_write_fails; assumption|].
        unfold composed_trace, captured_trace, outDir_trace.
        cbn [app]; rewrite <- ?app_assoc; cbn [app]; reflexivity. }
    apply bind_console_inv in H. destruct H as (es12 & H & ->).
    apply Shutdown_inv in H.
    destruct H as [(sd & Hsd & -> & ->) | (t' & es' & H & ->)].
    { eapply RenderPath_eq; [eapply render_shutdown_fails; eassumption|].
      unfold written_trace, composed_trace, captured_trace, outDir_trace.
      cbn [app]; rewrite <- ?app_assoc; cbn [app]; reflexivity. }
    apply bind_inv in H.
    assert (Hrm : exists removed,
      try_catch (call w (fsp_rm (tmp w)))
        (console Warn (MCleanupFailed (tmp w))) t'
      = (Ret tt, removal_trace w removed)).
    { unfold try_catch, call, console, removal_trace.
      destruct (throws w t' _); [exists false | exists true]; reflexivity. }
    destruct Hrm as (removed & Hrm). rewrite Hrm in H. clear Hrm.
    destruct H as (es13 & H & ->).
    unfold console in H. injection H as <- <-.
    eapply RenderPath_eq; [eapply (@render_done w sw sh slides removed); assumption|].
    unfold written_trace, composed_trace, captured_trace, outDir_trace.
    cbn [app]; rewrite <- ?app_assoc; cbn [app]; reflexivity.
Qed.

Lemma render_failed_inv w t o es :
  render_failed w t = (o, es) ->
  exists stopped shutdown,
    Shutdown stopped shutdown /\ o = Exited 1 /\ es = failed_trace shutdown.
Proof.
  unfold render_failed, failed_trace. intros H.
  apply bind_console_inv in H. destruct H as (es1 & H & ->).
  apply bind_inv in H.
  assert (Hsd : exists stopped shutdown,
    Shutdown stopped shutdown /\
    try_catch (call w browser_close;; call w srv_stop) (ret tt) (t + 1)%nat
    = (Ret tt, shutdown)).
  { unfold try_catch, bind, call, ret.
    destruct (throws w (t + 1)%nat browser_close).
    - exists false. eexists. split; [apply shutdown_close_fails|reflexivity].
    - cbn [List.length Nat.add].
      destruct (throws w _ srv_stop).
      + exists false. eexists. split; [apply shutdown_stop_fails|reflexivity].
      + exists true. eexists. split; [apply shutdown_done|reflexivity]. }
  destruct Hsd as (stopped & shutdown & Hsd & E). rewrite E in H. clear E.
  destruct H as (es2 & H & ->). unfold exit in H. injection H as <- <-.
  exists stopped, shutdown. rewrite app_nil_r. auto.
Qed.

Lemma args_check w :
  (List.length (process_argv w) <? 4)%nat = (List.length (args w) <? 2)%nat.
Proof.
  unfold process_argv. cbn [List.length].
  destruct (List.length (args w)) as [|[|n]]; reflexivity.
Qed.

(** Every run of the script follows one of the ways of the catalogue. *)
Lemma run_paths w code es : run w = (code, es) -> RunPath w code es.
Proof.
  unfold run, program. rewrite args_check.
  destruct (List.length (args w) <? 2)%nat eqn:Hargs.
  - apply Nat.ltb_lt in Hargs. cbn. intros [= <- <-].
    apply run_usage, Hargs.
  - apply Nat.ltb_ge in Hargs.
    destruct (try_catch _ _ _) as [o es0] eqn:H.
    apply try_catch_inv in H.
    destruct (main w 0%nat) as [o1 es1] eqn:Hmain.
    unfold main in Hmain. apply bind_inv in Hmain.
    destruct (main_setup w 0%nat) as [o2 es2] eqn:Hsetup.
    apply main_setup_paths in Hsetup.
    destruct o2 as [[[sw sh] slides]| |c].
    + destruct Hmain as (es3 & Hmain & ->).
      apply try_catch_inv in Hmain.
      destruct (render w sw sh slides _) as [o3 es4] eqn:Hrender.
      apply render_paths in Hrender.
      destruct o3 as [[]| |c].
      * destruct Hmain as [-> ->]. destruct H as [-> ->].
        intros [= <- <-]. eapply run_render_returns; eassumption.
      * destruct Hmain as (es5 & Hmain & ->).
        apply render_failed_inv in Hmain.
        destruct Hmain as (stopped & shutdown & Hsd & -> & ->).
        destruct H as [-> ->]. intros [= <- <-].
        eapply run_render_throws; eassumption.
      * destruct Hmain as [-> ->]. destruct H as [-> ->].
        intros [= <- <-]. eapply run_render_exits; eassumption.
    + destruct Hmain as [-> ->]. destruct H as (es3 & H & ->).
      unfold bind, console, exit in H. cbn in H. injection H as <- <-.
      intros [= <- <-]. apply run_setup_throws; assumption.
    + destruct Hmain as [-> ->]. destruct H as [-> ->].
      intros [= <- <-]. apply run_setup_exits; assumption.
Qed.

(* ------------------------------------------------------------------ *)
(** *** Observations on the pieces of a trace *)

Lemma output_app a b :
  output (a ++ b) =
  match output b with Some doc => Some doc | None => output a end.
Proof.
  induction a as [|e a IH]; simpl.
  - destruct (output b); reflexivity.
  - rewrite IH. destruct (output b); reflexivity.
Qed.

Lemma output_none es : writes_output es = false -> output es = None.
Proof.
  unfold writes_output. induction es as [|e es IH]; [reflexivity|].
  cbn [existsb output]. intros H. apply orb_false_iff in H.
  destruct H as [He H]. rewrite (IH H).
  destruct e as [[] []| |]; try discriminate He; reflexivity.
Qed.

Lemma see_app a b : see (a ++ b) = seen_both (see a) (see b).
Proof.
  unfold see, seen_both, writes_output, write_failed, reports, logs_done,
    launched, goto_failed, slow_goto, listing_failed, cleanup. cbn.
  rewrite !existsb_app, filter_app, output_app. reflexivity.
Qed.

Lemma see_cons e l : see (e :: l) = seen_both (see [e]) (see l).
Proof. apply (see_app [e] l). Qed.

Lemma see_quiet (P : Event -> bool) l :
  (forall e, P e = true -> see [e] = nothing_seen) ->
  forallb P l = true -> see l = nothing_seen.
Proof.
  intros Hq. induction l as [|e l IH]; [reflexivity|].
  cbn [forallb]. intros H. apply andb_prop in H. destruct H as [He Hl].
  rewrite see_cons, (Hq e He), IH by exact Hl. reflexivity.
Qed.

Lemma see_render_events l : forallb render_event l = true ->
  all_ok l = true -> see l = nothing_seen.
Proof.
  intros H Hok.
  assert (H' : forallb (fun e => render_event e &&
                 match e with Called _ ok => ok | _ => true end) l = true).
  { unfold all_ok in Hok. clear -H Hok. induction l as [|e l IH]; auto.
    cbn [forallb] in *. apply andb_prop in H, Hok.
    destruct H, Hok. rewrite IH by assumption.
    rewrite andb_true_r. apply andb_true_intro. auto. }
  revert H'. apply see_quiet.
  intros e; destruct e as [[] []| |[] []]; cbn;
    rewrite ?andb_true_r, ?andb_false_r;
    intros Hq; try discriminate Hq; try reflexivity.
  unfold see; cbn. rewrite Hq. reflexivity.
Qed.

Lemma see_render_trace w sw sh total i slides :
  see (render_trace w sw sh total i slides) = nothing_seen.
Proof.
  apply see_render_events;
    [apply render_trace_event | apply render_trace_all_ok].
Qed.

Lemma see_compose_events l :
  forallb compose_event l = true -> see l = nothing_seen.
Proof.
  apply see_quiet.
  intros e; destruct e as [[] []| |[] []]; cbn; intros Hq; try discriminate Hq; reflexivity.
Qed.

Lemma see_compose_trace w images : see (compose_trace w images) = nothing_seen.
Proof. apply see_compose_events, compose_trace_event. Qed.

Lemma see_search w slideDirs search :
  Found w slideDirs search ->
  see search =
  {| seen_write := false; seen_write_failed := false; seen_fatal := false;
     seen_done := false; seen_launch := false; seen_goto_failed := false;
     seen_slow_goto := false;
     seen_listing_failed := listing_failed search;
     seen_cleanup := []; seen_output := None |}.
Proof. intros [l Hl Hn | l [] Hl Hn Hb]; reflexivity. Qed.

Lemma seen_both_nothing_l a : seen_both nothing_seen a = a.
Proof.
  destruct a as [? ? ? ? ? ? ? ? ? out]. unfold seen_both; cbn.
  destruct out; reflexivity.
Qed.

Lemma seen_both_nothing_r a : seen_both a nothing_seen = a.
Proof.
  destruct a. unfold seen_both; cbn. rewrite !orb_false_r, app_nil_r.
  reflexivity.
Qed.

Lemma see_size_message m :
  see [Console Log (size_message m)] = nothing_seen.
Proof. unfold size_message. destruct (truthy _); reflexivity. Qed.

(** [seeing] computes what is seen on a trace made of events, appended
    pieces and the loops' traces. *)
Ltac seeing :=
  repeat match goal with
    | |- context [see (?a ++ ?b)] => rewrite (see_app a b)
    | |- context [see (?e :: ?l)] =>
        lazymatch l with
        | [] => fail
        | _ => rewrite (see_cons e l)
        end
    end;
  rewrite ?see_render_trace, ?see_compose_trace, ?see_size_message;
  repeat match goal with
    | H : Found _ _ ?s |- context [see ?s] => rewrite (@see_search _ _ _ H)
    | H : forallb compose_event ?s = true |- context [see ?s] =>
        rewrite (@see_compose_events _ H)
    | H : forallb render_event ?s = true, H' : all_ok ?s = true
      |- context [see ?s] => rewrite (@see_render_events _ H H')
    end;
  rewrite ?seen_both_nothing_l, ?seen_both_nothing_r.

Ltac compute_seen :=
  cbv beta iota delta
    [see seen_both nothing_seen writes_output write_failed reports logs_done
     launched goto_failed slow_goto listing_failed cleanup output existsb
     filter is_write is_cleanup fatal_kind orb andb negb app
     seen_write seen_write_failed seen_fatal seen_done seen_launch
     seen_goto_failed seen_slow_goto seen_listing_failed seen_cleanup
     seen_output].

Ltac split_all :=
  repeat match goal with |- _ /\ _ => split end.

Ltac unfold_traces :=
  unfold served_trace, sized_trace, staged_trace, failed_trace,
    written_trace, composed_trace, captured_trace, removal_trace,
    outDir_trace, readdir_slides.

Ltac unfold_traces_in H :=
  unfold served_trace, sized_trace, staged_trace, failed_trace,
    written_trace, composed_trace, captured_trace, removal_trace,
    outDir_trace in H.

(** What is seen on the trace of [main_setup]: no write, no end line; the
    launch exactly when it returns, and then no fatal error line; a fatal
    error line when it leaves the process, with code 1. *)
Lemma see_setup w o es :
  SetupPath w o es ->
  see es =
    {| seen_write := false; seen_write_failed := false;
       seen_fatal := reports fatal_kind es;
       seen_done := false;
       seen_launch := match o with Ret _ => true | _ => false end;
       seen_goto_failed := false;
       seen_slow_goto := false;
       seen_listing_failed := listing_failed es;
       seen_cleanup := cleanup es;
       seen_output := None |}
  /\ (forall r, o = Ret r -> reports fatal_kind es = false /\ cleanup es = [])
  /\ (forall code, o = Exited code ->
        code = 1 /\ reports fatal_kind es = true)
  /\ (cleanup es = [] \/
      (findSystemChrome w = None /\ exists stopped,
         cleanup es = [Called srv_stop stopped] /\
         o = if stopped then Exited 1 else Thrown)).
Proof.
  assert (Hc : forall l, cleanup l = seen_cleanup (see l)) by reflexivity.
  assert (Hf : forall l, reports fatal_kind l = seen_fatal (see l)) by reflexivity.
  assert (Hl : forall l, listing_failed l = seen_listing_failed (see l)) by reflexivity.
  intros H; destruct H; rewrite !Hc, !Hf, !Hl; unfold_traces.
  all: try match goal with |- context [if ?b then _ else _] => destruct b end.
  all: seeing; compute_seen; split_all.
  all: try reflexivity; try (intros; discriminate).
  all: try (intros ? [= <-]; split; reflexivity).
  all: try (left; reflexivity).
  all: try (right; split; [assumption|]; eexists; split; reflexivity).
Qed.

(** What is seen on the trace of the [try] block, by the way it ends. *)
Lemma see_render w sw sh slides o es :
  RenderPath w sw sh slides o es ->
  seen_launch (see es) = false /\
  match o with
  | Ret _ =>
      exists removed,
        see es =
        {| seen_write := true; seen_write_failed := false;
           seen_fatal := false; seen_done := true; seen_launch := false;
           seen_goto_failed := false;
           seen_slow_goto := false; seen_listing_failed := false;
           seen_cleanup := [ Called browser_close true; Called srv_stop true;
                             Called (fsp_rm (tmp w)) removed ];
           seen_output := Some (document w sw sh slides) |}
  | Exited code =>
      code = 1 /\
      see es =
      {| seen_write := false; seen_write_failed := false;
         seen_fatal := true; seen_done := false; seen_launch := false;
         seen_goto_failed := false;
         seen_slow_goto := false; seen_listing_failed := false;
         seen_cleanup := [Called browser_close true; Called srv_stop true];
         seen_output := None |}
  | Thrown =>
      seen_done (see es) = false /\
      seen_slow_goto (see es) = false /\
      seen_listing_failed (see es) = false /\
      (seen_fatal (see es) = true -> seen_write (see es) = false) /\
      (seen_cleanup (see es) = [] \/ Shutdown false (seen_cleanup (see es)))
  end.
Proof.
  intros H; destruct H; unfold_traces.
  all: repeat match goal with
       | H : Shutdown _ _ |- _ => inversion H; subst; clear H
       | H : render_call ?c = true |- _ =>
           destruct c; try discriminate H; cbn [render_call] in H
       | |- context [if ?b then _ else _] => destruct b
       end.
  all: seeing; compute_seen;
    repeat match goal with H : (_ =? 30000) = true |- _ => rewrite H; clear H end;
    split_all.
  all: try reflexivity; try (intros; reflexivity); try (intros; discriminate).
  all: try (left; reflexivity); try (right; constructor).
  all: try (eexists; reflexivity).
Qed.

Ltac project :=
  cbn [seen_both seen_write seen_write_failed seen_fatal seen_done seen_launch
       seen_goto_failed seen_slow_goto seen_listing_failed seen_cleanup
       seen_output];
  rewrite ?orb_false_r, ?orb_false_l, ?orb_true_r, ?orb_true_l, ?app_nil_r.

Lemma see_failed_trace stopped shutdown :
  Shutdown stopped shutdown ->
  see (failed_trace shutdown) =
  {| seen_write := false; seen_write_failed := false; seen_fatal := false;
     seen_done := false; seen_launch := false; seen_goto_failed := false;
     seen_slow_goto := false; seen_listing_failed := false;
     seen_cleanup := shutdown; seen_output := None |}.
Proof. intros []; reflexivity. Qed.

(** What is seen on a whole run, by the way through the script. *)
Lemma see_run w code es :
  RunPath w code es ->
  (code = 2 /\ (List.length (args w) < 2)%nat /\ es = [Console Error MUsage])
  \/ ((2 <= List.length (args w))%nat /\
      ((code = 1 /\ seen_write (see es) = false /\ seen_done (see es) = false)
       \/ (code = 1 /\ seen_fatal (see es) = false /\
           seen_done (see es) = false /\ seen_launch (see es) = true)
       \/ (code = (if handler_failed es then 1 else 0) /\
           seen_fatal (see es) = false /\
           seen_write_failed (see es) = false /\ seen_done (see es) = true /\
           exists doc, seen_output (see es) = Some doc))).
Proof.
  intros [Hargs | c es1 Hargs Hs | es1 Hargs Hs
          | sw sh slides es1 es2 Hargs Hs Hr
          | sw sh slides es1 es2 c Hargs Hs Hr
          | sw sh slides es1 es2 stopped sd Hargs Hs Hr Hsd].
  - left. auto.
  - right. split; [assumption|]. left.
    apply see_setup in Hs. destruct Hs as (E & _ & Hc & _).
    destruct (Hc c eq_refl) as [-> _]. rewrite E. project. auto.
  - right. split; [assumption|]. left.
    apply see_setup in Hs. destruct Hs as (E & _).
    rewrite see_app, E. project. auto.
  - right. split; [assumption|]. right; right.
    apply see_setup in Hs. destruct Hs as (E & Hret & _).
    destruct (Hret _ eq_refl) as [Hf Hcl].
    apply see_render in Hr. destruct Hr as (_ & removed & E2).
    rewrite see_app, E, E2, Hf. project. eauto 8.
  - right. split; [assumption|]. left.
    apply see_setup in Hs. destruct Hs as (E & _).
    apply see_render in Hr. destruct Hr as (_ & -> & E2).
    rewrite see_app, E, E2. project. auto.
  - right. split; [assumption|].
    apply see_setup in Hs. destruct Hs as (E & Hret & _).
    destruct (Hret _ eq_refl) as [Hf Hcl].
    apply see_render in Hr. destruct Hr as (_ & Hd & _ & _ & Hfw & _).
    rewrite !see_app, E, (see_failed_trace Hsd), Hf. project.
    destruct (seen_fatal (see es2)) eqn:Hfatal.
    + left. rewrite Hfw by reflexivity. auto.
    + right; left. auto.
Qed.

(* ------------------------------------------------------------------ *)
(** *** Following an event through a trace *)

Lemma all_ok_In es c : all_ok es = true -> In (Called c false) es -> False.
Proof.
  unfold all_ok. rewrite forallb_forall. intros H Hin.
  specialize (H _ Hin). discriminate H.
Qed.

Lemma compose_trace_ok w images : all_ok (compose_trace w images) = true.
Proof. induction images; cbn; auto. Qed.

(** [hunt H] follows [H : In e l] through the appended pieces and the
    listed events of [l]. *)
Ltac hunt H :=
  match type of H with
  | In _ (_ ++ _) =>
      apply in_app_or in H; destruct H as [H | H]; hunt H
  | In _ (_ :: _) =>
      destruct H as [H | H]; [try discriminate H | hunt H]
  | In _ [] => destruct H
  | In _ (if ?b then _ else _) => destruct b; hunt H
  | _ => idtac
  end.

Lemma screenshots_app a b :
  screenshots (a ++ b) = (screenshots a + screenshots b)%nat.
Proof. unfold screenshots. rewrite filter_app, length_app. reflexivity. Qed.

Transparent fetches.

Lemma screenshots_fetches w paths : screenshots (fetches w paths) = 0%nat.
Proof.
  unfold fetches. induction (probed w paths) as [|p l IH]; [reflexivity|exact IH].
Qed.

Opaque fetches.

Lemma screenshots_render_trace w sw sh total slideDirs :
  forall i,
    screenshots (render_trace w sw sh total i slideDirs) =
    List.length (captures w i slideDirs).
Proof.
  induction slideDirs as [|s rest IH]; intros i; [reflexivity|].
  cbn [render_trace captures].
  rewrite !screenshots_app, screenshots_fetches, IH.
  destruct (resolve w s); reflexivity.
Qed.

Lemma screenshots_compose_trace w images :
  screenshots (compose_trace w images) = 0%nat.
Proof. induction images as [|img rest IH]; [reflexivity|exact IH]. Qed.

Lemma captures_length w slideDirs :
  forall i, (List.length (captures w i slideDirs) <= List.length slideDirs)%nat.
Proof.
  induction slideDirs as [|s rest IH]; intros i; cbn [captures List.length];
    [lia|].
  specialize (IH (S i)). destruct (resolve w s); cbn [List.length]; lia.
Qed.

(* ------------------------------------------------------------------ *)
(** *** Fatal errors and the output file *)

Lemma see_captured_trace w sw sh slides :
  see (captured_trace w sw sh slides) = nothing_seen.
Proof. unfold captured_trace. seeing. reflexivity. Qed.

Lemma see_composed_trace w sw sh slides :
  see (composed_trace w sw sh slides) = nothing_seen.
Proof.
  unfold composed_trace. rewrite !see_app, see_captured_trace.
  seeing. reflexivity.
Qed.

Lemma see_outDir_trace w : see (outDir_trace w) = nothing_seen.
Proof. unfold outDir_trace. destruct (makes_outDir w); reflexivity. Qed.

(** A [try] block that writes has captured at least one slide and
    composed the whole document first, and writes once, to the requested
    path; nothing but console lines, the shutdown and the removal
    follows. *)
Lemma render_writes w sw sh slides o es :
  RenderPath w sw sh slides o es ->
  writes_output es = true ->
  exists ok rest,
    es = composed_trace w sw sh slides ++ outDir_trace w ++
         [ Called pdfDoc_save true;
           Called (fsp_writeFile (outPdfPath w) (document w sw sh slides)) ok ]
         ++ rest
    /\ forallb after_write_event rest = true
    /\ images_of w sw sh slides <> [].
Proof.
  change (writes_output es) with (seen_write (see es)).
  intros H; destruct H; unfold_traces.
  all: try (intros _; eexists; eexists; split;
            [rewrite <- ?app_assoc; cbn [app]; reflexivity|];
            repeat match goal with
              | H : Shutdown _ _ |- _ => inversion H; subst; clear H
              | |- context [if ?b then _ else _] => destruct b
              end; (split; [reflexivity|assumption])).
  all: repeat match goal with
       | H : Shutdown _ _ |- _ => inversion H; subst; clear H
       | H : render_call ?c = true |- _ =>
           destruct c; try discriminate H; cbn [render_call] in H
       | |- context [if ?b then _ else _] => destruct b
       end.
  all: seeing; compute_seen; intros; discriminate.
Qed.

Lemma shots_app a b : shots (a ++ b) = shots a ++ shots b.
Proof. unfold shots. apply flat_map_app. Qed.

Lemma screenshots_shots es : screenshots es = List.length (shots es).
Proof.
  unfold screenshots, shots. induction es as [|e es IH]; [reflexivity|].
  cbn [filter flat_map]. rewrite length_app, <- IH.
  destruct e as [[] []| |]; reflexivity.
Qed.

Lemma after_write_quiet rest :
  forallb after_write_event rest = true ->
  writes_output rest = false /\ shots rest = [] /\
  handler_failed rest = false /\
  forall e, In e rest -> after_write_event e = true.
Proof.
  intros H. split; [|split; [|split]].
  - unfold writes_output. induction rest as [|e rest IH]; [reflexivity|].
    cbn [forallb existsb] in H |- *. apply andb_prop in H. destruct H as [He H].
    rewrite (IH H), orb_false_r. destruct e as [[] ?| |]; try discriminate He;
      reflexivity.
  - induction rest as [|e rest IH]; [reflexivity|].
    cbn [forallb] in H. apply andb_prop in H. destruct H as [He H].
    change (e :: rest) with ([e] ++ rest). rewrite shots_app, (IH H), app_nil_r.
    destruct e as [[] ?| |]; try discriminate He; reflexivity.
  - unfold handler_failed. induction rest as [|e rest IH]; [reflexivity|].
    cbn [forallb existsb] in H |- *. apply andb_prop in H. destruct H as [He H].
    rewrite (IH H), orb_false_r. destruct e as [[] ?| |]; try discriminate He;
      reflexivity.
  - apply forallb_forall, H.
Qed.

Lemma setup_ready_inv w sw sh slideDirs es :
  SetupPath w (Ret (sw, sh, slideDirs)) es ->
  exists tm ok search chromePath,
    Found w slideDirs search /\
    findSystemChrome w = Some chromePath /\
    sw = fst (slideSize (manifest_at w tm)) /\
    sh = snd (slideSize (manifest_at w tm)) /\
    es = served_trace w tm ok slideDirs search ++
         [ Console Log (MUsingBrowser chromePath);
           Called (puppeteer_launch chromePath) true ].
Proof.
  intros Hs.
  inversion Hs; subst;
    try match goal with
        | H : (if ?b then _ else _) = _ |- _ => destruct b; discriminate H
        end.
  do 4 eexists. repeat split; eassumption.
Qed.

(** A run that writes has set everything up, captured at least one slide
    and composed the whole document before it writes, once, to the
    requested path. *)
Lemma run_written w code es :
  run w = (code, es) ->
  writes_output es = true ->
  exists tm ok slideDirs search chromePath wrote rest,
    let slideWidth := fst (slideSize (manifest_at w tm)) in
    let slideHeight := snd (slideSize (manifest_at w tm)) in
    Found w slideDirs search /\
    findSystemChrome w = Some chromePath /\
    images_of w slideWidth slideHeight slideDirs <> [] /\
    es =
      (served_trace w tm ok slideDirs search ++
       [ Console Log (MUsingBrowser chromePath);
         Called (puppeteer_launch chromePath) true ]) ++
      composed_trace w slideWidth slideHeight slideDirs ++
      outDir_trace w ++
      [ Called pdfDoc_save true;
        Called (fsp_writeFile (outPdfPath w)
                  (document w slideWidth slideHeight slideDirs)) wrote ]
      ++ rest /\
    forallb after_write_event rest = true.
Proof.
  intros H. apply run_paths in H.
  assert (Hsetup : forall o setup, SetupPath w o setup ->
            writes_output setup = false).
  { intros o setup Hs. apply see_setup in Hs. destruct Hs as (E & _).
    change (seen_write (see setup) = false). rewrite E. reflexivity. }
  unfold writes_output in *.
  destruct H as [Hargs | c es1 Hargs Hs | es1 Hargs Hs
        | sw sh slides es1 es2 Hargs Hs Hr
        | sw sh slides es1 es2 c Hargs Hs Hr
        | sw sh slides es1 es2 stopped sd Hargs Hs Hr Hsd];
    rewrite ?existsb_app, ?(Hsetup _ _ Hs); cbn [orb].
  - discriminate.
  - discriminate.
  - cbn. discriminate.
  - intros Hw. destruct (render_writes Hr Hw) as (ok & rest & -> & Hrest & Hne).
    destruct (setup_ready_inv Hs)
      as (tm & ok' & search & chrome & HF & Hchrome & -> & -> & ->).
    exists tm, ok', slides, search, chrome, ok, rest. cbn zeta. auto.
  - intros Hw. destruct (render_writes Hr Hw) as (ok & rest & -> & Hrest & Hne).
    destruct (setup_ready_inv Hs)
      as (tm & ok' & search & chrome & HF & Hchrome & -> & -> & ->).
    exists tm, ok', slides, search, chrome, ok, rest. cbn zeta. auto.
  - assert (Hsd' : existsb is_write (failed_trace sd) = false)
      by (destruct Hsd; reflexivity).
    rewrite Hsd', orb_false_r.
    intros Hw. destruct (render_writes Hr Hw) as (ok & rest & -> & Hrest & Hne).
    destruct (setup_ready_inv Hs)
      as (tm & ok' & search & chrome & HF & Hchrome & -> & -> & ->).
    exists tm, ok', slides, search, chrome, ok, (rest ++ failed_trace sd).
    cbn zeta. split; [assumption|]. split; [assumption|].
    split; [assumption|]. split.
    + rewrite <- !app_assoc. reflexivity.
    + rewrite forallb_app, Hrest. destruct Hsd; reflexivity.
Qed.

Transparent fetches.

Lemma shots_of_fetches w paths : shots (fetches w paths) = [].
Proof.
  unfold fetches. induction (probed w paths) as [|p l IH]; [reflexivity|exact IH].
Qed.

Opaque fetches.

(** The capture loop that returns took the screenshots of [images], in
    order. *)
Lemma shots_render_trace w sw sh total slideDirs :
  forall i,
    shots (render_trace w sw sh total i slideDirs) =
    map (image_of w sw sh) (captures w i slideDirs).
Proof.
  induction slideDirs as [|s rest IH]; intros i; [reflexivity|].
  cbn [render_trace captures].
  rewrite !shots_app, shots_of_fetches, IH.
  destruct (resolve w s); reflexivity.
Qed.

Lemma shots_compose_trace w images : shots (compose_trace w images) = [].
Proof. induction images as [|img rest IH]; [reflexivity|exact IH]. Qed.

(** The rendered slides of a run that writes are the images it
    composed. *)
Lemma shots_written w tm ok slideDirs search chromePath sw sh wrote rest :
  Found w slideDirs search ->
  forallb after_write_event rest = true ->
  shots
    ((served_trace w tm ok slideDirs search ++
      [ Console Log (MUsingBrowser chromePath);
        Called (puppeteer_launch chromePath) true ]) ++
     composed_trace w sw sh slideDirs ++ outDir_trace w ++
     [ Called pdfDoc_save true;
       Called (fsp_writeFile (outPdfPath w) (document w sw sh slideDirs)) wrote ]
     ++ rest)
  = images_of w sw sh slideDirs.
Proof.
  intros HF Hrest. unfold_traces.
  rewrite !shots_app, shots_render_trace, shots_compose_trace.
  destruct (after_write_quiet Hrest) as (_ & -> & _).
  assert (Hs : shots search = []) by (destruct HF; reflexivity).
  rewrite Hs. unfold images_of.
  destruct (makes_outDir w); cbn; rewrite ?app_nil_r; reflexivity.
Qed.

(** The conditions of the fatal pipeline errors: the archive is missing
    (its [fsp.stat] rejects), the extraction fails, no slide folder is
    found, no browser is found, no slide is rendered (no screenshot is
    taken).  No run in which one of them holds writes. *)
Lemma fatal_no_write w code es :
  run w = (code, es) ->
  In (Called (fsp_stat (archivePath w)) false) es \/
  In (Called (tarExtract (archivePath w) (extracted_path w)) false) es \/
  no_slide_folders w \/
  findSystemChrome w = None \/
  screenshots es = 0%nat ->
  writes_output es = false.
Proof.
  intros H Hfatal.
  destruct (writes_output es) eqn:Hw; [exfalso|reflexivity].
  destruct (run_written H Hw)
    as (tm & ok & slides & search & chrome & wrote & rest
        & HF & Hchrome & Hne & Hes & Hrest).
  cbn zeta in *.
  set (sw := fst (slideSize (manifest_at w tm))) in *.
  set (sh := snd (slideSize (manifest_at w tm))) in *.
  destruct (after_write_quiet Hrest) as (_ & _ & _ & Hafter).
  destruct Hfatal as [Hin | [Hin | [Hnone | [Hnone | Hzero]]]].
  - rewrite Hes in Hin. unfold_traces_in Hin.
    hunt Hin.
    + destruct HF; unfold readdir_slides in Hin; hunt Hin.
    + eapply all_ok_In; [apply render_trace_all_ok|exact Hin].
    + eapply all_ok_In; [apply compose_trace_ok|exact Hin].
    + apply Hafter in Hin. discriminate Hin.
  - rewrite Hes in Hin. unfold_traces_in Hin.
    hunt Hin.
    + destruct HF; unfold readdir_slides in Hin; hunt Hin.
    + eapply all_ok_In; [apply render_trace_all_ok|exact Hin].
    + eapply all_ok_In; [apply compose_trace_ok|exact Hin].
    + apply Hafter in Hin. discriminate Hin.
  - unfold no_slide_folders in Hnone.
    destruct HF as [l Hl Hn | l b Hl Hn Hb]; rewrite Hl in Hnone;
      destruct Hnone; congruence.
  - congruence.
  - rewrite screenshots_shots, Hes, (shots_written _ _ _ _ _ _ HF Hrest)
      in Hzero.
    destruct (images_of w sw sh slides); [congruence|discriminate Hzero].
Qed.

(** C4. No PDF is written - [fsp.writeFile] is never called, so that the
    output path is neither created nor modified - by a run in which the
    archive is missing (its [fsp.stat] rejects), the extraction fails,
    no slide folder is found, no browser is found, or no slide is
    rendered (no screenshot is taken), nor by a run that reports one of
    these errors.  A run that writes does so once, to the requested path,
    after the setup, the capture loop over every slide folder, in which
    at least one slide was rendered, and the composition of the whole
    document; what it writes is that document, one page per slide
    rendered. *)
Theorem no_output_on_fatal_error w code es :
  run w = (code, es) ->
  (In (Called (fsp_stat (archivePath w)) false) es \/
   In (Called (tarExtract (archivePath w) (extracted_path w)) false) es \/
   no_slide_folders w \/
   findSystemChrome w = None \/
   screenshots es = 0%nat \/
   reports fatal_kind es = true ->
   writes_output es = false) /\
  (writes_output es = true ->
   exists slideWidth slideHeight slideDirs setup ok rest,
     SetupPath w (Ret (slideWidth, slideHeight, slideDirs)) setup /\
     es = setup ++ composed_trace w slideWidth slideHeight slideDirs ++
          outDir_trace w ++
          [ Called pdfDoc_save true;
            Called (fsp_writeFile (outPdfPath w)
                      (document w slideWidth slideHeight slideDirs)) ok ]
          ++ rest /\
     writes_output
       (setup ++ composed_trace w slideWidth slideHeight slideDirs ++
        outDir_trace w ++ [Called pdfDoc_save true]) = false /\
     writes_output rest = false /\
     document w slideWidth slideHeight slideDirs <> [] /\
     List.length (document w slideWidth slideHeight slideDirs) =
       screenshots es).
Proof.
  intros H. split.
  - intros Hfatal.
    assert (Hcond :
              (In (Called (fsp_stat (archivePath w)) false) es \/
               In (Called (tarExtract (archivePath w) (extracted_path w))
                     false) es \/
               no_slide_folders w \/ findSystemChrome w = None \/
               screenshots es = 0%nat) \/
              reports fatal_kind es = true) by tauto.
    destruct Hcond as [Hcond | Hrep]; [exact (fatal_no_write H Hcond)|].
    apply run_paths, see_run in H.
    change (reports fatal_kind es) with (seen_fatal (see es)) in Hrep.
    change (writes_output es) with (seen_write (see es)).
    destruct H as [(-> & Hargs & ->)
                  |(Hargs & [(-> & Hw' & Hd)
                            |[(-> & Hf & Hd & _)
                             |(-> & Hf & Hw' & Hd & doc & Hdoc)]])];
      try reflexivity; try assumption; congruence.
  - intros Hw.
    destruct (run_written H Hw)
      as (tm & ok & slides & search & chrome & wrote & rest
          & HF & Hchrome & Hne & Hes & Hrest).
    cbn zeta in *.
    set (sw := fst (slideSize (manifest_at w tm))) in *.
    set (sh := snd (slideSize (manifest_at w tm))) in *.
    assert (Hs : SetupPath w (Ret (sw, sh, slides))
                   (served_trace w tm ok slides search ++
                    [ Console Log (MUsingBrowser chrome);
                      Called (puppeteer_launch chrome) true ]))
      by (apply setup_ready; assumption).
    eexists sw, sh, slides, _, wrote, rest.
    split; [exact Hs|]. split; [exact Hes|].
    destruct (after_write_quiet Hrest) as (Hquiet & _).
    split; [|split; [exact Hquiet|split]].
    + apply see_setup in Hs. destruct Hs as (E & _).
      match goal with
      | |- writes_output ?l = false => change (seen_write (see l) = false)
      end.
      rewrite see_app, E, !see_app, see_composed_trace, see_outDir_trace.
      reflexivity.
    + unfold document. destruct (images_of w sw sh slides);
        [congruence|discriminate].
    + rewrite screenshots_shots, Hes, (shots_written _ _ _ _ _ _ HF Hrest).
      unfold document. apply length_map.
Qed.

(* ------------------------------------------------------------------ *)
(** *** Exit codes *)



(* ------------------------------------------------------------------ *)
(** *** Cleanup *)

Lemma removes_tmp_cleanup es :
  removes_tmp es =
  existsb (fun e => match e with Called (fsp_rm _) _ => true | _ => false end)
    (cleanup es).
Proof.
  unfold removes_tmp, cleanup. induction es as [|e es IH]; [reflexivity|].
  cbn. destruct e as [[] ?| |]; cbn; rewrite ?IH; reflexivity.
Qed.

(** X18. Once the browser is launched: a run that reaches the last line
    of the script has shut the browser down, stopped the listener and
    asked for the removal of the working directory, in this order, and
    nothing else of the kind, whether the removal went through or not;
    every other run ends with code 1 and never asks for the removal: the
    last thing of the kind it does is an attempt to close the browser,
    followed, only when that attempt went through, by an attempt to stop
    the listener - after at most one earlier attempt at the same, which
    failed. *)
Theorem cleanup_by_exit_path w code es :
  run w = (code, es) ->
  launched es = true ->
  (logs_done es = true ->
   exists removed,
     cleanup es = [ Called browser_close true; Called srv_stop true;
                    Called (fsp_rm (tmp w)) removed ]) /\
  (logs_done es = false ->
   code = 1 /\ removes_tmp es = false /\
   exists before final,
     (before = [] \/ before = [Called browser_close false] \/
      before = [Called browser_close true; Called srv_stop false]) /\
     (final = [Called browser_close true; Called srv_stop true] \/
      final = [Called browser_close false] \/
      final = [Called browser_close true; Called srv_stop false]) /\
     cleanup es = before ++ final).
Proof.
  intros H. apply run_paths in H.
  rewrite removes_tmp_cleanup.
  change (launched es) with (seen_launch (see es)).
  change (logs_done es) with (seen_done (see es)).
  change (cleanup es) with (seen_cleanup (see es)).
  assert (Hsd3 : forall b l, Shutdown b l ->
            l = [Called browser_close true; Called srv_stop true] \/
            l = [Called browser_close false] \/
            l = [Called browser_close true; Called srv_stop false])
    by (intros b l []; auto).
  destruct H as [Hargs | c es1 Hargs Hs | es1 Hargs Hs
        | sw sh slides es1 es2 Hargs Hs Hr
        | sw sh slides es1 es2 c Hargs Hs Hr
        | sw sh slides es1 es2 stopped sd Hargs Hs Hr Hsd].
  - discriminate.
  - apply see_setup in Hs. destruct Hs as (E & _). rewrite E. discriminate.
  - apply see_setup in Hs. destruct Hs as (E & _).
    rewrite see_app, E. discriminate.
  - intros _. apply see_setup in Hs. destruct Hs as (E & Hret & _).
    destruct (Hret _ eq_refl) as [_ Hcl].
    apply see_render in Hr. destruct Hr as (_ & removed & E2).
    rewrite see_app, E, E2, Hcl. project. cbn [app].
    split; [eauto|]. discriminate.
  - intros _. apply see_setup in Hs. destruct Hs as (E & Hret & _).
    destruct (Hret _ eq_refl) as [_ Hcl].
    apply see_render in Hr. destruct Hr as (_ & -> & E2).
    rewrite see_app, E, E2, Hcl. project. cbn [app].
    split; [discriminate|]. intros _. split; [reflexivity|]. split; [reflexivity|].
    exists [], [Called browser_close true; Called srv_stop true]. auto.
  - intros _. apply see_setup in Hs. destruct Hs as (E & Hret & _).
    destruct (Hret _ eq_refl) as [_ Hcl].
    apply see_render in Hr. destruct Hr as (_ & Hd & _ & _ & _ & Hbefore).
    rewrite !see_app, E, (see_failed_trace Hsd), Hcl. project. cbn [app].
    rewrite Hd. split; [discriminate|]. intros _.
    split; [reflexivity|]. split.
    + rewrite existsb_app.
      assert (Hsd' : existsb (fun e => match e with
                                       | Called (fsp_rm _) _ => true
                                       | _ => false end) sd = false)
        by (destruct Hsd; reflexivity).
      rewrite Hsd', orb_false_r.
      destruct Hbefore as [-> | Hb]; [reflexivity|].
      destruct (seen_cleanup (see es2)); inversion Hb; reflexivity.
    + exists (seen_cleanup (see es2)), sd.
      split; [|split; [eapply Hsd3, Hsd|reflexivity]].
      destruct Hbefore as [-> | Hb]; [auto|].
      right. inversion Hb; auto.
Qed.

(* ------------------------------------------------------------------ *)
(** *** A navigation that rejects *)

Lemma split_at_unique (f : Event -> bool) A x B :
  existsb f A = false -> existsb f B = false -> f x = true ->
  forall pre y post,
    f y = true -> A ++ x :: B = pre ++ y :: post ->
    pre = A /\ y = x /\ post = B.
Proof.
  intros HA HB Hx. induction A as [|a A IH]; intros pre y post Hy E.
  - destruct pre as [|p pre]; cbn in E.
    + injection E as <- <-. auto.
    + injection E as <- ->. rewrite existsb_app in HB. cbn in HB.
      rewrite Hy, orb_true_r in HB. discriminate.
  - cbn in HA. apply orb_false_iff in HA. destruct HA as [Ha HA].
    destruct pre as [|p pre]; cbn in E.
    + injection E as <- _. congruence.
    + injection E as <- E. destruct (IH HA pre y post Hy E) as (-> & -> & ->).
      auto.
Qed.

(** The only [page.goto] that can reject in a [try] block is the last
    call of its trace, in the capture loop. *)
Lemma render_goto_failed w sw sh slides o es :
  RenderPath w sw sh slides o es ->
  goto_failed es = true ->
  exists pre url,
    o = Thrown /\
    es = pre ++ [Called (page_goto url 30000) false] /\
    goto_failed pre = false /\ writes_output es = false.
Proof.
  change (goto_failed es) with (seen_goto_failed (see es)).
  intros H; destruct H; unfold_traces.
  all: repeat match goal with
       | H : Shutdown _ _ |- _ => inversion H; subst; clear H
       | H : render_call ?c = true |- _ =>
           destruct c; try discriminate H; cbn [render_call] in H
       | |- context [if ?b then _ else _] => destruct b
       end.
  all: try (seeing; compute_seen; intros; discriminate).
  apply Z.eqb_eq in H. subst timeout. intros _.
  exists ([Called browser_newPage true; Called (page_setViewport sw sh) true] ++ pre), url.
  split; [reflexivity|]. split; [rewrite <- app_assoc; reflexivity|].
  change (seen_goto_failed
            (see ([Called browser_newPage true;
                   Called (page_setViewport sw sh) true] ++ pre))
          = false /\
          seen_write
            (see ([Called browser_newPage true;
                   Called (page_setViewport sw sh) true] ++
                  pre ++ [Called (page_goto url 30000) false])) = false).
  seeing. compute_seen. auto.
Qed.

(** C2, as the script has it.  Every navigation is given 30 seconds.  A
    navigation that rejects - a timeout - ends the run: nothing is
    captured, composed or written after it.  All that follows is the
    [catch] block: it reports the error, awaits [browser.close()] and,
    only when that went through, [srv.stop()] - a rejection of either is
    swallowed - and the process leaves with code 1 and no PDF. *)
Theorem navigation_timeout_aborts w code es :
  run w = (code, es) ->
  slow_goto es = false /\
  forall pre url timeout post,
    es = pre ++ Called (page_goto url timeout) false :: post ->
    timeout = 30000 /\ code = 1 /\ writes_output es = false /\
    (post = [ Console Error MRenderError;
              Called browser_close true; Called srv_stop true ] \/
     post = [ Console Error MRenderError; Called browser_close false ] \/
     post = [ Console Error MRenderError;
              Called browser_close true; Called srv_stop false ]).
Proof.
  intros H. apply run_paths in H.
  assert (Hfailed : forall pre url timeout post,
            es = pre ++ Called (page_goto url timeout) false :: post ->
            goto_failed es = true).
  { intros pre url timeout post ->. unfold goto_failed.
    rewrite existsb_app. cbn. apply orb_true_r. }
  change (slow_goto es) with (seen_slow_goto (see es)).
  destruct H as [Hargs | c es1 Hargs Hs | es1 Hargs Hs
        | sw sh slides es1 es2 Hargs Hs Hr
        | sw sh slides es1 es2 c Hargs Hs Hr
        | sw sh slides es1 es2 stopped sd Hargs Hs Hr Hsd].
  - split; [reflexivity|]. intros pre url timeout post E.
    apply Hfailed in E. discriminate.
  - apply see_setup in Hs. destruct Hs as (E & _).
    split; [rewrite E; reflexivity|]. intros pre url timeout post E'.
    apply Hfailed in E'.
    change (seen_goto_failed (see es1) = true) in E'. rewrite E in E'.
    discriminate.
  - apply see_setup in Hs. destruct Hs as (E & _).
    split; [rewrite see_app, E; reflexivity|]. intros pre url timeout post E'.
    apply Hfailed in E'.
    change (seen_goto_failed (see (es1 ++ [Console Error MFatal])) = true) in E'.
    rewrite see_app, E in E'. discriminate.
  - apply see_setup in Hs. destruct Hs as (E & _).
    apply see_render in Hr. destruct Hr as (_ & removed & E2).
    split; [rewrite see_app, E, E2; reflexivity|].
    intros pre url timeout post E'. apply Hfailed in E'.
    change (seen_goto_failed (see (es1 ++ es2)) = true) in E'.
    rewrite see_app, E, E2 in E'. discriminate.
  - apply see_setup in Hs. destruct Hs as (E & _).
    apply see_render in Hr. destruct Hr as (_ & _ & E2).
    split; [rewrite see_app, E, E2; reflexivity|].
    intros pre url timeout post E'. apply Hfailed in E'.
    change (seen_goto_failed (see (es1 ++ es2)) = true) in E'.
    rewrite see_app, E, E2 in E'. discriminate.
  - apply see_setup in Hs. destruct Hs as (E & _).
    pose proof (see_failed_trace Hsd) as E3.
    split.
    { apply see_render in Hr. destruct Hr as (_ & _ & Hslow & _).
      rewrite !see_app, E, E3. cbn [seen_both seen_slow_goto].
      rewrite Hslow. reflexivity. }
    intros pre url timeout post E'. pose proof (Hfailed _ _ _ _ E') as Hg.
    change (seen_goto_failed (see (es1 ++ es2 ++ failed_trace sd)) = true) in Hg.
    rewrite !see_app, E, E3 in Hg. cbn [seen_both seen_goto_failed] in Hg.
    rewrite orb_false_r in Hg. cbn [orb] in Hg.
    destruct (render_goto_failed Hr Hg) as (pre0 & url0 & _ & -> & Hpre0 & Hw).
    rewrite <- app_assoc, app_assoc in E'. cbn [app] in E'.
    assert (HA : existsb is_failed_goto (es1 ++ pre0) = false).
    { rewrite existsb_app.
      change (existsb is_failed_goto pre0) with (goto_failed pre0). rewrite Hpre0.
      change (existsb is_failed_goto es1) with (seen_goto_failed (see es1)).
      rewrite E. reflexivity. }
    assert (HB : existsb is_failed_goto (failed_trace sd) = false).
    { change (seen_goto_failed (see (failed_trace sd)) = false).
      rewrite E3. reflexivity. }
    destruct (@split_at_unique is_failed_goto (es1 ++ pre0)
                (Called (page_goto url0 30000) false) (failed_trace sd)
                HA HB eq_refl
                pre (Called (page_goto url timeout) false) post eq_refl E')
      as (-> & [= -> ->] & ->).
    split; [reflexivity|]. split; [reflexivity|].
    split; [|unfold failed_trace; destruct Hsd; auto].
    change (seen_write
              (see (es1 ++ (pre0 ++ [Called (page_goto url0 30000) false]) ++
                    failed_trace sd)) = false).
    rewrite (see_app es1),
      (see_app (pre0 ++ [Called (page_goto url0 30000) false]) (failed_trace sd)),
      E, E3.
    cbn [seen_both seen_write].
    change (seen_write (see (pre0 ++ [Called (page_goto url0 30000) false])))
      with (writes_output (pre0 ++ [Called (page_goto url0 30000) false])).
    rewrite Hw. reflexivity.
Qed.

(* ================================================================== *)
(** ** The local server and URL probing *)

Transparent tryPaths fetches resolve url_of.

Lemma response_status_range w r :
  response_status w r = 200 \/ response_status w r = 404 \/
  response_status w r = 500.
Proof.
  destruct r as [|fsPath]; cbn; [auto|].
  destruct (isDirectory _ _), (sends_directory w); auto.
Qed.

Lemma fetch_status_range w p status :
  fetch_status w p = Some status -> status = 200 \/ status = 404 \/ status = 500.
Proof.
  unfold fetch_status. destruct (fetch_fails w p); [discriminate|].
  intros [= <-]. destruct (request_path w p) as [fsPath|]; [|auto].
  apply response_status_range.
Qed.

(** Against this server, [r.status === 200] and "the server answered with
    success" are the same test. *)
Lemma answers_200_success w p : answers_200 w p = answers_success w p.
Proof.
  unfold answers_200, answers_success.
  destruct (fetch_status w p) as [status|] eqn:E; [|reflexivity].
  destruct (fetch_status_range E) as [-> | [-> | ->]]; reflexivity.
Qed.

Lemma find_ext (A : Type) (f g : A -> bool) l :
  (forall x, f x = g x) -> find f l = find g l.
Proof.
  intros H. induction l as [|x l IH]; cbn; [reflexivity|].
  rewrite H, IH. reflexivity.
Qed.

(** The candidates requested are the list up to the first that answers
    200; no candidate after it is requested. *)
Lemma probed_spec w paths :
  match find (answers_200 w) paths with
  | Some p =>
      exists before later,
        paths = before ++ p :: later /\
        probed w paths = before ++ [p] /\
        forallb (fun q => negb (answers_200 w q)) before = true /\
        answers_200 w p = true
  | None =>
      probed w paths = paths /\
      forallb (fun q => negb (answers_200 w q)) paths = true
  end.
Proof.
  induction paths as [|p rest IH]; cbn; [auto|].
  destruct (answers_200 w p) eqn:E.
  - exists [], rest. auto.
  - destruct (find (answers_200 w) rest) as [q|].
    + destruct IH as (before & later & -> & -> & Hb & Hq).
      exists (p :: before), later. cbn. rewrite E. auto.
    + destruct IH as [-> Hb]. cbn. auto.
Qed.

(** C7. For a slide folder [s] the probing loop requests the candidates
    [/slides/s/index.html], [/slides/s], [/s/index.html], [/s],
    [/slides/s.html] in this order, stops at the first request the server
    answers with success and takes its path; a request that rejects
    counts as no answer.  When no candidate answers, the slide is skipped:
    a warning is printed, nothing is captured for it, and the capture
    loop goes on with the next folder. *)
Theorem url_resolution w s :
  tryPaths s =
    [ ("/slides/" ++ s ++ "/index.html")%string;
      ("/slides/" ++ s)%string;
      ("/" ++ s ++ "/index.html")%string;
      ("/" ++ s)%string;
      ("/slides/" ++ s ++ ".html")%string ] /\
  (forall t,
     probe w (tryPaths s) t =
     (Ret (find (answers_success w) (tryPaths s)),
      map (fun p => Fetched p (fetch_status w p)) (probed w (tryPaths s)))) /\
  match find (answers_success w) (tryPaths s) with
  | Some p =>
      exists before later,
        tryPaths s = before ++ p :: later /\
        probed w (tryPaths s) = before ++ [p] /\
        forallb (fun q => negb (answers_success w q)) before = true /\
        answers_success w p = true
  | None =>
      probed w (tryPaths s) = tryPaths s /\
      forallb (fun q => negb (answers_success w q)) (tryPaths s) = true /\
      forall slideWidth slideHeight total i rest images t,
        render_slides w slideWidth slideHeight total i (s :: rest) images t =
        (let (o, es) :=
           render_slides w slideWidth slideHeight total (S i) rest images
             (t + List.length (probed w (tryPaths s)) + 1)%nat in
         (o, map (fun p => Fetched p (fetch_status w p)) (probed w (tryPaths s))
             ++ Console Warn (MSkippingSlide s) :: es))
  end.
Proof.
  split; [reflexivity|].
  assert (Hfind : find (answers_200 w) (tryPaths s) =
                  find (answers_success w) (tryPaths s))
    by (apply find_ext, answers_200_success).
  assert (Hall : forall l,
            forallb (fun q => negb (answers_200 w q)) l =
            forallb (fun q => negb (answers_success w q)) l).
  { intros l. induction l as [|q l IH]; cbn; [reflexivity|].
    rewrite answers_200_success, IH. reflexivity. }
  split.
  - intros t. rewrite probe_eq, Hfind. reflexivity.
  - pose proof (probed_spec w (tryPaths s)) as Hp. rewrite Hfind in Hp.
    destruct (find (answers_success w) (tryPaths s)) as [p|].
    + destruct Hp as (before & later & E1 & E2 & Hb & Hq).
      exists before, later. rewrite <- Hall, <- answers_200_success. auto.
    + destruct Hp as [E Hb]. rewrite <- Hall. split; [assumption|].
      split; [assumption|].
      intros sw sh total i rest images t.
      cbn [render_slides]. unfold bind at 1. rewrite probe_eq.
      unfold resolve, fetches. rewrite Hfind.
      unfold bind, console. rewrite length_map.
      destruct (render_slides w sw sh total (S i) rest images _) as [o es'].
      reflexivity.
Qed.

Opaque tryPaths fetches resolve url_of.

(* ================================================================== *)
(** ** From the folders to the pages *)

Transparent tryPaths fetches resolve url_of.

(** The handler sends an existing regular file, and Bun answers 200. *)
Lemma fetch_file w p fsPath content :
  fetch_fails w p = false -> request_path w p = Some fsPath ->
  lookup (staged w) fsPath = Some (File content) ->
  answers_200 w p = true.
Proof.
  intros Hfetch Hpath Hfile.
  unfold answers_200, fetch_status. rewrite Hfetch, Hpath.
  unfold createServer_fetch, existsSync, isDirectory.
  rewrite Hfile. cbn. unfold isDirectory. rewrite Hfile. cbn.
  unfold isDirectory. rewrite Hfile. reflexivity.
Qed.

(** A folder that serves its index page resolves at the first candidate. *)
Lemma resolve_index w s : serves_index w s -> resolve w s = Some (index_page s).
Proof.
  intros ((content & Hfile) & Hfetch & Hpath).
  unfold resolve, tryPaths. cbn [find].
  fold (index_page s).
  rewrite (fetch_file Hfetch Hpath Hfile). reflexivity.
Qed.

Opaque tryPaths fetches resolve url_of.

Lemma captures_index w slideDirs :
  (forall s, In s slideDirs -> resolve w s = Some (index_page s)) ->
  forall i, captures w i slideDirs = index_captures i slideDirs.
Proof.
  induction slideDirs as [|s rest IH]; intros H i; [reflexivity|].
  cbn [captures index_captures]. rewrite (H s) by (left; reflexivity).
  rewrite IH by (intros; apply H; right; assumption). reflexivity.
Qed.

Lemma index_captures_length i slideDirs :
  List.length (index_captures i slideDirs) = List.length slideDirs.
Proof.
  revert i. induction slideDirs as [|s rest IH]; intros i; cbn; [reflexivity|].
  rewrite IH. reflexivity.
Qed.

Lemma index_captures_nth slideDirs :
  forall i j s, nth_error slideDirs j = Some s ->
    nth_error (index_captures i slideDirs) j =
    Some {| cap_slide := s; cap_index := (i + j)%nat;
            cap_urlPath := index_page s |}.
Proof.
  induction slideDirs as [|x rest IH]; intros i [|j] s H; cbn in H;
    try discriminate.
  - injection H as ->. cbn. rewrite Nat.add_0_r. reflexivity.
  - cbn. rewrite (IH (S i) j s H).
    replace (S i + j)%nat with (i + S j)%nat by lia. reflexivity.
Qed.

Lemma segment_app_l (A : Type) (seg a b : list A) :
  (exists x y, a = x ++ seg ++ y) -> exists x y, a ++ b = x ++ seg ++ y.
Proof.
  intros (x & y & ->). exists x, (y ++ b). rewrite <- !app_assoc. reflexivity.
Qed.

Lemma segment_app_r (A : Type) (seg a b : list A) :
  (exists x y, b = x ++ seg ++ y) -> exists x y, a ++ b = x ++ seg ++ y.
Proof.
  intros (x & y & ->). exists (a ++ x), y. rewrite <- !app_assoc. reflexivity.
Qed.

(** For every capture, the trace of the capture loop holds the
    navigation to its URL, the wait and its screenshot, one right after
    the other. *)
Lemma render_trace_captures w sw sh total slideDirs :
  forall i c, In c (captures w i slideDirs) ->
    exists before after,
      render_trace w sw sh total i slideDirs =
      before ++
      [ Called (page_goto (url_of w (cap_urlPath c)) 30000) true;
        Called (sleep (SLIDE_WAIT_MS w)) true;
        Called (screenshot_of w sw sh c) true ] ++ after.
Proof.
  induction slideDirs as [|s rest IH]; intros i c H; [destruct H|].
  cbn [captures] in H. cbn [render_trace].
  apply segment_app_r.
  destruct (resolve w s) as [p|].
  - destruct H as [<- | H].
    + apply segment_app_l.
      exists [Console Log (MRenderingSlide (i + 1) total s)], [].
      reflexivity.
    + apply segment_app_r, IH, H.
  - apply segment_app_r, IH, H.
Qed.

(** A run that exits with code 0 went all the way: the setup returned and
    the [try] block wrote the document and cleaned up. *)
Lemma run_success w es :
  run w = (0, es) ->
  exists tm ok slideDirs search chromePath removed,
    let slideWidth := fst (slideSize (manifest_at w tm)) in
    let slideHeight := snd (slideSize (manifest_at w tm)) in
    Found w slideDirs search /\
    images_of w slideWidth slideHeight slideDirs <> [] /\
    output es = Some (document w slideWidth slideHeight slideDirs) /\
    es =
      (served_trace w tm ok slideDirs search ++
       [ Console Log (MUsingBrowser chromePath);
         Called (puppeteer_launch chromePath) true ]) ++
      written_trace w slideWidth slideHeight slideDirs ++
      [Called browser_close true; Called srv_stop true] ++
      removal_trace w removed ++ [Console Log MDone].
Proof.
  intros H. apply run_paths in H.
  inversion H as [Hargs | c es1 Hargs Hs | es1 Hargs Hs
          | sw sh slides es1 es2 Hargs Hs Hr
          | sw sh slides es1 es2 c Hargs Hs Hr
          | sw sh slides es1 es2 stopped sd Hargs Hs Hr Hsd]; subst.
  - apply see_setup in Hs. destruct Hs as (_ & _ & Hc & _).
    destruct (Hc 0 eq_refl) as [Hc0 _]. discriminate Hc0.
  - assert (Hout : output (es1 ++ es2) = Some (document w sw sh slides)).
    { change (output (es1 ++ es2)) with (seen_output (see (es1 ++ es2))).
      rewrite see_app.
      destruct (see_setup Hs) as (E1 & _).
      destruct (see_render Hr) as (_ & removed & E2).
      rewrite E1, E2. reflexivity. }
    inversion Hs; subst;
      try match goal with
          | H : (if ?b then _ else _) = _ |- _ => destruct b; discriminate H
          end.
    inversion Hr; subst;
      try match goal with
          | H : (if ?b then _ else _) = _ |- _ => destruct b; discriminate H
          end.
    do 6 eexists. cbn zeta.
    split; [eassumption|]. split; [eassumption|].
    split; [exact Hout|reflexivity].
  - apply see_render in Hr. destruct Hr as (_ & Hc & _). discriminate Hc.
Qed.

(** A run that reaches the last line of the script went all the way: the
    setup returned and the [try] block wrote the document and cleaned
    up. *)
Lemma run_done w code es :
  run w = (code, es) ->
  logs_done es = true ->
  code = (if handler_failed es then 1 else 0) /\
  exists tm ok slideDirs search chromePath removed,
    let slideWidth := fst (slideSize (manifest_at w tm)) in
    let slideHeight := snd (slideSize (manifest_at w tm)) in
    Found w slideDirs search /\
    images_of w slideWidth slideHeight slideDirs <> [] /\
    output es = Some (document w slideWidth slideHeight slideDirs) /\
    es =
      (served_trace w tm ok slideDirs search ++
       [ Console Log (MUsingBrowser chromePath);
         Called (puppeteer_launch chromePath) true ]) ++
      written_trace w slideWidth slideHeight slideDirs ++
      [Called browser_close true; Called srv_stop true] ++
      removal_trace w removed ++ [Console Log MDone].
Proof.
  intros H. apply run_paths in H.
  change (logs_done es) with (seen_done (see es)).
  destruct H as [Hargs | c es1 Hargs Hs | es1 Hargs Hs
          | sw sh slides es1 es2 Hargs Hs Hr
          | sw sh slides es1 es2 c Hargs Hs Hr
          | sw sh slides es1 es2 stopped sd Hargs Hs Hr Hsd].
  - discriminate.
  - destruct (see_setup Hs) as (E & _). rewrite E. discriminate.
  - destruct (see_setup Hs) as (E & _). rewrite see_app, E. discriminate.
  - intros _. split; [reflexivity|].
    assert (Hout : output (es1 ++ es2) = Some (document w sw sh slides)).
    { change (output (es1 ++ es2)) with (seen_output (see (es1 ++ es2))).
      rewrite see_app.
      destruct (see_setup Hs) as (E1 & _).
      destruct (see_render Hr) as (_ & removed & E2).
      rewrite E1, E2. reflexivity. }
    destruct (setup_ready_inv Hs)
      as (tm & ok & search & chrome & HF & Hchrome & -> & -> & ->).
    inversion Hr; subst;
      try match goal with
          | H : (if ?b then _ else _) = _ |- _ => destruct b; discriminate H
          end.
    do 6 eexists. cbn zeta.
    split; [eassumption|]. split; [eassumption|].
    split; [exact Hout|reflexivity].
  - destruct (see_setup Hs) as (E & _).
    destruct (see_render Hr) as (_ & _ & E2).
    rewrite see_app, E, E2. discriminate.
  - destruct (see_setup Hs) as (E & _).
    destruct (see_render Hr) as (_ & Hd & _).
    rewrite !see_app, E, (see_failed_trace Hsd). project.
    rewrite Hd. discriminate.
Qed.

(** The search that returns without a failed listing found what the
    listing holds. *)
Lemma Found_enumerated w l slideDirs search :
  Found w slideDirs search -> listing w = Some l ->
  listing_failed search = false ->
  slideDirs = enumerated w l /\ slideDirs <> [].
Proof.
  intros HF Hl Hfail. unfold enumerated.
  destruct HF as [l' Hl' Hne | l' b Hl' Hne Hb];
    rewrite Hl in Hl'; injection Hl' as <-.
  - split; [|assumption].
    destruct (numeric_folders l); [congruence|reflexivity].
  - split; [|assumption].
    destruct b; [|discriminate Hfail].
    rewrite Hb by reflexivity. reflexivity.
Qed.

Lemma listing_failed_app es es' :
  listing_failed (es ++ es') = listing_failed es || listing_failed es'.
Proof. apply existsb_app. Qed.

Lemma enumerated_numeric w l :
  numeric_names l <> [] -> enumerated w l = sort_numeric (numeric_names l).
Proof.
  intros Hne. unfold enumerated.
  change (numeric_folders l) with (sort_numeric (numeric_names l)).
  destruct (sort_numeric (numeric_names l)) eqn:E; [|reflexivity].
  apply Array_sort_nil in E. contradiction.
Qed.

Lemma enumerated_fallback w l :
  numeric_names l = [] -> enumerated w l = sort_default (indexed_names w l).
Proof.
  intros E. unfold enumerated.
  change (numeric_folders l) with (sort_numeric (numeric_names l)).
  rewrite E. reflexivity.
Qed.

(** ** The order of the pages *)

Lemma Ascii_compare_N a b :
  Ascii.compare a b = N.compare (N_of_ascii a) (N_of_ascii b).
Proof. reflexivity. Qed.

Lemma String_compare_trans_le :
  forall a b c,
    String.compare a b <> Gt -> String.compare b c <> Gt ->
    String.compare a c <> Gt.
Proof.
  induction a as [|x a IH]; intros [|y b] [|z c]; cbn; try congruence.
  rewrite !Ascii_compare_N.
  destruct (N.compare_spec (N_of_ascii x) (N_of_ascii y)) as [Exy|Lxy|Gxy];
    destruct (N.compare_spec (N_of_ascii y) (N_of_ascii z)) as [Eyz|Lyz|Gyz];
    try congruence; intros H1 H2.
  - rewrite Exy, Eyz, N.compare_refl. eapply IH; eassumption.
  - rewrite Exy. apply N.compare_lt_iff in Lyz. rewrite Lyz. discriminate.
  - rewrite <- Eyz. apply N.compare_lt_iff in Lxy. rewrite Lxy. discriminate.
  - assert (L : (N_of_ascii x < N_of_ascii z)%N) by lia.
    apply N.compare_lt_iff in L. rewrite L. discriminate.
Qed.

Lemma lexicographic_trans : Relations_1.Transitive lexicographic.
Proof.
  intros a b c. unfold lexicographic, String.leb. intros H1 H2.
  pose proof (@String_compare_trans_le a b c) as H.
  destruct (String.compare a b); try discriminate;
    destruct (String.compare b c); try discriminate;
    destruct (String.compare a c); try reflexivity;
    exfalso; apply H; congruence.
Qed.

(** Below [2^53] the order of [Number] is the order of the numerals'
    values. *)
Lemma by_Number_value a b :
  test_digits a = true -> test_digits b = true ->
  decimal_value a < 2 ^ 53 -> decimal_value b < 2 ^ 53 ->
  by_Number a b -> by_value a b.
Proof.
  intros Ha Hb La Lb. unfold by_Number, by_value, Number. rewrite Ha, Hb.
  assert (Hn : forall s, test_digits s = true -> 0 <= decimal_value s).
  { intros s Hs. unfold test_digits in Hs. apply andb_prop in Hs.
    apply decimal_value_from_nonneg; [lia|apply Hs]. }
  pose proof (Hn a Ha) as Na. pose proof (Hn b Hb) as Nb.
  destruct (Z.eq_dec (decimal_value a) 0) as [Ea|Ea]; [lia|].
  destruct (Z.eq_dec (decimal_value b) 0) as [Eb|Eb].
  - rewrite Eb, (@of_Z_exact (decimal_value a)) by lia.
    change (of_Z 0) with (Zero false). cbn. intros H.
    apply Z.ltb_lt in H. lia.
  - rewrite !of_Z_exact by lia. cbn [fle]. intros H.
    apply Qle_bool_iff in H. rewrite Zle_Qle. exact H.
Qed.

Lemma StronglySorted_weaken (A : Type) (P : A -> Prop) (R R' : A -> A -> Prop) l :
  (forall x y, P x -> P y -> R x y -> R' x y) ->
  Forall P l -> StronglySorted R l -> StronglySorted R' l.
Proof.
  intros HR HP HS. induction HS as [|x l HS IH Hx]; constructor.
  - apply IH. inversion HP; assumption.
  - inversion HP as [|? ? Px Pl]; subst.
    rewrite Forall_forall in *. intros y Hy. apply HR; auto.
Qed.

Lemma listing_failed_split es es' :
  listing_failed (es ++ es') = false ->
  listing_failed es = false /\ listing_failed es' = false.
Proof. rewrite listing_failed_app. apply orb_false_iff. Qed.

Lemma numeric_names_digits l :
  Forall (fun s => test_digits s = true) (numeric_names l).
Proof.
  apply Forall_forall. intros s H. apply filter_In in H. apply H.
Qed.

(** C1. In a run that exits with code 0 after listing the slides directory,
    when every folder taken has a regular file index.html that the request
    for /slides/NAME/index.html reaches, the document written has one
    page per folder taken, page j composed from the screenshot of folder
    j's index page.  With K > 0 all-digits folders these are the K
    numeric folders, in the order of the stable sort by Number(name):
    ascending by Number, which below 2^53 is ascending by the value of the
    numeral.  With no all-digits folder and M folders in which index.html
    exists, they are these M folders in ascending order of code units. *)
Theorem pages_follow_slide_folders w es l :
  run w = (0, es) ->
  listing w = Some l ->
  listing_failed es = false ->
  (forall s, In s (enumerated w l) -> serves_index w s) ->
  exists doc,
    output es = Some doc /\
    page_per_folder w es (enumerated w l) doc /\
    (numeric_names l <> [] ->
       List.length doc = List.length (numeric_names l) /\
       enumerated w l = sort_numeric (numeric_names l) /\
       Permutation (enumerated w l) (numeric_names l) /\
       StronglySorted by_Number (enumerated w l) /\
       (Forall (fun s => decimal_value s < 2 ^ 53) (numeric_names l) ->
        StronglySorted by_value (enumerated w l))) /\
    (numeric_names l = [] ->
       List.length doc = List.length (indexed_names w l) /\
       enumerated w l = sort_default (indexed_names w l) /\
       Permutation (enumerated w l) (indexed_names w l) /\
       StronglySorted lexicographic (enumerated w l)).
Proof.
  intros Hrun Hl Hfail Hserved.
  destruct (run_success Hrun)
    as (tm & ok & slides & search & chrome & removed & HF & Hne & Hout & Hes).
  cbn zeta in *.
  set (sw := fst (slideSize (manifest_at w tm))) in *.
  set (sh := snd (slideSize (manifest_at w tm))) in *.
  assert (Hsearch : listing_failed search = false).
  { rewrite Hes in Hfail. unfold served_trace in Hfail.
    apply listing_failed_split in Hfail. destruct Hfail as [Hfail _].
    apply listing_failed_split in Hfail. destruct Hfail as [Hfail _].
    apply listing_failed_split in Hfail. destruct Hfail as [_ Hfail].
    apply listing_failed_split in Hfail. apply Hfail. }
  destruct (Found_enumerated HF Hl Hsearch) as [Hslides _].
  rewrite Hslides in *. clear Hslides slides.
  set (order := enumerated w l) in *.
  assert (Hcaps : captures w 0 order = index_captures 0 order).
  { apply captures_index. intros s Hs. apply resolve_index, Hserved, Hs. }
  assert (Hlen : List.length (document w sw sh order) = List.length order).
  { unfold document, images_of.
    rewrite !length_map, Hcaps, index_captures_length. reflexivity. }
  exists (document w sw sh order).
  split; [exact Hout|]. split; [|split].
  - split; [exact Hlen|]. exists sw, sh. intros j s Hj.
    pose proof (@index_captures_nth order 0%nat j s Hj) as Hc.
    cbn [Nat.add] in Hc. split.
    + unfold document, images_of. rewrite Hcaps.
      rewrite !nth_error_map, Hc. reflexivity.
    + rewrite Hes. apply segment_app_r, segment_app_l.
      unfold written_trace, composed_trace, captured_trace.
      apply segment_app_l, segment_app_l, segment_app_r.
      apply (@render_trace_captures w sw sh (List.length order) order 0%nat
               {| cap_slide := s; cap_index := j; cap_urlPath := index_page s |}).
      rewrite Hcaps. eapply nth_error_In, Hc.
  - intros Hnum. rewrite Hlen. unfold order.
    rewrite (enumerated_numeric w Hnum).
    pose proof (numeric_names_digits l) as Hd.
    assert (HS : StronglySorted by_Number (sort_numeric (numeric_names l))).
    { apply Sorted_StronglySorted; [exact by_Number_trans|].
      apply sort_numeric_sorted, Hd. }
    split; [apply Array_sort_length|]. split; [reflexivity|].
    split; [apply Array_sort_perm|]. split; [exact HS|].
    intros Hsmall.
    apply (@StronglySorted_weaken _
             (fun s => test_digits s = true /\ decimal_value s < 2 ^ 53)
             by_Number by_value).
    + intros x y [Hx Lx] [Hy Ly]. apply by_Number_value; assumption.
    + eapply Permutation_Forall; [symmetry; apply Array_sort_perm|].
      rewrite Forall_forall in *. auto.
    + exact HS.
  - intros Hnum. rewrite Hlen. unfold order.
    rewrite (enumerated_fallback w Hnum).
    split; [apply Array_sort_length|]. split; [reflexivity|].
    split; [apply Array_sort_perm|].
    apply Sorted_StronglySorted; [exact lexicographic_trans|].
    apply sort_default_sorted.
Qed.

(* ================================================================== *)
(** ** Which folders are taken *)

Lemma numeric_folders_In l s :
  In s (numeric_folders l) <-> In s (folder_names l) /\ test_digits s = true.
Proof.
  unfold numeric_folders, sort_numeric. fold (folder_names l).
  rewrite <- filter_In. split; apply Permutation_in.
  - apply Array_sort_perm.
  - symmetry. apply Array_sort_perm.
Qed.

Lemma fallback_folders_In w l s :
  In s (fallback_folders w l) <->
  In s (folder_names l) /\
  existsSync (staged w) ["slides"; s; "index.html"] = true.
Proof.
  unfold fallback_folders, sort_default. fold (folder_names l).
  rewrite <- (filter_In
    (fun n => existsSync (staged w) ["slides"; n; "index.html"])).
  split; apply Permutation_in.
  - apply Array_sort_perm.
  - symmetry. apply Array_sort_perm.
Qed.

(** What the handler answers for a path that does not exist, and for a
    directory without index page. *)
Lemma fetch_missing w p fsPath :
  request_path w p = Some fsPath ->
  existsSync (staged w) fsPath = false ->
  answers_200 w p = false.
Proof.
  intros Hpath Hno. unfold answers_200, fetch_status.
  destruct (fetch_fails w p); [reflexivity|].
  rewrite Hpath. unfold createServer_fetch. rewrite Hno. cbn.
  rewrite Hno. reflexivity.
Qed.

Lemma fetch_bare_directory w p fsPath :
  request_path w p = Some fsPath ->
  sends_directory w = false ->
  isDirectory (staged w) fsPath = true ->
  existsSync (staged w) (fsPath ++ ["index.html"]) = false ->
  answers_200 w p = false.
Proof.
  intros Hpath Hsends Hdir Hno. unfold answers_200, fetch_status.
  destruct (fetch_fails w p); [reflexivity|].
  rewrite Hpath. unfold createServer_fetch. rewrite Hdir, Hno.
  assert (He : existsSync (staged w) fsPath = true).
  { unfold isDirectory in Hdir. unfold existsSync.
    destruct (lookup (staged w) fsPath); [reflexivity|discriminate]. }
  rewrite He. cbn [andb negb]. rewrite He. cbn [negb response_status].
  rewrite Hdir, Hsends. reflexivity.
Qed.

Transparent tryPaths fetches resolve url_of.

Lemma resolve_bare w s : bare_folder w s -> resolve w s = None.
Proof.
  intros (Hsends & Hdir & H1 & H3 & H4 & H5 & R1 & R2 & R3 & R4 & R5).
  unfold resolve, tryPaths. cbn [find].
  rewrite (fetch_missing R1 H1).
  rewrite (fetch_bare_directory R2 Hsends Hdir H1).
  rewrite (fetch_missing R3 H3), (fetch_missing R4 H4), (fetch_missing R5 H5).
  reflexivity.
Qed.

Lemma resolve_None w s :
  resolve w s = None <-> forall p, In p (tryPaths s) -> answers_200 w p = false.
Proof.
  unfold resolve. split.
  - intros H p Hp. exact (find_none _ _ H p Hp).
  - intros H. destruct (find (answers_200 w) (tryPaths s)) as [p|] eqn:E;
      [|reflexivity].
    apply find_some in E. destruct E as [Hp E]. rewrite (H p Hp) in E.
    discriminate.
Qed.

Opaque tryPaths fetches resolve url_of.


(** One turn of the capture loop on a folder none of whose candidates
    answers 200: the warning, and on to the next folder. *)
Lemma render_slides_skips w sw sh total i s rest images t :
  resolve w s = None ->
  render_slides w sw sh total i (s :: rest) images t =
  let next :=
    render_slides w sw sh total (S i) rest images
      (t + List.length (fetches w (tryPaths s)) + 1)%nat in
  (fst next,
   fetches w (tryPaths s) ++ Console Warn (MSkippingSlide s) :: snd next).
Proof.
  intros Hnone. cbn [render_slides]. unfold bind at 1.
  rewrite probe_tryPaths, Hnone. unfold bind, console. cbn [List.length].
  cbn zeta.
  destruct (render_slides w sw sh total (S i) rest images _) as [o es].
  reflexivity.
Qed.

(** One turn of the capture loop on a folder that resolved, when nothing
    rejects: the navigation, the wait, the screenshot, and on to the next
    folder with one more image. *)
Lemma render_slides_renders w sw sh total i s rest images t p :
  resolve w s = Some p ->
  (forall t', throws w t' (page_goto (url_of w p) 30000) = false) ->
  (forall t', throws w t' (sleep (SLIDE_WAIT_MS w)) = false) ->
  (forall t', throws w t' (page_screenshot (imgPath w i) (JPEG_QUALITY w)
                             sw sh) = false) ->
  render_slides w sw sh total i (s :: rest) images t =
  let next :=
    render_slides w sw sh total (S i) rest
      (images ++ [{| img_path := imgPath w i;
                     img_width := sw; img_height := sh |}])
      (t + List.length (fetches w (tryPaths s)) + 4)%nat in
  (fst next,
   fetches w (tryPaths s) ++
   [ Console Log (MRenderingSlide (i + 1) total s);
     Called (page_goto (url_of w p) 30000) true;
     Called (sleep (SLIDE_WAIT_MS w)) true;
     Called (page_screenshot (imgPath w i) (JPEG_QUALITY w) sw sh) true ] ++
   snd next).
Proof.
  intros Hsome Hgoto Hsleep Hshot. cbn [render_slides]. unfold bind at 1.
  rewrite probe_tryPaths, Hsome. unfold bind, console, call.
  fold (imgPath w i).
  rewrite Hgoto, Hsleep, Hshot. cbn [List.length]. cbn zeta.
  replace (t + List.length (fetches w (tryPaths s)) + 4)%nat
    with (t + List.length (fetches w (tryPaths s)) + 1 + 1 + 1 + 1)%nat by lia.
  destruct (render_slides w sw sh total (S i) rest _ _) as [o es].
  reflexivity.
Qed.

(** C10. The primary strategy takes every directory of the slides
    directory whose name is all digits, whatever the directory holds;
    only the fallback strategy looks for index.html.  A numeric folder
    without index.html stays among the slides.  The probing loop requests
    the candidates up to the first that answers 200; the capture loop
    skips the folder, with a warning, exactly when none of the five
    candidates answers 200, as for a bare folder, and renders it
    otherwise: it goes to the candidate that answered, waits and takes the
    screenshot. *)
Theorem primary_enumeration_ignores_index w l s :
  (In s (numeric_folders l) <->
   In s (folder_names l) /\ test_digits s = true) /\
  (In s (fallback_folders w l) <->
   In s (folder_names l) /\
   existsSync (staged w) ["slides"; s; "index.html"] = true) /\
  (forall t,
     listing w = Some l ->
     throws w t (fsp_readdir_staged ["slides"]) = false ->
     listNumericSlideFolders w t =
     (Ret (numeric_folders l), [readdir_slides true])) /\
  (resolve w s = None <->
   forall p, In p (tryPaths s) -> answers_200 w p = false) /\
  (bare_folder w s -> resolve w s = None) /\
  (forall t,
     probe w (tryPaths s) t = (Ret (resolve w s), fetches w (tryPaths s))) /\
  (forall slideWidth slideHeight total i rest images t,
     resolve w s = None ->
     render_slides w slideWidth slideHeight total i (s :: rest) images t =
     let next :=
       render_slides w slideWidth slideHeight total (S i) rest images
         (t + List.length (fetches w (tryPaths s)) + 1)%nat in
     (fst next,
      fetches w (tryPaths s) ++ Console Warn (MSkippingSlide s) :: snd next)) /\
  (forall slideWidth slideHeight total i rest images t p,
     resolve w s = Some p ->
     (forall t', throws w t' (page_goto (url_of w p) 30000) = false) ->
     (forall t', throws w t' (sleep (SLIDE_WAIT_MS w)) = false) ->
     (forall t', throws w t' (page_screenshot (imgPath w i) (JPEG_QUALITY w)
                                slideWidth slideHeight) = false) ->
     render_slides w slideWidth slideHeight total i (s :: rest) images t =
     let next :=
       render_slides w slideWidth slideHeight total (S i) rest
         (images ++ [{| img_path := imgPath w i;
                        img_width := slideWidth;
                        img_height := slideHeight |}])
         (t + List.length (fetches w (tryPaths s)) + 4)%nat in
     (fst next,
      fetches w (tryPaths s) ++
      [ Console Log (MRenderingSlide (i + 1) total s);
        Called (page_goto (url_of w p) 30000) true;
        Called (sleep (SLIDE_WAIT_MS w)) true;
        Called (page_screenshot (imgPath w i) (JPEG_QUALITY w)
                  slideWidth slideHeight) true ] ++
      snd next)).
Proof.
  split; [apply numeric_folders_In|].
  split; [apply fallback_folders_In|].
  split; [|split; [apply resolve_None|split; [apply resolve_bare|]]].
  - intros t Hl Hok. unfold listing in Hl.
    unfold listNumericSlideFolders, try_catch, bind, readdir_staged.
    destruct (lookup (staged w) ["slides"]) as [[content|entries]|];
      try discriminate.
    injection Hl as <-. rewrite Hok. reflexivity.
  - split; [intros t; apply probe_tryPaths|]. split.
    + intros. apply render_slides_skips. assumption.
    + intros. apply render_slides_renders; assumption.
Qed.

(* ================================================================== *)
(** ** The canvas size *)

Lemma truthy_js_and a b : truthy (js_and a b) = truthy a && truthy b.
Proof. unfold js_and. destruct (truthy a) eqn:E; [reflexivity|exact E]. Qed.

(** C5. Reading the manifest never fails: a file that is missing,
    unreadable or not JSON reads as null.  The canvas size is the
    manifest's slideSize.width and slideSize.height exactly when both are
    truthy (neither undefined, null, false, 0, NaN nor the empty string),
    whatever their type, as positive integers are; otherwise it is 1280
    by 720, and no field is adopted alone. *)
Theorem canvas_size_resolution w t manifest :
  (exists ok,
     readManifestIfExists w t =
     (Ret (manifest_at w t), [Called (fsp_readFile_staged ["manifest.json"]) ok])) /\
  (manifest_at w t = VNull \/
   exists raw,
     lookup (staged w) ["manifest.json"] = Some (File raw) /\
     JSON_parse w raw = Some (manifest_at w t)) /\
  slideSize VNull = (VNum (of_Z 1280), VNum (of_Z 720)) /\
  (let width := opt_get (opt_get manifest "slideSize") "width" in
   let height := opt_get (opt_get manifest "slideSize") "height" in
   slideSize manifest =
     (if truthy width && truthy height then (width, height)
      else (VNum (of_Z 1280), VNum (of_Z 720))) /\
   (forall a b,
      0 < a < 2 ^ 53 -> 0 < b < 2 ^ 53 ->
      width = VNum (of_Z a) -> height = VNum (of_Z b) ->
      slideSize manifest = (VNum (of_Z a), VNum (of_Z b)))).
Proof.
  split; [apply readManifestIfExists_eq|].
  split.
  { unfold manifest_at.
    destruct (lookup (staged w) ["manifest.json"]) as [[raw|entries]|]; auto.
    destruct (throws w t _); auto.
    destruct (JSON_parse w raw) as [v|] eqn:E; auto.
    right. exists raw. auto. }
  split; [reflexivity|].
  cbn zeta. split.
  - unfold slideSize. rewrite truthy_js_and. reflexivity.
  - intros a b Ha Hb Hw Hh. unfold slideSize.
    rewrite truthy_js_and, Hw, Hh.
    rewrite !of_Z_exact by lia. reflexivity.
Qed.

(* ================================================================== *)
(** ** The size of the pages *)

(** What a run that writes leaves as its output: the document, when the
    write went through. *)
Lemma output_written w tm ok slideDirs search chromePath sw sh wrote rest :
  Found w slideDirs search ->
  findSystemChrome w = Some chromePath ->
  forallb after_write_event rest = true ->
  output
    ((served_trace w tm ok slideDirs search ++
      [ Console Log (MUsingBrowser chromePath);
        Called (puppeteer_launch chromePath) true ]) ++
     composed_trace w sw sh slideDirs ++ outDir_trace w ++
     [ Called pdfDoc_save true;
       Called (fsp_writeFile (outPdfPath w) (document w sw sh slideDirs)) wrote ]
     ++ rest)
  = if wrote then Some (document w sw sh slideDirs) else None.
Proof.
  intros HF Hchrome Hrest.
  destruct (after_write_quiet Hrest) as (Hquiet & _).
  pose proof (setup_ready tm ok HF Hchrome) as Hs.
  apply see_setup in Hs. destruct Hs as (E & _).
  match goal with
  | |- output (?a ++ ?b ++ ?c ++ ?d ++ rest) = _ =>
      rewrite (output_app a), (output_app b), (output_app c), (output_app d),
        (output_none Hquiet);
      change (output a) with (seen_output (see a));
      change (output b) with (seen_output (see b));
      change (output c) with (seen_output (see c))
  end.
  rewrite E, see_composed_trace, see_outDir_trace.
  destruct wrote; reflexivity.
Qed.

(** C6. Whenever a PDF is written, the run read the manifest and took the
    canvas size from it, opened the viewport at that size and rendered at
    least one slide; the document has one page per rendered slide - per
    screenshot that went through - in the order they were taken, every
    clip being the canvas.  The page of a slide of w by h pixels measures
    (w * 72) / 96 by (h * 72) / 96 points in double arithmetic and draws
    the slide's file at the origin at the page's width and height.  For a
    whole number of pixels below 2^46 the quotient is the rational
    px * 72 / 96, without rounding: a manifest of 1920 by 1080 gives pages
    of 1440 by 810 points; a manifest that reads as null, as when there is
    none, gives the default 1280 by 720 and pages of 960 by 540. *)
Theorem page_geometry w code es doc :
  run w = (code, es) ->
  output es = Some doc ->
  exists tm ok rest,
    let manifest := manifest_at w tm in
    let slideWidth := fst (slideSize manifest) in
    let slideHeight := snd (slideSize manifest) in
    es = sized_trace w tm ok ++ rest /\
    In (Called (page_setViewport slideWidth slideHeight) true) es /\
    shots es <> [] /\
    Forall (fun img => img_width img = slideWidth /\
                       img_height img = slideHeight) (shots es) /\
    doc = map (page_of w) (shots es) /\
    Forall2
      (fun img pg =>
         page_width pg = pxToPdfPoints w (img_width img) (of_Z 96) /\
         page_height pg = pxToPdfPoints w (img_height img) (of_Z 96) /\
         full_bleed pg (img_path img))
      (shots es) doc /\
    (forall px, 0 < px < 2 ^ 46 ->
       pxToPdfPoints w (VNum (of_Z px)) (of_Z 96) = Fin (Qred (px * 72 # 96))) /\
    (opt_get (opt_get manifest "slideSize") "width" = VNum (of_Z 1920) ->
     opt_get (opt_get manifest "slideSize") "height" = VNum (of_Z 1080) ->
     Forall (fun pg => page_width pg = of_Z 1440 /\ page_height pg = of_Z 810)
       doc) /\
    (manifest = VNull ->
     Forall (fun pg => page_width pg = of_Z 960 /\ page_height pg = of_Z 540)
       doc) /\
    (lookup (staged w) ["manifest.json"] = None ->
     Forall (fun pg => page_width pg = of_Z 960 /\ page_height pg = of_Z 540)
       doc).
Proof.
  intros Hrun Hdoc.
  assert (Hw : writes_output es = true).
  { destruct (writes_output es) eqn:Hw; [reflexivity|].
    rewrite (output_none Hw) in Hdoc. discriminate Hdoc. }
  destruct (run_written Hrun Hw)
    as (tm & ok & slides & search & chrome & wrote & rest
        & HF & Hchrome & Hne & Hes & Hrest).
  cbn zeta in *.
  exists tm, ok. eexists.
  set (sw := fst (slideSize (manifest_at w tm))) in *.
  set (sh := snd (slideSize (manifest_at w tm))) in *.
  pose proof (shots_written tm ok chrome sw sh wrote HF Hrest) as Hshots.
  pose proof (output_written tm ok sw sh wrote HF Hchrome Hrest) as Hout.
  rewrite <- Hes in Hshots, Hout. rewrite Hdoc in Hout.
  destruct wrote; [|discriminate Hout]. injection Hout as ->.
  rewrite Hshots.
  assert (Hsized : forall a b,
            sw = VNum (of_Z a) -> sh = VNum (of_Z b) ->
            0 < a < 2 ^ 46 -> 0 < b < 2 ^ 46 ->
            Forall (fun pg => page_width pg = Fin (Qred (a * 72 # 96)) /\
                              page_height pg = Fin (Qred (b * 72 # 96)))
              (document w sw sh slides)).
  { intros a b Ha Hb La Lb. apply Forall_forall. intros pg Hpg.
    unfold document, images_of in Hpg.
    apply in_map_iff in Hpg. destruct Hpg as (img & <- & Himg).
    apply in_map_iff in Himg. destruct Himg as (c & <- & Hc).
    unfold page_of, image_of.
    cbn [page_width page_height img_width img_height].
    rewrite Ha, Hb, !pxToPdfPoints_exact by lia. auto. }
  assert (Hdefault : manifest_at w tm = VNull ->
            Forall (fun pg => page_width pg = of_Z 960 /\
                              page_height pg = of_Z 540)
              (document w sw sh slides)).
  { intros Hnull.
    apply (Hsized 1280 720); try lia; unfold sw, sh; rewrite Hnull;
      reflexivity. }
  split; [|split; [|split; [|split; [|split; [|split; [|split; [|split; [|split]]]]]]]].
  - rewrite Hes. unfold served_trace. rewrite <- !app_assoc. reflexivity.
  - rewrite Hes. apply in_or_app; right. apply in_or_app; left.
    unfold composed_trace, captured_trace.
    apply in_or_app; left. apply in_or_app; left.
    right; left. reflexivity.
  - exact Hne.
  - apply Forall_forall. intros img Himg. unfold images_of in Himg.
    apply in_map_iff in Himg. destruct Himg as (c & <- & Hc).
    split; reflexivity.
  - reflexivity.
  - unfold document. generalize (images_of w sw sh slides).
    intros imgs. induction imgs as [|img imgs IH]; constructor; [|exact IH].
    repeat split.
  - intros px Hpx. apply pxToPdfPoints_exact; lia.
  - intros Hwidth Hheight.
    apply (Hsized 1920 1080); try lia; unfold sw, sh, slideSize;
      rewrite truthy_js_and, Hwidth, Hheight, !of_Z_exact by lia;
      reflexivity.
  - exact Hdefault.
  - intros Hnone. apply Hdefault. unfold manifest_at. rewrite Hnone.
    reflexivity.
Qed.

(* ================================================================== *)
(** ** Arguments beyond the second *)

Lemma bind_ext (A B : Type) (m1 m2 : M A) (f1 f2 : A -> M B) :
  (forall t, m1 t = m2 t) -> (forall a t, f1 a t = f2 a t) ->
  forall t, bind m1 f1 t = bind m2 f2 t.
Proof.
  intros Hm Hf t. unfold bind. rewrite Hm.
  destruct (m2 t) as [[a| |c] es]; [|reflexivity|reflexivity].
  rewrite Hf. reflexivity.
Qed.

Lemma try_catch_ext (A : Type) (m1 m2 h1 h2 : M A) :
  (forall t, m1 t = m2 t) -> (forall t, h1 t = h2 t) ->
  forall t, try_catch m1 h1 t = try_catch m2 h2 t.
Proof.
  intros Hm Hh t. unfold try_catch. rewrite Hm.
  destruct (m2 t) as [[a| |c] es]; [reflexivity| |reflexivity].
  rewrite Hh. reflexivity.
Qed.

Transparent tryPaths fetches resolve url_of.

(** The loops never look at the arguments. *)
Lemma probe_args w l paths :
  forall t, probe (with_args w l) paths t = probe w paths t.
Proof.
  induction paths as [|p rest IH]; intros t; [reflexivity|].
  cbn [probe]. apply bind_ext; [reflexivity|].
  intros [] t'; [reflexivity|apply IH].
Qed.

Lemma render_slides_args w l sw sh total slideDirs :
  forall i images t,
    render_slides (with_args w l) sw sh total i slideDirs images t =
    render_slides w sw sh total i slideDirs images t.
Proof.
  induction slideDirs as [|s rest IH]; intros i images t; [reflexivity|].
  cbn [render_slides]. apply bind_ext; [apply probe_args|].
  intros [urlPath|] t'.
  - apply bind_ext; [reflexivity|]. intros _ t1.
    apply bind_ext; [reflexivity|]. intros _ t2.
    apply bind_ext; [reflexivity|]. intros _ t3.
    apply bind_ext; [reflexivity|]. intros _ t4.
    apply IH.
  - apply bind_ext; [reflexivity|]. intros _ t1. apply IH.
Qed.

Lemma compose_args w l images :
  forall pages t,
    compose (with_args w l) images pages t = compose w images pages t.
Proof.
  induction images as [|img rest IH]; intros pages t; [reflexivity|].
  cbn [compose]. 
  apply bind_ext; [reflexivity|]. intros _ t1.
  apply bind_ext; [reflexivity|]. intros _ t2.
  apply bind_ext; [reflexivity|]. intros _ t3.
  apply bind_ext; [reflexivity|]. intros _ t4.
  apply IH.
Qed.

Opaque tryPaths fetches resolve url_of.

Lemma render_args w a b extras sw sh slideDirs :
  forall t,
    render (with_args w (a :: b :: extras)) sw sh slideDirs t =
    render (with_args w [a; b]) sw sh slideDirs t.
Proof.
  unfold render.
  apply bind_ext; [reflexivity|]. intros _.
  apply bind_ext; [reflexivity|]. intros _.
  apply bind_ext.
  { intros t. rewrite !render_slides_args. reflexivity. }
  intros images.
  destruct (List.length images =? 0)%nat; [reflexivity|].
  apply bind_ext; [reflexivity|]. intros _.
  apply bind_ext; [reflexivity|]. intros _.
  apply bind_ext.
  { intros t. rewrite !compose_args. reflexivity. }
  intros pages t. reflexivity.
Qed.

Lemma main_args w a b extras :
  forall t,
    main (with_args w (a :: b :: extras)) t = main (with_args w [a; b]) t.
Proof.
  unfold main. apply bind_ext; [reflexivity|].
  intros [[sw sh] slideDirs].
  apply try_catch_ext; [apply render_args|reflexivity].
Qed.

(** C9. With more than two positional arguments the script is not
    stopped by the argument check: it runs as with the first two alone,
    the archive and the output path, and never looks at the others. *)
Theorem extra_arguments_ignored w a b extras :
  run (with_args w (a :: b :: extras)) = run (with_args w [a; b]) /\
  fst (run (with_args w (a :: b :: extras))) <> 2 /\
  archivePath (with_args w (a :: b :: extras)) = path_resolve w a /\
  outPdfPath (with_args w (a :: b :: extras)) = path_resolve w b.
Proof.
  assert (E : run (with_args w (a :: b :: extras)) = run (with_args w [a; b])).
  { unfold run, program.
    change (List.length (process_argv (with_args w (a :: b :: extras))) <? 4)%nat
      with false.
    change (List.length (process_argv (with_args w [a; b])) <? 4)%nat
      with false.
    cbv iota.
    rewrite (@try_catch_ext _ (main (with_args w (a :: b :: extras)))
               (main (with_args w [a; b]))
               (console Error MFatal ;; exit 1) (console Error MFatal ;; exit 1)
               (@main_args w a b extras) (fun _ => eq_refl)).
    reflexivity. }
  split; [exact E|]. split; [|split; reflexivity].
  destruct (run (with_args w (a :: b :: extras))) as [code es] eqn:Hrun.
  apply run_paths, see_run in Hrun.
  destruct Hrun as [(_ & Hlt & _) | (_ & [H | [H | H]])]; cbn.
  - cbn in Hlt. lia.
  - destruct H as [-> _]. discriminate.
  - destruct H as [-> _]. discriminate.
  - destruct H as [-> _]. destruct (handler_failed es); discriminate.
Qed.

(* ================================================================== *)
(** ** The properties on sample runs *)

Lemma run_pair w : run w = (fst (run w), snd (run w)).
Proof. destruct (run w); reflexivity. Qed.

(** The deck of three folders comes out as three pages, folders 2, 9 and
    10 in this order. *)
Lemma pages_follow_slide_folders_witness :
  exists doc,
    output (snd (run deck_world)) = Some doc /\
    List.length doc = 3%nat /\
    page_per_folder deck_world (snd (run deck_world)) ["2"; "9"; "10"] doc.
Proof.
  destruct (@pages_follow_slide_folders deck_world (snd (run deck_world))
              (dirents [("10", slide); ("9", slide); ("2", slide)]))
    as (doc & Hout & Hpages & Hnum & _).
  - vm_compute. reflexivity.
  - reflexivity.
  - vm_compute. reflexivity.
  - intros s Hs. vm_compute in Hs.
    destruct Hs as [<- | [<- | [<- | []]]];
      (split; [eexists; reflexivity|split; vm_compute; reflexivity]).
  - exists doc. split; [exact Hout|].
    destruct Hnum as (Hlen & _); [vm_compute; discriminate|].
    split; [rewrite Hlen; reflexivity|exact Hpages].
Defined.

(** Two folders with an index page and no numeric folder, yet one page:
    no candidate URL of folder [a#b] reaches it.  And two numeric folders
    whose names are the same double stay in the order of the listing,
    the greater first. *)
Lemma pages_follow_slide_folders_counterexample :
  (listing fragment_world = Some fragment_listing /\
   numeric_names fragment_listing = [] /\
   indexed_names fragment_world fragment_listing = ["a#b"; "c"] /\
   fst (run fragment_world) = 0 /\
   option_map (@List.length Page) (output (snd (run fragment_world)))
     = Some 1%nat) /\
  (numeric_folders
     (dirents [("9007199254740993", slide); ("9007199254740992", slide)])
     = ["9007199254740993"; "9007199254740992"] /\
   decimal_value "9007199254740992" < decimal_value "9007199254740993").
Proof. repeat split; vm_compute; reflexivity. Qed.

(** The navigation to the first slide of the deck rejects. *)
Lemma navigation_timeout_aborts_witness :
  fst (run timeout_world) = 1 /\ writes_output (snd (run timeout_world)) = false.
Proof.
  destruct (@navigation_timeout_aborts timeout_world
              (fst (run timeout_world)) (snd (run timeout_world))
              (run_pair timeout_world)) as [_ H].
  destruct (H (firstn 18 (snd (run timeout_world)))
              "http://127.0.0.1:40000/slides/2/index.html" 30000
              (skipn 19 (snd (run timeout_world))))
    as (_ & Hcode & Hw & _).
  - vm_compute. reflexivity.
  - split; assumption.
Defined.

(** The navigation to the first slide rejects: the other two slides are
    never looked at, the error is reported, the process leaves with code
    1 and nothing is written. *)
Lemma navigation_timeout_counterexample :
  In (Called (page_goto "http://127.0.0.1:40000/slides/2/index.html" 30000)
        false) (snd (run timeout_world)) /\
  fst (run timeout_world) = 1 /\
  In (Console Error MRenderError) (snd (run timeout_world)) /\
  writes_output (snd (run timeout_world)) = false /\
  output (snd (run timeout_world)) = None /\
  resolve timeout_world "9" = Some "/slides/9/index.html" /\
  resolve timeout_world "10" = Some "/slides/10/index.html" /\
  fetches timeout_world (tryPaths "2")
    = filter (fun e => match e with Fetched _ _ => true | _ => false end)
        (snd (run timeout_world)).
Proof.
  split; [vm_compute; tauto|].
  split; [vm_compute; reflexivity|].
  split; [vm_compute; tauto|].
  repeat split; vm_compute; reflexivity.
Qed.

(** Both ways out after the launch: the deck that renders, and the
    navigation that rejects. *)
Lemma cleanup_by_exit_path_witness :
  (exists removed,
     cleanup (snd (run deck_world)) =
     [ Called browser_close true; Called srv_stop true;
       Called (fsp_rm (tmp deck_world)) removed ]) /\
  removes_tmp (snd (run timeout_world)) = false.
Proof.
  split.
  - destruct (@cleanup_by_exit_path deck_world (fst (run deck_world))
                (snd (run deck_world)) (run_pair deck_world)) as [H _].
    + vm_compute. reflexivity.
    + apply H. vm_compute. reflexivity.
  - destruct (@cleanup_by_exit_path timeout_world (fst (run timeout_world))
                (snd (run timeout_world)) (run_pair timeout_world)) as [_ H].
    + vm_compute. reflexivity.
    + destruct H as (_ & H & _); [vm_compute; reflexivity|exact H].
Defined.

(** C3. The exit paths after the launch of the browser do not all
    attempt the removal of the working directory.  When no slide is
    rendered - the archive holds one numeric folder with nothing in it -
    and when a navigation rejects, the run shuts the browser down and
    stops the listener, in this order, and leaves with code 1 without
    asking for the removal; the run that renders the deck asks for it
    after the same shutdown. *)
Lemma failure_paths_skip_removal :
  (launched (snd (run blank_world)) = true /\
   fst (run blank_world) = 1 /\
   reports fatal_kind (snd (run blank_world)) = true /\
   cleanup (snd (run blank_world))
     = [Called browser_close true; Called srv_stop true] /\
   removes_tmp (snd (run blank_world)) = false) /\
  (launched (snd (run timeout_world)) = true /\
   fst (run timeout_world) = 1 /\
   cleanup (snd (run timeout_world))
     = [Called browser_close true; Called srv_stop true] /\
   removes_tmp (snd (run timeout_world)) = false) /\
  cleanup (snd (run deck_world))
    = [ Called browser_close true; Called srv_stop true;
        Called (fsp_rm (tmp deck_world)) true ].
Proof. repeat split; vm_compute; reflexivity. Qed.

(** An empty archive holds no slide folder, and the archive with one
    empty folder gets no slide rendered: neither run writes; the deck
    writes its three pages once. *)
Lemma no_output_on_fatal_error_witness :
  writes_output (snd (run empty_world)) = false /\
  writes_output (snd (run blank_world)) = false /\
  exists rest,
    writes_output rest = false /\
    exists before doc,
      List.length doc = 3%nat /\
      snd (run deck_world) =
      before ++ Called (fsp_writeFile (outPdfPath deck_world) doc) true :: rest.
Proof.
  split; [|split].
  - destruct (@no_output_on_fatal_error empty_world (fst (run empty_world))
                (snd (run empty_world)) (run_pair empty_world)) as [H _].
    apply H. right. right. left. vm_compute. exact I.
  - destruct (@no_output_on_fatal_error blank_world (fst (run blank_world))
                (snd (run blank_world)) (run_pair blank_world)) as [H _].
    apply H. right. right. right. right. left. vm_compute. reflexivity.
  - destruct (@no_output_on_fatal_error deck_world (fst (run deck_world))
                (snd (run deck_world)) (run_pair deck_world)) as [_ H].
    destruct H
      as (sw & sh & slides & setup & ok & rest & _ & E & _ & Hrest & _ & Hlen);
      [vm_compute; reflexivity|].
    exists rest. split; [exact Hrest|].
    assert (Hok : ok = true).
    { destruct ok; [reflexivity|].
      assert (Hw : write_failed (snd (run deck_world)) = true).
      { rewrite E. unfold write_failed. rewrite !existsb_app. cbn.
        rewrite !orb_true_r. reflexivity. }
      vm_compute in Hw. discriminate Hw. }
    subst ok.
    exists (setup ++ composed_trace deck_world sw sh slides ++
            outDir_trace deck_world ++ [Called pdfDoc_save true]),
      (document deck_world sw sh slides).
    split; [rewrite Hlen; vm_compute; reflexivity|].
    rewrite E. rewrite <- !app_assoc. reflexivity.
Defined.


(** C8. The exit code of a run that succeeds is not always 0.  The
    archive holds folder 7 with nothing in it and folder 8 with its index
    page.  The run reports no fatal error: folder 7 is skipped with a
    warning, folder 8 is rendered, the PDF of one page is written, the
    working directory is removed and the last line is printed.  Yet the
    process leaves with code 1: the probe of [/slides/7] made the handler
    of the listener fail. *)
Lemma exit_code_after_skipped_slide :
  skips (snd (run hollow_world)) = true /\
  reports fatal_kind (snd (run hollow_world)) = false /\
  write_failed (snd (run hollow_world)) = false /\
  option_map (@List.length Page) (output (snd (run hollow_world)))
    = Some 1%nat /\
  removes_tmp (snd (run hollow_world)) = true /\
  logs_done (snd (run hollow_world)) = true /\
  In (Fetched "/slides/7" (Some 500)) (snd (run hollow_world)) /\
  handler_failed (snd (run hollow_world)) = true /\
  fst (run hollow_world) = 1.
Proof.
  split; [vm_compute; reflexivity|].
  split; [vm_compute; reflexivity|].
  split; [vm_compute; reflexivity|].
  split; [vm_compute; reflexivity|].
  split; [vm_compute; reflexivity|].
  split; [vm_compute; reflexivity|].
  split; [vm_compute; tauto|].
  split; vm_compute; reflexivity.
Qed.

(** Sizes given as strings are adopted as they are, and a width of 0,
    a number, is not. *)
Lemma canvas_size_counterexample :
  is_number (opt_get (opt_get manifest_of_strings "slideSize") "width") = false /\
  slideSize manifest_of_strings = (VStr "1920", VStr "1080") /\
  is_number (opt_get (opt_get manifest_of_zero "slideSize") "width") = true /\
  is_number (opt_get (opt_get manifest_of_zero "slideSize") "height") = true /\
  slideSize manifest_of_zero = (VNum (of_Z 1280), VNum (of_Z 720)).
Proof. repeat split; vm_compute; reflexivity. Qed.

Lemma canvas_size_resolution_witness :
  slideSize manifest_1920_1080 = (VNum (of_Z 1920), VNum (of_Z 1080)).
Proof.
  destruct (@canvas_size_resolution deck_world 0%nat manifest_1920_1080)
    as (_ & _ & _ & _ & H).
  apply (H 1920 1080); [lia|lia|reflexivity|reflexivity].
Defined.

(** The three pages of the deck, which has no manifest, measure 960 by
    540; the page of the archive whose manifest says 1920 by 1080 measures
    1440 by 810. *)
Lemma page_geometry_witness :
  (exists doc,
     output (snd (run deck_world)) = Some doc /\
     List.length doc = 3%nat /\
     Forall (fun pg => page_width pg = of_Z 960 /\ page_height pg = of_Z 540)
       doc) /\
  (exists doc,
     output (snd (run wide_world)) = Some doc /\
     List.length doc = 1%nat /\
     Forall (fun pg => page_width pg = of_Z 1440 /\ page_height pg = of_Z 810)
       doc).
Proof.
  split.
  - destruct (output (snd (run deck_world))) as [doc|] eqn:Hdoc;
      [|vm_compute in Hdoc; discriminate Hdoc].
    exists doc. split; [reflexivity|].
    destruct (@page_geometry deck_world (fst (run deck_world))
                (snd (run deck_world)) doc (run_pair deck_world) Hdoc)
      as (tm & ok & rest & _ & _ & _ & _ & Hmap & _ & _ & _ & _ & H).
    split; [rewrite Hmap; vm_compute; reflexivity|].
    apply H. reflexivity.
  - destruct (output (snd (run wide_world))) as [doc|] eqn:Hdoc;
      [|vm_compute in Hdoc; discriminate Hdoc].
    exists doc. split; [reflexivity|].
    destruct (@page_geometry wide_world (fst (run wide_world))
                (snd (run wide_world)) doc (run_pair wide_world) Hdoc)
      as (tm & ok & rest & _ & _ & _ & _ & Hmap & _ & _ & H & _).
    split; [rewrite Hmap; vm_compute; reflexivity|].
    apply H; vm_compute; reflexivity.
Defined.

(** Folder 7 without index page is taken and, bare, skipped: its turn of
    the capture loop adds the five requests and the warning. *)
Lemma primary_enumeration_witness :
  In "7" (numeric_folders (dirents [("7", Dir []); ("8", slide)])) /\
  resolve hollow_world "7" = None /\
  snd (render_slides hollow_world VNull VNull 1 0 ["7"] [] 0%nat)
    = fetches hollow_world (tryPaths "7") ++
      [Console Warn (MSkippingSlide "7")].
Proof.
  destruct (@primary_enumeration_ignores_index hollow_world
              (dirents [("7", Dir []); ("8", slide)]) "7")
    as (H1 & _ & _ & _ & H5 & _ & H7 & _).
  assert (Hnone : resolve hollow_world "7" = None)
    by (apply H5; repeat split; vm_compute; reflexivity).
  split; [|split].
  - apply H1. split; [vm_compute; tauto|reflexivity].
  - exact Hnone.
  - rewrite (H7 VNull VNull 1%nat 0%nat [] [] 0%nat Hnone). reflexivity.
Defined.

(** Folder 7 has no index page and is taken by the primary strategy; it
    is not skipped: the page [7.html] next to it answers for it.  Both
    folders are rendered, and the run goes to its last line. *)
Lemma primary_enumeration_counterexample :
  existsSync deck_sibling ["slides"; "7"; "index.html"] = false /\
  numeric_folders sibling_listing = ["7"; "8"] /\
  listing (sibling_world false) = Some sibling_listing /\
  resolve (sibling_world false) "7" = Some "/slides/7.html" /\
  In (Called (page_goto "http://127.0.0.1:40000/slides/7.html" 30000) true)
    (snd (run (sibling_world false))) /\
  skips (snd (run (sibling_world false))) = false /\
  screenshots (snd (run (sibling_world false))) = 2%nat /\
  option_map (@List.length Page) (output (snd (run (sibling_world false))))
    = Some 2%nat /\
  logs_done (snd (run (sibling_world false))) = true.
Proof.
  split; [vm_compute; reflexivity|].
  split; [vm_compute; reflexivity|].
  split; [vm_compute; reflexivity|].
  split; [vm_compute; reflexivity|].
  split; [vm_compute; tauto|].
  repeat split; vm_compute; reflexivity.
Qed.

(* ================================================================== *)
(** ** The browser search *)

Lemma find_first (A : Type) (f : A -> bool) l x :
  find f l = Some x ->
  exists before after,
    l = before ++ x :: after /\ f x = true /\
    forall y, In y before -> f y = false.
Proof.
  induction l as [|a l IH]; cbn; [discriminate|].
  destruct (f a) eqn:E.
  - intros [= <-]. exists [], l. split; [reflexivity|]. split; [exact E|].
    intros y [].
  - intros H. destruct (IH H) as (before & after & -> & Hx & Hb).
    exists (a :: before), after. split; [reflexivity|]. split; [exact Hx|].
    intros y [<- | Hy]; auto.
Qed.

Lemma find_None (A : Type) (f : A -> bool) l :
  find f l = None <-> forall y, In y l -> f y = false.
Proof.
  split.
  - intros H y Hy. exact (find_none _ _ H y Hy).
  - intros H. destruct (find f l) as [x|] eqn:E; [|reflexivity].
    apply find_some in E. destruct E as [Hx E]. rewrite (H x Hx) in E.
    discriminate.
Qed.

(** X1. [findSystemChrome] returns the first candidate that exists: what
    it returns is a candidate and exists, no candidate listed before it
    exists, and it returns null exactly when no candidate exists. *)
Theorem findSystemChrome_first_existing w :
  (forall p, findSystemChrome w = Some p ->
     on_disk w p = true /\
     exists before after,
       chrome_candidates w = before ++ p :: after /\
       forall c, In c before -> on_disk w c = false) /\
  (findSystemChrome w = None <->
   forall c, In c (chrome_candidates w) -> on_disk w c = false).
Proof.
  unfold findSystemChrome. split.
  - intros p H. apply find_first in H.
    destruct H as (before & after & E & Hp & Hb). eauto.
  - apply find_None.
Qed.

(** X2. A non-empty CHROME_PATH is tried before every platform path: when
    it exists it is the browser, on every platform, whatever else is
    installed.  Unset or empty it plays no part. *)
Theorem CHROME_PATH_first w :
  (forall p, env w "CHROME_PATH" = Some p -> p <> "" -> on_disk w p = true ->
     findSystemChrome w = Some p) /\
  (env w "CHROME_PATH" = Some "" ->
   findSystemChrome w =
   findSystemChrome
     (with_env w (fun k => if (k =? "CHROME_PATH")%string then None
                           else env w k))).
Proof.
  unfold findSystemChrome, chrome_candidates. split.
  - intros p Henv Hne Hp. rewrite Henv.
    destruct (p =? "")%string eqn:E; [apply String.eqb_eq in E; contradiction|].
    cbn [app find]. rewrite Hp. reflexivity.
  - intros Henv. rewrite Henv. reflexivity.
Qed.

Lemma CHROME_PATH_first_witness :
  findSystemChrome chrome_path_world = Some "/usr/bin/chromium".
Proof.
  destruct (CHROME_PATH_first chrome_path_world) as [H _].
  apply H; [reflexivity|discriminate|reflexivity].
Defined.

(* ================================================================== *)
(** ** The file server *)

Lemma isDirectory_exists tree p :
  isDirectory tree p = true -> existsSync tree p = true.
Proof.
  unfold isDirectory, existsSync. destruct (lookup tree p); [reflexivity|discriminate].
Qed.

(** X3. The handler answers Not Found exactly for a path that does not
    exist.  What it sends exists, and is the path asked for, or the
    [index.html] in it when the path is a directory that has one. *)
Theorem handler_sends_what_exists tree fsPath :
  (createServer_fetch tree fsPath = NotFound <->
   existsSync tree fsPath = false) /\
  (forall sent, createServer_fetch tree fsPath = SendFile sent ->
     existsSync tree sent = true /\
     (sent = fsPath \/
      (sent = fsPath ++ ["index.html"] /\ isDirectory tree fsPath = true))).
Proof.
  unfold createServer_fetch.
  destruct (existsSync tree fsPath) eqn:He;
    destruct (isDirectory tree fsPath) eqn:Hd;
    destruct (existsSync tree (fsPath ++ ["index.html"])) eqn:Hi;
    cbn [andb]; rewrite ?He, ?Hi; cbn [negb];
    try (apply isDirectory_exists in Hd; congruence).
  all: split; [split; intros; congruence|].
  all: intros sent [= <-]; auto.
Qed.



(* ------------------------------------------------------------------ *)
(** *** The extension of a file name *)

Lemma last_dot_app a b :
  last_dot (a ++ b) =
  match last_dot b with
  | Some i => Some (String.length a + i)%nat
  | None => last_dot a
  end.
Proof.
  induction a as [|c a IH]; cbn [append last_dot String.length].
  - destruct (last_dot b); reflexivity.
  - rewrite IH. destruct (last_dot b); [reflexivity|].
    destruct (last_dot a); reflexivity.
Qed.

Lemma substring_all s : substring 0 (String.length s) s = s.
Proof. induction s as [|c s IH]; cbn; [reflexivity|]. rewrite IH. reflexivity. Qed.

Lemma substring_tail a b :
  substring (String.length a) (String.length b) (a ++ b) = b.
Proof.
  induction a as [|c a IH]; cbn [append String.length substring].
  - apply substring_all.
  - exact IH.
Qed.

Lemma length_append a b :
  String.length (a ++ b) = (String.length a + String.length b)%nat.
Proof. induction a as [|c a IH]; cbn; [reflexivity|]. rewrite IH. reflexivity. Qed.

Lemma toLowerCase_app a b :
  toLowerCase (a ++ b) = (toLowerCase a ++ toLowerCase b)%string.
Proof. induction a as [|c a IH]; cbn; [reflexivity|]. rewrite IH. reflexivity. Qed.

(** The name [stem.e]: the extension is [.e], but for the name [..]. *)
Lemma extname_stem stem e :
  stem <> "" -> last_dot e = None ->
  extname (stem ++ "." ++ e) =
  (if (stem ++ "." ++ e =? "..")%string then "" else "." ++ e)%string.
Proof.
  intros Hstem He. unfold extname.
  assert (Hdot : last_dot ("." ++ e) = Some 0%nat).
  { cbn [append last_dot]. rewrite He, Ascii.eqb_refl. reflexivity. }
  rewrite last_dot_app, Hdot, Nat.add_0_r.
  destruct stem as [|c stem]; [congruence|].
  cbn [String.length].
  destruct (_ =? "..")%string; [reflexivity|].
  replace (String.length (String c stem ++ "." ++ e) - S (String.length stem))%nat
    with (String.length ("." ++ e)).
  - apply (substring_tail (String c stem) ("." ++ e)).
  - rewrite (length_append (String c stem) ("." ++ e)).
    cbn [String.length append].
    rewrite Nat.add_comm, Nat.add_sub. reflexivity.
Qed.

(** X5. The Content-Type is chosen by what follows the last dot of the
    file name, lower-cased: [deck.HTML] and [deck.html] get the same
    header, [a.tar.gz] is a gzip.  The name before the dot plays no
    part. *)
Theorem content_type_by_extension dir stem e :
  stem <> "" -> last_dot e = None ->
  content_type (dir ++ [(stem ++ "." ++ e)%string]) =
  mimeTypes_get (toLowerCase e).
Proof.
  intros Hstem He. unfold content_type, basename. rewrite last_last.
  rewrite (extname_stem Hstem He).
  destruct (_ =? "..")%string eqn:E; [|reflexivity].
  apply String.eqb_eq in E.
  destruct stem as [|c [|c' stem]]; [congruence| |].
  - cbn in E. injection E as _ E. destruct e; [reflexivity|discriminate E].
  - cbn in E. injection E as _ _ E. destruct stem; discriminate E.
Qed.

Lemma content_type_by_extension_witness :
  content_type ["slides"; "9"; "deck.HTML"] = Mime "text/html; charset=utf-8" /\
  content_type ["a.tar.GZ"] = Mime "application/gzip".
Proof.
  split.
  - apply (@content_type_by_extension ["slides"; "9"] "deck" "HTML");
      [discriminate|reflexivity].
  - apply (@content_type_by_extension [] "a.tar" "GZ");
      [discriminate|reflexivity].
Defined.

(** X6. For a file whose name has no dot, or whose only dot leads the
    name (a dotfile such as [.html]), the handler sets no Content-Type
    header on its response: the type the client is told is left to the
    runtime. *)
Theorem content_type_needs_extension dir e :
  last_dot e = None ->
  content_type (dir ++ [e]) = NoContentType /\
  content_type (dir ++ [("." ++ e)%string]) = NoContentType.
Proof.
  intros He. unfold content_type, basename. rewrite !last_last.
  unfold extname. cbn [append last_dot]. rewrite He, Ascii.eqb_refl.
  split; reflexivity.
Qed.

Lemma content_type_needs_extension_witness :
  content_type ["slides"; "html"] = NoContentType /\
  content_type ["slides"; ".html"] = NoContentType.
Proof.
  apply (@content_type_needs_extension ["slides"] "html"). reflexivity.
Defined.

(* ================================================================== *)
(** ** [toUrlPath] *)

Lemma split_cons sep s : exists piece pieces, split sep s = piece :: pieces.
Proof.
  destruct s as [|c s]; cbn [split]; [eauto|].
  destruct (Ascii.eqb c sep); [eauto|].
  destruct (split sep s); eauto.
Qed.

Lemma concat_split sep s : String.concat "/" (split sep s) = slashed sep s.
Proof.
  induction s as [|c s IH]; [reflexivity|].
  cbn [split slashed].
  destruct (split_cons sep s) as (piece & pieces & E). rewrite E in *.
  destruct (Ascii.eqb c sep).
  - cbn [String.concat]. rewrite <- IH. reflexivity.
  - rewrite <- IH. cbn [String.concat]. destruct pieces; reflexivity.
Qed.

Lemma slashed_slash s : slashed "/" s = s.
Proof.
  induction s as [|c s IH]; [reflexivity|]. cbn [slashed]. rewrite IH.
  destruct (Ascii.eqb_spec c "/"); congruence.
Qed.

Lemma slashed_twice sep s : slashed sep (slashed sep s) = slashed sep s.
Proof.
  induction s as [|c s IH]; [reflexivity|]. cbn [slashed]. rewrite IH.
  destruct (Ascii.eqb_spec c sep) as [->|Hc].
  - destruct (Ascii.eqb "/" sep); reflexivity.
  - destruct (Ascii.eqb_spec c sep); congruence.
Qed.

Lemma slashed_length sep s : String.length (slashed sep s) = String.length s.
Proof. induction s as [|c s IH]; cbn; [reflexivity|]. rewrite IH. reflexivity. Qed.

Lemma slashed_get sep s :
  forall i,
    String.get i (slashed sep s) =
    option_map (fun c => if Ascii.eqb c sep then "/"%char else c)
      (String.get i s).
Proof.
  induction s as [|c s IH]; intros [|i]; cbn; auto.
Qed.

(** X7. Splitting a path at the platform's separator and joining the
    pieces with slashes turns every separator into a slash and changes
    nothing else: the length stays, no backslash is left on Windows, the
    path is unchanged elsewhere, and doing it twice changes nothing
    more. *)
Theorem toUrlPath_slashes p fsPath :
  toUrlPath p fsPath = slashed (path_sep p) fsPath /\
  String.length (toUrlPath p fsPath) = String.length fsPath /\
  (forall i,
     String.get i (toUrlPath p fsPath) =
     option_map (fun c => if Ascii.eqb c (path_sep p) then "/"%char else c)
       (String.get i fsPath)) /\
  (forall i, String.get i (toUrlPath win32 fsPath) <> Some "\"%char) /\
  (p <> win32 -> toUrlPath p fsPath = fsPath) /\
  toUrlPath p (toUrlPath p fsPath) = toUrlPath p fsPath.
Proof.
  unfold toUrlPath. rewrite !concat_split.
  split; [reflexivity|]. split; [apply slashed_length|].
  split; [apply slashed_get|]. split; [|split].
  - intros i. rewrite slashed_get.
    destruct (String.get i fsPath) as [c|]; cbn [option_map]; [|discriminate].
    cbn [path_sep]. destruct (Ascii.eqb_spec c "\"); [discriminate|congruence].
  - intros Hp. destruct p; try congruence; apply slashed_slash.
  - apply slashed_twice.
Qed.

(* ================================================================== *)
(** ** The names of the screenshots *)

Lemma decimal_string_of_uint d :
  forall acc,
    all_digits (NilEmpty.string_of_uint d) = true /\
    decimal_value_from (Z.of_nat acc) (NilEmpty.string_of_uint d) =
    Z.of_nat (Nat.of_uint_acc d acc).
Proof.
  induction d as [|d IH|d IH|d IH|d IH|d IH|d IH|d IH|d IH|d IH|d IH];
    intros acc; cbn [NilEmpty.string_of_uint all_digits Nat.of_uint_acc
                     decimal_value_from];
    [split; reflexivity|..].
  all: rewrite Nat.tail_mul_spec.
  all: match goal with
       | IH : forall acc, _ |- context [Nat.of_uint_acc _ ?a] =>
           destruct (IH a) as [Hd Hv]; rewrite <- Hv, Hd
       end.
  all: split; [reflexivity|f_equal].
  all: match goal with
       | |- context [Z.of_N (N_of_ascii ?c)] =>
           let v := eval vm_compute in (Z.of_N (N_of_ascii c)) in
           change (Z.of_N (N_of_ascii c)) with v
       end.
  all: lia.
Qed.

Lemma String_of_nat_value i :
  all_digits (String_of_nat i) = true /\
  decimal_value (String_of_nat i) = Z.of_nat i.
Proof.
  unfold String_of_nat, decimal_value.
  destruct (@decimal_string_of_uint (Nat.to_uint i) 0%nat) as [Hd Hv].
  split; [exact Hd|].
  change 0 with (Z.of_nat 0). rewrite Hv.
  change (Nat.of_uint_acc (Nat.to_uint i) 0) with (Nat.of_uint (Nat.to_uint i)).
  rewrite DecimalNat.Unsigned.of_to. reflexivity.
Qed.

Lemma zeros_value n s :
  all_digits (repeat_string n "0" ++ s) = all_digits s /\
  decimal_value (repeat_string n "0" ++ s) = decimal_value s.
Proof.
  unfold decimal_value. induction n as [|n [IHd IHv]]; [split; reflexivity|].
  cbn [repeat_string append all_digits decimal_value_from].
  split; [exact IHd|exact IHv].
Qed.

Lemma repeat_string_length n :
  String.length (repeat_string n "0") = n.
Proof. induction n as [|n IH]; cbn; [reflexivity|]. rewrite IH. reflexivity. Qed.

Lemma append_cancel_r a b c : (a ++ c = b ++ c)%string -> a = b.
Proof.
  intros H.
  assert (Hlen : String.length a = String.length b).
  { apply (f_equal String.length) in H. rewrite !length_append in H. lia. }
  revert b H Hlen. induction a as [|x a IH]; intros [|y b] H Hlen;
    cbn in Hlen; try discriminate; [reflexivity|].
  cbn in H. injection H as -> H. f_equal. apply IH; [exact H|lia].
Qed.

Set Warnings "-abstract-large-number".

Lemma slide_file_four_digits :
  forallb (fun i => (String.length (padStart0 4 (String_of_nat i)) =? 4)%nat)
    (seq 0 10000) = true.
Proof. vm_compute. reflexivity. Qed.

(** X8. The screenshot of the slide at index [i] is named [slide-], the
    index in decimal padded with zeros to four digits at least, [.jpg]:
    the digits read back as [i], they are exactly four below 10000, and
    two indices never share a name. *)
Theorem slide_file_names_index i :
  (exists digits,
     slide_file i = ("slide-" ++ digits ++ ".jpg")%string /\
     all_digits digits = true /\
     decimal_value digits = Z.of_nat i /\
     (4 <= String.length digits)%nat /\
     ((i < 10000)%nat -> String.length digits = 4%nat)) /\
  (forall j, slide_file i = slide_file j -> i = j).
Proof.
  assert (Hpad : forall k,
            all_digits (padStart0 4 (String_of_nat k)) = true /\
            decimal_value (padStart0 4 (String_of_nat k)) = Z.of_nat k).
  { intros k. unfold padStart0.
    destruct (zeros_value (4 - String.length (String_of_nat k)) (String_of_nat k))
      as [Hd Hv].
    destruct (String_of_nat_value k) as [Hd' Hv'].
    rewrite Hd, Hv. auto. }
  split.
  - exists (padStart0 4 (String_of_nat i)).
    destruct (Hpad i) as [Hd Hv].
    split; [reflexivity|]. split; [exact Hd|]. split; [exact Hv|]. split.
    + unfold padStart0. rewrite length_append, repeat_string_length. lia.
    + intros Hi. pose proof slide_file_four_digits as H.
      rewrite forallb_forall in H.
      apply Nat.eqb_eq, (H i), in_seq. lia.
  - intros j H. unfold slide_file in H.
    cbn [append] in H. injection H as H.
    apply append_cancel_r in H.
    destruct (Hpad i) as [_ Hi]. destruct (Hpad j) as [_ Hj].
    rewrite H in Hi. rewrite Hi in Hj. lia.
Qed.

(* ================================================================== *)
(** ** What the capture loop navigates to *)

Transparent fetches.

Lemma gotos_fetches w paths :
  forall last tl,
    gotos_follow_200 w last (fetches w paths ++ tl) =
    gotos_follow_200 w
      (match paths with
       | [] => last
       | _ => find (answers_200 w) paths
       end) tl.
Proof.
  unfold fetches.
  induction paths as [|p rest IH]; intros last tl; [reflexivity|].
  cbn [probed map app gotos_follow_200 find].
  assert (Ha : answers_200 w p =
               match fetch_status w p with
               | Some status => status =? 200
               | None => false
               end) by reflexivity.
  destruct (fetch_status w p) as [status|];
    [destruct (status =? 200)|]; rewrite Ha; cbn [map app];
    [reflexivity| |]; rewrite IH; destruct rest; reflexivity.
Qed.

Opaque fetches.

Transparent tryPaths resolve.

Lemma gotos_tryPaths w s last tl :
  gotos_follow_200 w last (fetches w (tryPaths s) ++ tl) =
  gotos_follow_200 w (resolve w s) tl.
Proof. rewrite gotos_fetches. reflexivity. Qed.

Opaque tryPaths resolve.

(** X9. However the capture loop ends, every [page.goto] it made went,
    with the 30 second bound, to the URL of the candidate path whose
    request had just answered 200: the loop never navigates to a URL it
    has not probed, nor to one that answered otherwise. *)
Theorem capture_loop_navigates_to_probed w slideWidth slideHeight total
    slideDirs :
  forall i images t o es,
    render_slides w slideWidth slideHeight total i slideDirs images t = (o, es) ->
    gotos_follow_200 w None es = true.
Proof.
  induction slideDirs as [|s rest IH]; intros i images t o es H.
  - cbn in H. injection H as <- <-. reflexivity.
  - cbn [render_slides] in H. unfold bind at 1 in H.
    rewrite probe_tryPaths in H.
    destruct (resolve w s) as [p|] eqn:Hres.
    + unfold bind, console, call in H. cbn [List.length] in H.
      repeat match type of H with
             | context [throws w ?n ?c] => destruct (throws w n c)
             end;
        try (injection H as <- <-; rewrite gotos_tryPaths, Hres;
             cbn [app gotos_follow_200];
             rewrite String.eqb_refl; reflexivity).
      destruct (render_slides w slideWidth slideHeight total (S i) rest _ _)
        as [o' es'] eqn:Hrest.
      apply IH in Hrest.
      injection H as <- <-. rewrite gotos_tryPaths, Hres.
      cbn [app gotos_follow_200]. rewrite String.eqb_refl. exact Hrest.
    + unfold bind, console in H. cbn [List.length] in H.
      destruct (render_slides w slideWidth slideHeight total (S i) rest _ _)
        as [o' es'] eqn:Hrest.
      apply IH in Hrest.
      injection H as <- <-. rewrite gotos_tryPaths, Hres. exact Hrest.
Qed.

Lemma capture_loop_navigates_to_probed_witness :
  gotos_follow_200 deck_world None
    (snd (render_slides deck_world (VNum (of_Z 1280)) (VNum (of_Z 720))
            3%nat 0%nat ["2"; "9"; "10"] [] 16%nat)) = true /\
  gotos_follow_200 timeout_world None
    (snd (render_slides timeout_world (VNum (of_Z 1280)) (VNum (of_Z 720))
            3%nat 0%nat ["2"; "9"; "10"] [] 16%nat)) = true.
Proof.
  split.
  - destruct (render_slides deck_world (VNum (of_Z 1280)) (VNum (of_Z 720))
                3%nat 0%nat ["2"; "9"; "10"] [] 16%nat) as [o es] eqn:E.
    exact (capture_loop_navigates_to_probed E).
  - destruct (render_slides timeout_world (VNum (of_Z 1280)) (VNum (of_Z 720))
                3%nat 0%nat ["2"; "9"; "10"] [] 16%nat) as [o es] eqn:E.
    exact (capture_loop_navigates_to_probed E).
Defined.

(* ================================================================== *)
(** ** Where a run stops *)

(** The server on the ways out of the setup: it is started only once
    slides are found; with no browser it is stopped again. *)
Lemma setup_serves w o es :
  SetupPath w o es ->
  (serves es = false /\ stops_server es = false) \/
  (serves es = true /\
   (exists slideDirs search, Found w slideDirs search) /\
   ((findSystemChrome w = None /\ stops_server es = true /\
     In (Console Error MNoChrome) es) \/
    (exists chromePath,
       findSystemChrome w = Some chromePath /\ stops_server es = false))).
Proof.
  intros H. destruct H; unfold_traces.
  all: try match goal with
       | H : Found _ _ _ |- _ =>
           assert (HF : exists slideDirs search, Found w slideDirs search)
             by eauto;
           destruct H; unfold readdir_slides
       end.
  all: unfold serves, stops_server; rewrite ?existsb_app; cbn [existsb orb].
  all: try (left; split; reflexivity).
  all: right; split; [reflexivity|]; split; [exact HF|].
  all: try (left; split; [assumption|]; split; [reflexivity|];
            rewrite !in_app_iff; right; left; reflexivity).
  all: right; eexists; split; [eassumption|reflexivity].
Qed.

Lemma serves_app a b : serves (a ++ b) = serves a || serves b.
Proof. apply existsb_app. Qed.

Lemma stops_server_app a b :
  stops_server (a ++ b) = stops_server a || stops_server b.
Proof. apply existsb_app. Qed.

Lemma Found_listing w slideDirs search :
  Found w slideDirs search -> exists l, listing w = Some l.
Proof. intros []; eauto. Qed.

(** X10. On a machine where no browser is found the run never launches
    puppeteer and writes nothing, and its exit code is not 0; if it had
    started the server, it reports the missing browser and stops the
    server before it leaves. *)
Theorem no_browser_no_launch w code es :
  findSystemChrome w = None ->
  run w = (code, es) ->
  code <> 0 /\ launched es = false /\ writes_output es = false /\
  (serves es = true ->
   In (Console Error MNoChrome) es /\ stops_server es = true).
Proof.
  intros Hnone H. apply run_paths in H.
  assert (Hready : forall r setup, SetupPath w (Ret r) setup -> False).
  { intros r setup Hs. inversion Hs; subst; try congruence.
    destruct stopped; discriminate. }
  change (launched es) with (seen_launch (see es)).
  change (writes_output es) with (seen_write (see es)).
  destruct H as [Hargs | c es1 Hargs Hs | es1 Hargs Hs
        | sw sh slides es1 es2 Hargs Hs Hr
        | sw sh slides es1 es2 c Hargs Hs Hr
        | sw sh slides es1 es2 stopped sd Hargs Hs Hr Hsd];
    try (exfalso; eapply Hready; eassumption).
  - repeat split; try discriminate.
  - destruct (see_setup Hs) as (E & _ & Hc & _).
    destruct (Hc c eq_refl) as [-> _]. rewrite E. project.
    repeat split; try discriminate.
    + destruct (setup_serves Hs) as [[Hs1 _] | (_ & _ & [(_ & _ & Hm) | (cp & Hcp & _)])];
        congruence || assumption.
    + destruct (setup_serves Hs) as [[Hs1 _] | (_ & _ & [(_ & Hm & _) | (cp & Hcp & _)])];
        congruence || assumption.
  - destruct (see_setup Hs) as (E & _).
    rewrite see_app, E. project.
    repeat split; try discriminate.
    + rewrite serves_app, orb_false_r in H. rewrite in_app_iff. left.
      destruct (setup_serves Hs) as [[Hs1 _] | (_ & _ & [(_ & _ & Hm) | (cp & Hcp & _)])];
        congruence || assumption.
    + rewrite serves_app, orb_false_r in H. rewrite stops_server_app.
      destruct (setup_serves Hs) as [[Hs1 _] | (_ & _ & [(_ & Hm & _) | (cp & Hcp & _)])];
        try congruence. rewrite Hm. reflexivity.
Qed.

Lemma no_browser_no_launch_witness :
  fst (run browserless_world) = 1 /\
  stops_server (snd (run browserless_world)) = true.
Proof.
  destruct (@no_browser_no_launch browserless_world
              (fst (run browserless_world)) (snd (run browserless_world)))
    as (_ & _ & _ & H).
  - reflexivity.
  - apply run_pair.
  - split; [vm_compute; reflexivity|]. apply H. vm_compute. reflexivity.
Defined.

(** X11. An archive without a [slides] directory: the run never starts
    the server, never launches a browser and writes nothing; once the
    archive is extracted, it reports that no slides were found and leaves
    with code 1. *)
Theorem missing_slides_directory w code es :
  listing w = None ->
  run w = (code, es) ->
  code <> 0 /\ serves es = false /\ launched es = false /\
  writes_output es = false /\
  (forall archive dest, In (Called (tarExtract archive dest) true) es ->
     code = 1 /\ In (Console Error MNoSlidesFound) es).
Proof.
  intros Hnone H. apply run_paths in H.
  assert (HnoF : forall slideDirs search, Found w slideDirs search -> False).
  { intros slideDirs search HF. apply Found_listing in HF.
    destruct HF as [l Hl]. congruence. }
  assert (Hready : forall r setup, SetupPath w (Ret r) setup -> False).
  { intros r setup Hs. inversion Hs; subst; eauto. }
  assert (Hserves : forall o setup, SetupPath w o setup -> serves setup = false).
  { intros o setup Hs.
    destruct (setup_serves Hs) as [[E _] | (_ & (sd & se & HF) & _)];
      [exact E|exfalso; eauto]. }
  assert (Hextracted : forall o setup archive dest,
            SetupPath w o setup ->
            In (Called (tarExtract archive dest) true) setup ->
            o = Exited 1 /\ In (Console Error MNoSlidesFound) setup).
  { intros o setup archive dest Hs Hin.
    inversion Hs; subst; try (exfalso; eauto; fail).
    all: try (cbn in Hin; intuition discriminate).
    - split; [reflexivity|]. rewrite in_app_iff. right. cbn. auto.
    - congruence. }
  change (launched es) with (seen_launch (see es)).
  change (writes_output es) with (seen_write (see es)).
  destruct H as [Hargs | c es1 Hargs Hs | es1 Hargs Hs
        | sw sh slides es1 es2 Hargs Hs Hr
        | sw sh slides es1 es2 c Hargs Hs Hr
        | sw sh slides es1 es2 stopped sd Hargs Hs Hr Hsd];
    try (exfalso; eapply Hready; eassumption).
  - split; [discriminate|]. do 3 (split; [reflexivity|]).
    intros a d Hin. cbn in Hin. intuition discriminate.
  - destruct (see_setup Hs) as (E & _ & Hc & _).
    destruct (Hc c eq_refl) as [-> _]. rewrite E. project.
    split; [discriminate|]. split; [eapply Hserves; eassumption|].
    split; [reflexivity|]. split; [reflexivity|].
    intros a d Hin.
    destruct (Hextracted _ _ _ _ Hs Hin) as [_ Hm]. auto.
  - destruct (see_setup Hs) as (E & _).
    rewrite see_app, E. project.
    split; [discriminate|]. split.
    { rewrite serves_app, (Hserves _ _ Hs). reflexivity. }
    split; [reflexivity|]. split; [reflexivity|].
    intros a d Hin. rewrite in_app_iff in Hin.
    destruct Hin as [Hin | Hin]; [|cbn in Hin; intuition discriminate].
    destruct (Hextracted _ _ _ _ Hs Hin) as [Ho _]. discriminate Ho.
Qed.

Lemma missing_slides_directory_witness :
  fst (run empty_world) = 1 /\
  In (Console Error MNoSlidesFound) (snd (run empty_world)).
Proof.
  destruct (@missing_slides_directory empty_world
              (fst (run empty_world)) (snd (run empty_world)))
    as (_ & _ & _ & _ & H).
  - reflexivity.
  - apply run_pair.
  - apply (H (archivePath empty_world) (extracted_path empty_world)).
    vm_compute. tauto.
Defined.

(** X12. [fsp.rm] is called on the working directory exactly in the runs
    that reach the last line of the script: every run that stops before
    it, at whatever stage, leaves the directory it created behind; a run
    that ends with code 0 has asked for the removal. *)
Theorem tmp_removed_at_last_line w code es :
  run w = (code, es) ->
  (removes_tmp es = true <-> logs_done es = true) /\
  (code = 0 -> removes_tmp es = true).
Proof.
  intros H. apply run_paths in H.
  rewrite removes_tmp_cleanup.
  change (cleanup es) with (seen_cleanup (see es)).
  change (logs_done es) with (seen_done (see es)).
  set (is_rm := fun e => match e with
                         | Called (fsp_rm _) _ => true
                         | _ => false
                         end).
  assert (Hsetup : forall o setup,
            SetupPath w o setup -> existsb is_rm (cleanup setup) = false).
  { intros o setup Hs.
    destruct (see_setup Hs) as (_ & _ & _ & [E | (_ & sd & E & _)]);
      rewrite E; reflexivity. }
  assert (Hsd' : forall b l, Shutdown b l -> existsb is_rm l = false)
    by (intros b l []; reflexivity).
  destruct H as [Hargs | c es1 Hargs Hs | es1 Hargs Hs
        | sw sh slides es1 es2 Hargs Hs Hr
        | sw sh slides es1 es2 c Hargs Hs Hr
        | sw sh slides es1 es2 stopped sd Hargs Hs Hr Hsd].
  - cbn. split; [split|]; discriminate.
  - destruct (see_setup Hs) as (E & _ & Hc & _).
    destruct (Hc c eq_refl) as [-> _].
    change (seen_cleanup (see es1)) with (cleanup es1).
    rewrite (Hsetup _ _ Hs), E. cbn. split; [split|]; discriminate.
  - destruct (see_setup Hs) as (E & _).
    rewrite see_app. project.
    change (seen_cleanup (see es1)) with (cleanup es1).
    rewrite ?existsb_app, (Hsetup _ _ Hs), E. cbn.
    split; [split|]; discriminate.
  - destruct (see_setup Hs) as (E & _).
    destruct (see_render Hr) as (_ & removed & E2).
    rewrite see_app, E2. project.
    rewrite ?existsb_app. cbn. rewrite !orb_true_r. tauto.
  - destruct (see_setup Hs) as (E & _).
    destruct (see_render Hr) as (_ & -> & E2).
    rewrite see_app, E2. project.
    change (seen_cleanup (see es1)) with (cleanup es1).
    rewrite ?existsb_app, (Hsetup _ _ Hs), E. cbn.
    split; [split|]; discriminate.
  - destruct (see_setup Hs) as (E & _).
    destruct (see_render Hr) as (_ & Hd & _ & _ & _ & Hc).
    rewrite !see_app, (see_failed_trace Hsd). project.
    change (seen_cleanup (see es1)) with (cleanup es1).
    rewrite ?existsb_app, (Hsetup _ _ Hs), (Hsd' _ _ Hsd), E, Hd.
    assert (Hrm : existsb is_rm (seen_cleanup (see es2)) = false).
    { destruct Hc as [-> | Hc]; [reflexivity|]. apply (Hsd' _ _ Hc). }
    rewrite Hrm. cbn. split; [split|]; discriminate.
Qed.

Lemma tmp_removed_at_last_line_witness :
  removes_tmp (snd (run deck_world)) = true /\
  logs_done (snd (run timeout_world)) = false.
Proof.
  split.
  - destruct (@tmp_removed_at_last_line deck_world (fst (run deck_world))
                (snd (run deck_world)) (run_pair deck_world)) as [_ H].
    apply H. vm_compute. reflexivity.
  - destruct (@tmp_removed_at_last_line timeout_world
                (fst (run timeout_world)) (snd (run timeout_world))
                (run_pair timeout_world)) as [[_ H] _].
    destruct (logs_done (snd (run timeout_world))); [|reflexivity].
    specialize (H eq_refl). vm_compute in H. discriminate H.
Defined.

(* ================================================================== *)
(** ** What a run that reaches the last line went through *)

(** X13. In a run that reaches the last line of the script nothing that
    was awaited rejected but, possibly, what the script is written to
    survive: the reading of [manifest.json], a listing of the slides
    directory (the first one, made for the numeric folders), probe
    requests, and the removal of the working directory. *)
Theorem survived_rejections w code es e :
  run w = (code, es) ->
  logs_done es = true ->
  In e es -> rejected e = true ->
  e = Called (fsp_readFile_staged ["manifest.json"]) false \/
  e = Called (fsp_readdir_staged ["slides"]) false \/
  (exists p, e = Fetched p None) \/
  e = Called (fsp_rm (tmp w)) false.
Proof.
  intros Hrun Hdone Hin Hrej.
  destruct (run_done Hrun Hdone)
    as (_ & tm & ok & slides & search & chrome & removed
        & HF & Hne & Hout & Hes).
  cbn zeta in *.
  destruct e as [c [] | p [status|] | s m]; try discriminate Hrej.
  2:{ right; right; left. exists p. reflexivity. }
  rewrite Hes in Hin. clear Hes Hout Hrun Hdone.
  unfold served_trace, sized_trace, staged_trace, written_trace,
    composed_trace, captured_trace, removal_trace, outDir_trace in Hin.
  hunt Hin.
  - injection Hin as <- _. left. reflexivity.
  - destruct HF; unfold readdir_slides in Hin; hunt Hin;
      injection Hin as <- _; right; left; reflexivity.
  - exfalso. eapply all_ok_In; [apply render_trace_all_ok|exact Hin].
  - exfalso. eapply all_ok_In; [apply compose_trace_ok|exact Hin].
  - injection Hin as <- _. right; right; right. reflexivity.
Qed.

Lemma survived_rejections_witness :
  Called (fsp_rm (tmp sticky_world)) false
    = Called (fsp_readFile_staged ["manifest.json"]) false \/
  Called (fsp_rm (tmp sticky_world)) false
    = Called (fsp_readdir_staged ["slides"]) false \/
  (exists p, Called (fsp_rm (tmp sticky_world)) false = Fetched p None) \/
  Called (fsp_rm (tmp sticky_world)) false
    = Called (fsp_rm (tmp sticky_world)) false.
Proof.
  apply (@survived_rejections sticky_world (fst (run sticky_world))
           (snd (run sticky_world)) (Called (fsp_rm (tmp sticky_world)) false)
           (run_pair sticky_world)).
  - vm_compute. reflexivity.
  - vm_compute. tauto.
  - reflexivity.
Defined.

(* ------------------------------------------------------------------ *)
(** *** Counting the pages *)

(** X14. In a run that reaches the last line of the script the page
    count printed after "PDF written" is the number of pages of the
    document written, which is the number of screenshots taken; it is at
    least 1 and at most the number of slides printed as found. *)
Theorem page_count_report w code es :
  run w = (code, es) ->
  logs_done es = true ->
  exists doc found,
    output es = Some doc /\
    In (Console Log (MPdfWritten (outPdfPath w) (List.length doc))) es /\
    screenshots es = List.length doc /\
    In (Console Log (MFoundSlides found)) es /\
    (1 <= List.length doc <= found)%nat.
Proof.
  intros Hrun Hdone.
  destruct (run_done Hrun Hdone)
    as (_ & tm & ok & slides & search & chrome & removed
        & HF & Hne & Hout & Hes).
  cbn zeta in *.
  set (sw := fst (slideSize (manifest_at w tm))) in *.
  set (sh := snd (slideSize (manifest_at w tm))) in *.
  assert (Hlen : List.length (document w sw sh slides) =
                 List.length (captures w 0 slides)).
  { unfold document, images_of. rewrite !length_map. reflexivity. }
  assert (Hlen' : List.length (images_of w sw sh slides) =
                  List.length (captures w 0 slides)).
  { unfold images_of. rewrite length_map. reflexivity. }
  exists (document w sw sh slides), (List.length slides).
  split; [exact Hout|]. split; [|split; [|split]].
  - rewrite Hes, Hlen, <- Hlen'. rewrite !in_app_iff. right. left.
    unfold written_trace. rewrite !in_app_iff. right. right.
    cbn [In]. auto.
  - rewrite Hes, Hlen. unfold_traces.
    rewrite !screenshots_app, screenshots_render_trace, screenshots_compose_trace.
    assert (Hs : screenshots search = 0%nat) by (destruct HF; reflexivity).
    rewrite Hs.
    destruct (makes_outDir w), removed; cbn; lia.
  - rewrite Hes. rewrite !in_app_iff. left. left.
    unfold served_trace. rewrite !in_app_iff. right. right. cbn [In]. auto.
  - rewrite Hlen. split; [|apply captures_length].
    rewrite <- Hlen'.
    destruct (images_of w sw sh slides); [congruence|cbn; lia].
Qed.

(** Two folders found, one skipped: one screenshot, one page. *)
Lemma page_count_report_witness :
  exists doc,
    output (snd (run hollow_world)) = Some doc /\
    screenshots (snd (run hollow_world)) = List.length doc.
Proof.
  destruct (@page_count_report hollow_world (fst (run hollow_world))
              (snd (run hollow_world)) (run_pair hollow_world))
    as (doc & found & Hout & _ & Hshots & _).
  - vm_compute. reflexivity.
  - exists doc. split; assumption.
Defined.

(* ================================================================== *)
(** ** Listing the numeric folders *)

(** X15. [listNumericSlideFolders] never fails: a listing that rejects,
    as for a missing directory, gives the empty list.  What it returns
    are names made of digits only, each the name of a directory of the
    listing. *)
Theorem listNumericSlideFolders_never_fails w t :
  exists slideDirs ok,
    listNumericSlideFolders w t = (Ret slideDirs, [readdir_slides ok]) /\
    (ok = false -> slideDirs = []) /\
    (listing w = None -> ok = false) /\
    Forall (fun s => test_digits s = true) slideDirs /\
    (forall s, In s slideDirs ->
       exists l, listing w = Some l /\ In s (folder_names l)).
Proof.
  destruct (listNumericSlideFolders w t) as [o es] eqn:H.
  apply listNumericSlideFolders_inv in H.
  destruct H as [(l & Hl & -> & ->) | [-> ->]].
  - exists (numeric_folders l), true. split; [reflexivity|].
    split; [discriminate|]. split; [congruence|]. split.
    + apply Forall_forall. intros s Hs. apply numeric_folders_In in Hs. apply Hs.
    + intros s Hs. apply numeric_folders_In in Hs. exists l. split; [exact Hl|apply Hs].
  - exists [], false. split; [reflexivity|]. split; [reflexivity|].
    split; [reflexivity|]. split; [constructor|]. intros s [].
Qed.

(* ================================================================== *)
(** ** What the capture loop photographs *)

Transparent fetches.

Lemma shots_fetches w paths st tl :
  shots_follow_goto st (fetches w paths ++ tl) = shots_follow_goto st tl.
Proof.
  unfold fetches. induction (probed w paths) as [|p l IH]; [reflexivity|exact IH].
Qed.

Opaque fetches.

(** X16. However the capture loop ends, every screenshot it took - or
    tried to take - comes right after a navigation that went through and
    the wait after it, which went through too, with no other call in
    between; no navigation serves two screenshots. *)
Theorem capture_loop_photographs_navigated w slideWidth slideHeight total
    slideDirs :
  forall i images t o es,
    render_slides w slideWidth slideHeight total i slideDirs images t = (o, es) ->
    shots_follow_goto Idle es = true.
Proof.
  induction slideDirs as [|s rest IH]; intros i images t o es H.
  - cbn in H. injection H as <- <-. reflexivity.
  - cbn [render_slides] in H. unfold bind at 1 in H.
    rewrite probe_tryPaths in H.
    destruct (resolve w s) as [p|] eqn:Hres.
    + unfold bind, console, call in H. cbn [List.length] in H.
      repeat match type of H with
             | context [throws w ?n ?c] => destruct (throws w n c)
             end;
        try (injection H as <- <-; rewrite shots_fetches;
             cbn [app shots_follow_goto]; reflexivity).
      destruct (render_slides w slideWidth slideHeight total (S i) rest _ _)
        as [o' es'] eqn:Hrest.
      apply IH in Hrest.
      injection H as <- <-. rewrite shots_fetches.
      cbn [app shots_follow_goto]. exact Hrest.
    + unfold bind, console in H. cbn [List.length] in H.
      destruct (render_slides w slideWidth slideHeight total (S i) rest _ _)
        as [o' es'] eqn:Hrest.
      apply IH in Hrest.
      injection H as <- <-. rewrite shots_fetches. exact Hrest.
Qed.

Lemma capture_loop_photographs_navigated_witness :
  shots_follow_goto Idle
    (snd (render_slides deck_world (VNum (of_Z 1280)) (VNum (of_Z 720))
            3%nat 0%nat ["2"; "9"; "10"] [] 16%nat)) = true.
Proof.
  destruct (render_slides deck_world (VNum (of_Z 1280)) (VNum (of_Z 720))
              3%nat 0%nat ["2"; "9"; "10"] [] 16%nat) as [o es] eqn:E.
  exact (capture_loop_photographs_navigated E).
Defined.
